(** * cloudsift: examples/generate_sample_report.py

    A shallow embedding of the sample-report generator and the proofs of
    the properties its specification states.

    The script is straight-line Python over dynamically typed values, the
    [random] module, the wall clock, [uuid4] and one output file.  The
    embedding keeps that shape:

    - Python values are the inductive [value]; a [dict] is an association
      list in insertion order (the order [list(d.values())] and [json.dump]
      observe);
    - a [float] is an exact rational of [Q]: every sum and product below is
      the exact one, so equalities between floats are stated with [==];
    - everything the script reads from its environment comes from a [World]:
      the draws of the [random] module, the bytes behind [uuid4] and the
      readings of the clock;
    - a Python exception is the [Raise] branch of [result]; code is written
      in the state-and-exception monad [M]. *)

From Stdlib Require Import ZArith QArith Qround List String Ascii Bool Lia Lqa
  Permutation.
From Stdlib Require DecimalString HexadecimalString.
Import ListNotations.

Local Open Scope string_scope.
Local Open Scope Z_scope.

(** ** Python values *)

#[local] Set Warnings "-register-all".

Inductive value : Type :=
| VBool (b : bool)
| VInt (n : Z)
| VFloat (x : Q)
| VStr (s : string)
| VList (l : list value)
| VDict (d : list (string * value)).

(** A dict with string keys, in insertion order. *)
Definition dict : Type := list (string * value).

Fixpoint dict_get (d : dict) (k : string) : option value :=
  match d with
  | [] => None
  | (k', v) :: d' => if String.eqb k' k then Some v else dict_get d' k
  end.

(** [k in d] *)
Definition dict_mem (d : dict) (k : string) : bool :=
  match dict_get d k with Some _ => true | None => false end.

(** [d[k] = v]: an existing key keeps its position, a new key goes last. *)
Fixpoint dict_set (d : dict) (k : string) (v : value) : dict :=
  match d with
  | [] => [(k, v)]
  | (k', v') :: d' =>
      if String.eqb k' k then (k', v) :: d' else (k', v') :: dict_set d' k v
  end.

(** [d.get(k, dflt)] *)
Definition dict_get_default (d : dict) (k : string) (dflt : value) : value :=
  match dict_get d k with Some v => v | None => dflt end.

(** [d.update(e)] *)
Definition dict_update (d e : dict) : dict :=
  fold_left (fun acc kv => dict_set acc (fst kv) (snd kv)) e d.

Definition dict_keys (d : dict) : list string := map fst d.
Definition dict_values (d : dict) : list value := map snd d.

(** ** Exceptions, the environment and the monad *)

Inductive exn : Type :=
| KeyError | IndexError | ValueError | TypeError | AttributeError
| ZeroDivisionError | OSError.

Inductive result (A : Type) : Type :=
| Ok (a : A)
| Raise (e : exn).
Arguments Ok {A} a.
Arguments Raise {A} e.

(** What a run reads from outside: [entropy] feeds the [random] module (one
    entry per call of its generator), [urandom] feeds [uuid.uuid4] (one
    entry per uuid), [clock] holds the successive readings of
    [datetime.datetime.now()] in microseconds since 1970-01-01T00:00:00
    local time.  A tape that has run out reads as 0. *)
Record World : Type := mkWorld {
  entropy : list N;
  urandom : list N;
  clock : list Z
}.

Definition M (A : Type) : Type := World -> result (A * World).

Definition ret {A : Type} (a : A) : M A := fun w => Ok (a, w).

Definition bind {A B : Type} (c : M A) (k : A -> M B) : M B :=
  fun w => match c w with
           | Ok (a, w') => k a w'
           | Raise e => Raise e
           end.

Definition raise {A : Type} (e : exn) : M A := fun _ => Raise e.

Declare Scope py_scope.
Delimit Scope py_scope with py.
Notation "x <- c ;; k" := (bind c (fun x => k))
  (at level 61, c at next level, right associativity) : py_scope.
Local Open Scope py_scope.

Definition next_entropy : M N :=
  fun w => match entropy w with
           | [] => Ok (0%N, w)
           | x :: t => Ok (x, mkWorld t (urandom w) (clock w))
           end.

Definition next_urandom : M N :=
  fun w => match urandom w with
           | [] => Ok (0%N, w)
           | x :: t => Ok (x, mkWorld (entropy w) t (clock w))
           end.

Definition next_clock : M Z :=
  fun w => match clock w with
           | [] => Ok (0, w)
           | x :: t => Ok (x, mkWorld (entropy w) (urandom w) t)
           end.

(** ** Dynamic typing: reading a value at the type an operation needs *)

(** [d[k]] on a dict *)
Definition getitem (d : dict) (k : string) : M value :=
  match dict_get d k with
  | Some v => ret v
  | None => raise KeyError
  end.

(** [v[k]] on an arbitrary value with a string subscript *)
Definition subscript (v : value) (k : string) : M value :=
  match v with
  | VDict d => getitem d k
  | _ => raise TypeError
  end.

Definition as_dict (v : value) : M dict :=
  match v with VDict d => ret d | _ => raise TypeError end.

Definition as_list (v : value) : M (list value) :=
  match v with VList l => ret l | _ => raise TypeError end.

Definition as_str (v : value) : M string :=
  match v with VStr s => ret s | _ => raise TypeError end.

(** The numeric reading used by [+], [*] with a float on the other side. *)
Definition as_number (v : value) : M Q :=
  match v with
  | VFloat x => ret x
  | VInt n => ret (inject_Z n)
  | VBool b => ret (if b then 1%Q else 0%Q)
  | _ => raise TypeError
  end.

(** [float(v)].  Parsing a numeric string is not modelled: no string reaches
    [float] in this program.  Nor is the [OverflowError] of an int beyond the
    range of a float, nor the rounding of an int above 2^53: the ints the
    program converts are at most 100. *)
Definition py_float (v : value) : M Q :=
  match v with
  | VFloat x => ret x
  | VInt n => ret (inject_Z n)
  | VBool b => ret (if b then 1%Q else 0%Q)
  | VStr _ => raise ValueError
  | _ => raise TypeError
  end.

(** [int(x)] of a float: truncation towards zero, here of the exact value. *)
Definition int_of_float (x : Q) : Z := Z.quot (Qnum x) (QDen x).

(** [int(v)], with the same proviso on strings as [py_float]. *)
Definition py_int (v : value) : M Z :=
  match v with
  | VInt n => ret n
  | VFloat x => ret (int_of_float x)
  | VBool b => ret (if b then 1 else 0)
  | VStr _ => raise ValueError
  | _ => raise TypeError
  end.

(** [v.get(k, dflt)]: only a dict has the method. *)
Definition method_get (v : value) (k : string) (dflt : value) : M value :=
  match v with
  | VDict d => ret (dict_get_default d k dflt)
  | _ => raise AttributeError
  end.

(** [rates.get(key, dflt)] for a table of floats keyed by strings: a key that
    is not a string is not in the table, an unhashable one is a TypeError. *)
Fixpoint rate_lookup (rates : list (string * Q)) (k : string) : option Q :=
  match rates with
  | [] => None
  | (k', x) :: t => if String.eqb k' k then Some x else rate_lookup t k
  end.

Definition rates_get (rates : list (string * Q)) (key : value) (dflt : Q) : M Q :=
  match key with
  | VStr s => ret (match rate_lookup rates s with Some x => x | None => dflt end)
  | VList _ | VDict _ => raise TypeError
  | _ => ret dflt
  end.

(** [a / b] on numbers *)
Definition truediv (a b : Q) : M Q :=
  if Qeq_bool b 0 then raise ZeroDivisionError else ret (a / b)%Q.

(** [round(x, ndigits)] in exact arithmetic: the nearest multiple of
    [10^-ndigits], ties to the even one. *)
Definition round_half_even (x : Q) : Z :=
  let f := Qfloor x in
  let r := (x - inject_Z f)%Q in
  match (r ?= 1 # 2)%Q with
  | Lt => f
  | Gt => f + 1
  | Eq => if Z.even f then f else f + 1
  end.

Definition py_round (x : Q) (ndigits : nat) : Q :=
  let s := Z.pow 10 (Z.of_nat ndigits) in
  (inject_Z (round_half_even (x * inject_Z s)) / inject_Z s)%Q.

(** ** The [random] module

    One call of the underlying generator consumes one entry of [entropy].
    [_randbelow(n)] is the entry reduced modulo [n]; [random()] is a 53-bit
    integer over [2^53], as in CPython. *)

Definition randbelow (n : Z) : M Z :=
  x <- next_entropy ;; ret (Z.of_N x mod n).

Definition random_random : M Q :=
  x <- next_entropy ;; ret (Qmake (Z.of_N x mod 2 ^ 53) (2 ^ 53)).

(** [random.randint(a, b)]: ValueError on an empty range. *)
Definition randint (a b : Z) : M Z :=
  if b <? a then raise ValueError
  else r <- randbelow (b - a + 1) ;; ret (a + r).

(** [random.uniform(a, b)] *)
Definition uniform (a b : Q) : M Q :=
  u <- random_random ;; ret (a + (b - a) * u)%Q.

(** [random.choice(seq)]: IndexError on an empty sequence. *)
Definition choice {A : Type} (seq : list A) : M A :=
  match seq with
  | [] => raise IndexError
  | x :: _ => i <- randbelow (Z.of_nat (List.length seq)) ;; ret (nth (Z.to_nat i) seq x)
  end.

(** [pool[j] = v] *)
Fixpoint list_set {A : Type} (l : list A) (j : nat) (v : A) : list A :=
  match l, j with
  | [], _ => []
  | _ :: t, O => v :: t
  | x :: t, S j' => x :: list_set t j' v
  end.

(** The selection loop of [random.sample] over a pool (the branch CPython
    takes for populations of at most 21 elements, all of them here):
    [j = _randbelow(n - i); result[i] = pool[j]; pool[j] = pool[n - i - 1]],
    where [n] below is the [n - i] of the source. *)
Fixpoint sample_loop {A : Type} (pool : list A) (n k : nat) : M (list A) :=
  match k with
  | O => ret []
  | S k' =>
      j <- randbelow (Z.of_nat n) ;;
      match nth_error pool (Z.to_nat j), nth_error pool (n - 1) with
      | Some x, Some last =>
          rest <- sample_loop (list_set pool (Z.to_nat j) last) (n - 1) k' ;;
          ret (x :: rest)
      | _, _ => raise IndexError
      end
  end.

(** [random.sample(population, k)]: ValueError when [k] is negative or larger
    than the population. *)
Definition sample {A : Type} (population : list A) (k : Z) : M (list A) :=
  let n := List.length population in
  if (k <? 0) || (Z.of_nat n <? k) then raise ValueError
  else sample_loop population n (Z.to_nat k).

(** ** Strings and formatting *)

Definition lower_ascii (c : ascii) : ascii :=
  let n := nat_of_ascii c in
  if ((65 <=? n) && (n <=? 90))%nat then ascii_of_nat (n + 32) else c.

(** [s.lower()] *)
Fixpoint lower (s : string) : string :=
  match s with
  | EmptyString => EmptyString
  | String c t => String (lower_ascii c) (lower t)
  end.

(** [s.replace(a, b)] for one-character [a] and [b] *)
Fixpoint replace_char (a b : ascii) (s : string) : string :=
  match s with
  | EmptyString => EmptyString
  | String c t => String (if Ascii.eqb c a then b else c) (replace_char a b t)
  end.

(** [sub in s] *)
Fixpoint contains (sub s : string) : bool :=
  if prefix sub s then true
  else match s with
       | EmptyString => false
       | String _ t => contains sub t
       end.

Fixpoint zeros (n : nat) : string :=
  match n with
  | O => EmptyString
  | S n' => String "0" (zeros n')
  end.

(** [s.zfill(width)] of an unsigned numeral *)
Definition zfill (width : nat) (s : string) : string :=
  zeros (width - String.length s) ++ s.

(** [str(n)] of an int *)
Definition str_int (n : Z) : string :=
  DecimalString.NilZero.string_of_int (Z.to_int n).

(** [f"{n:x}"] of a non-negative int *)
Definition hex_int (n : Z) : string :=
  HexadecimalString.NilZero.string_of_uint (N.to_hex_uint (Z.to_N n)).

(** [f"{n:08x}"] *)
Definition hex08 (n : Z) : string := zfill 8 (hex_int n).

(** [str(x)] of a non-negative float that is a multiple of 1/100, which is
    what [round(_, 1)] and [round(_, 2)] return: the integer part, a point,
    and one or two decimals ("3.0", "3.1", "3.14"). *)
Definition str_float (x : Q) : string :=
  let h := Qfloor (x * 100) in
  let ip := h / 100 in
  let fp := h mod 100 in
  str_int ip ++ "." ++
  (if fp mod 10 =? 0 then str_int (fp / 10) else zfill 2 (str_int fp)).

(** [s[:n]] *)
Definition take_str (n : nat) (s : string) : string := substring 0 n s.

(** ** [datetime] and [uuid]

    A datetime is its number of microseconds since 1970-01-01T00:00:00 (naive
    local time).  The bounds of Python's datetime range (years 1 to 9999) are
    not modelled: a shift past them, on which Python raises [OverflowError],
    gives a number here.  [clock_in_range] below says of an environment that
    no shift of the program leaves the range. *)

Definition datetime_now : M Z := next_clock.

(** [datetime.timedelta(days=d)] in microseconds *)
Definition timedelta_days (d : Z) : Z := d * 86400000000.

(** Year, month and day of a day number counted from 1970-01-01 (proleptic
    Gregorian calendar). *)
Definition civil_from_days (z : Z) : Z * Z * Z :=
  let z := z + 719468 in
  let era := z / 146097 in
  let doe := z - era * 146097 in
  let yoe := (doe - doe / 1460 + doe / 36524 - doe / 146096) / 365 in
  let y := yoe + era * 400 in
  let doy := doe - (365 * yoe + yoe / 4 - yoe / 100) in
  let mp := (5 * doy + 2) / 153 in
  let d := doy - (153 * mp + 2) / 5 + 1 in
  let m := if mp <? 10 then mp + 3 else mp - 9 in
  (if m <=? 2 then y + 1 else y, m, d).

Definition pad (width : nat) (n : Z) : string := zfill width (str_int n).

(** [t.isoformat()]: the microseconds are printed only when they are not 0. *)
Definition isoformat (t : Z) : string :=
  let us := t mod 1000000 in
  let s := t / 1000000 in
  let sod := s mod 86400 in
  let '(y, m, d) := civil_from_days (s / 86400) in
  pad 4 y ++ "-" ++ pad 2 m ++ "-" ++ pad 2 d ++ "T" ++
  pad 2 (sod / 3600) ++ ":" ++ pad 2 (sod mod 3600 / 60) ++ ":" ++
  pad 2 (sod mod 60) ++ (if us =? 0 then "" else "." ++ pad 6 us).

(** [uuid.uuid4()]: 128 random bits with the variant and version bits set. *)
Definition uuid4_int (r : N) : Z :=
  let i := Z.of_N r mod 2 ^ 128 in
  let i := Z.land i (Z.lnot (Z.shiftl 0xc000 48)) in
  let i := Z.lor i (Z.shiftl 0x8000 48) in
  let i := Z.land i (Z.lnot (Z.shiftl 0xf000 64)) in
  Z.lor i (Z.shiftl 4 76).

(** [uuid.uuid4().hex] *)
Definition uuid4_hex : M string :=
  r <- next_urandom ;; ret (zfill 32 (hex_int (uuid4_int r))).

(** ** More of the dynamic semantics *)

(** An int-like value ([bool] is a subclass of [int]). *)
Definition int_like (v : value) : option Z :=
  match v with
  | VInt n => Some n
  | VBool b => Some (if b then 1 else 0)
  | _ => None
  end.

Definition number_like (v : value) : option Q :=
  match v with
  | VFloat x => Some x
  | VInt n => Some (inject_Z n)
  | VBool b => Some (if b then 1%Q else 0%Q)
  | _ => None
  end.

(** [a + b] (and so [a += b]): ints add to an int, numbers with a float among
    them to a float, strings and lists concatenate; anything else is a
    TypeError. *)
Definition py_add (a b : value) : M value :=
  match int_like a, int_like b with
  | Some m, Some n => ret (VInt (m + n))
  | _, _ =>
      match number_like a, number_like b with
      | Some x, Some y => ret (VFloat (x + y))
      | _, _ =>
          match a, b with
          | VStr s, VStr t => ret (VStr (s ++ t))
          | VList l, VList m => ret (VList (l ++ m)%list)
          | _, _ => raise TypeError
          end
      end
  end.

(** [len(v)] *)
Definition py_len (v : value) : M Z :=
  match v with
  | VList l => ret (Z.of_nat (List.length l))
  | VDict d => ret (Z.of_nat (List.length d))
  | VStr s => ret (Z.of_nat (String.length s))
  | _ => raise TypeError
  end.

(** [l.extend(m)] *)
Definition extend {A : Type} (l m : list A) : list A := (l ++ m)%list.

(** [v.append(x)] *)
Definition method_append (v x : value) : M value :=
  match v with
  | VList l => ret (VList (extend l [x]))
  | _ => raise AttributeError
  end.

(** [range(n)] *)
Definition range (n : Z) : list Z := map Z.of_nat (seq 0 (Z.to_nat n)).

(** [for x in xs: state = body(state, x)] *)
Fixpoint for_each {S A : Type} (body : S -> A -> M S) (xs : list A) (s : S) : M S :=
  match xs with
  | [] => ret s
  | x :: xs' => s' <- body s x ;; for_each body xs' s'
  end.

Notation "a =s b" := (String.eqb a b) (at level 70, no associativity).

(** ** The program *)

Definition generate_resource_name (resource_type : string) : M string :=
  if resource_type =s "EC2 Instance" then ret "app-server"
  else if resource_type =s "RDS Instance" then
    let engines := ["mysql"; "postgres"; "aurora-postgresql"] in
    engine <- choice engines ;;
    ret (engine ++ "-db")
  else if resource_type =s "DynamoDB Table" then ret "user-data"
  else if resource_type =s "EBS Volume" then ret "data-volume"
  else if resource_type =s "EBS Snapshot" then ret "backup"
  else if resource_type =s "Elastic IP" then ret "static-ip"
  else if resource_type =s "ELB" then ret "load-balancer"
  else if resource_type =s "IAM Role" then ret "service-role"
  else if resource_type =s "IAM User" then ret "system-user"
  else if resource_type =s "OpenSearch Domain" then ret "search-cluster"
  else ret "resource".

(** The local list [reasons] of [generate_resource_reasons] as it stands when
    the function reaches its last line; [days_ago] is printed as an int. *)
Definition resource_reasons_list (resource_type : string) (days_ago : Z)
  : M (list string) :=
  let reasons : list string := [] in
  u <- uniform 1 5 ;; let cpu_util := py_round u 2 in
  u <- uniform 1 8 ;; let memory_util := py_round u 2 in
  u <- uniform 0.1 2 ;; let network_util := py_round u 2 in
  if resource_type =s "EC2 Instance" then
    ret (extend reasons [
      "Low CPU utilization (average " ++ str_float cpu_util ++ "%) in the last "
        ++ str_int days_ago ++ " days";
      "Low memory utilization (average " ++ str_float memory_util ++ "%)";
      "Minimal network traffic (" ++ str_float network_util ++ " KB/s average)"])
  else if resource_type =s "RDS Instance" then
    connections <- randint 0 5 ;;
    u <- uniform 5 20 ;; let storage_used := py_round u 1 in
    ret (extend reasons [
      "Low connection count (average " ++ str_int connections
        ++ " active connections/day)";
      "Low storage utilization (" ++ str_float storage_used ++ "% used)";
      "Minimal query activity in the last " ++ str_int days_ago ++ " days"])
  else if resource_type =s "DynamoDB Table" then
    u <- uniform 0.1 2 ;; let read_capacity := py_round u 2 in
    u <- uniform 0.1 1 ;; let write_capacity := py_round u 2 in
    ret (extend reasons [
      "Low read capacity utilization (" ++ str_float read_capacity
        ++ "% of provisioned)";
      "Low write capacity utilization (" ++ str_float write_capacity
        ++ "% of provisioned)";
      "No table updates in past month"])
  else if resource_type =s "EBS Volume" then
    iops <- randint 1 10 ;;
    ret (extend reasons [
      "Low I/O activity (average " ++ str_int iops ++ " IOPS)";
      "No snapshot created";
      "Not attached to any active instance"])
  else if resource_type =s "EBS Snapshot" then
    age <- randint 180 365 ;;
    ret (extend reasons [
      "Snapshot is " ++ str_int age ++ " days old";
      "Source volume no longer exists";
      "Multiple redundant snapshots exist"])
  else if resource_type =s "Elastic IP" then
    ret (extend reasons [
      "Not associated with any running instance";
      "No network traffic in " ++ str_int days_ago ++ " days";
      "No DNS records pointing to this IP"])
  else if resource_type =s "ELB" then
    requests <- randint 1 10 ;;
    ret (extend reasons [
      "Low request count (average " ++ str_int requests ++ " requests/minute)";
      "No healthy backend instances";
      "Minimal network traffic (" ++ str_float network_util ++ " KB/s average)"])
  else if resource_type =s "IAM Role" then
    ret (extend reasons [
      "No API calls in the last " ++ str_int days_ago ++ " days";
      "No attached policies";
      "No services using this role"])
  else if resource_type =s "IAM User" then
    ret (extend reasons [
      "No console or API activity in " ++ str_int days_ago ++ " days";
      "No attached policies";
      "User has never logged in"])
  else if resource_type =s "OpenSearch Domain" then
    search_requests <- randint 1 5 ;;
    u <- uniform 0.1 2 ;; let index_size := py_round u 2 in
    ret (extend reasons [
      "Low search traffic (average " ++ str_int search_requests
        ++ " requests/minute)";
      "Small index size (" ++ str_float index_size ++ " GB)";
      "No index updates in past month"])
  else ret reasons.

Definition generate_resource_reasons (resource_type : string) (days_ago : Z)
  : M (list string) :=
  reasons <- resource_reasons_list resource_type days_ago ;;
  (* Randomly select 2-3 reasons *)
  k <- randint 2 3 ;;
  sample reasons k.

(** [(datetime.datetime.now() - datetime.timedelta(days=random.randint(lo, hi))).isoformat()] *)
Definition timestamp_days_ago (lo hi : Z) : M string :=
  now <- datetime_now ;;
  d <- randint lo hi ;;
  ret (isoformat (now - timedelta_days d)).

(** [f"{resource_type.lower().replace(' ', '-')}-{random.randint(10000000, 99999999):08x}"] *)
Definition slug_hex_id (resource_type : string) : M string :=
  n <- randint 10000000 99999999 ;;
  ret (replace_char " " "-" (lower resource_type) ++ "-" ++ hex08 n).

(** [uuid.uuid4().hex[:8]] *)
Definition uuid8 : M string :=
  h <- uuid4_hex ;; ret (take_str 8 h).

Definition generate_resource_details (resource_type : string) : M dict :=
  let details : dict := [] in
  if resource_type =s "EC2 Instance" then
    let instance_types := ["t3.micro"; "t3.small"; "t3.medium"; "t3.large"; "r5.xlarge"] in
    instance_type <- choice instance_types ;;
    let details := dict_set details "InstanceType" (VStr instance_type) in
    state <- choice ["running"; "stopped"] ;;
    let details := dict_set details "State" (VStr state) in
    launch_time <- timestamp_days_ago 30 365 ;;
    let details := dict_set details "LaunchTime" (VStr launch_time) in
    name <- generate_resource_name resource_type ;;
    env <- choice ["dev"; "stg"; "prod"] ;;
    team <- choice ["platform"; "backend"; "frontend"] ;;
    let details := dict_set details "Tags" (VList [
      VDict [("Key", VStr "Name"); ("Value", VStr (name ++ "-01"))];
      VDict [("Key", VStr "Environment"); ("Value", VStr (lower env))];
      VDict [("Key", VStr "Team"); ("Value", VStr team)]]) in
    sg1 <- uuid8 ;;
    sg2 <- uuid8 ;;
    let details := dict_set details "SecurityGroups" (VList [
      VDict [("GroupId", VStr ("sg-" ++ sg1)); ("GroupName", VStr "default")];
      VDict [("GroupId", VStr ("sg-" ++ sg2)); ("GroupName", VStr "app-server")]]) in
    eni <- uuid8 ;;
    a <- randint 1 255 ;;
    b <- randint 1 255 ;;
    c <- randint 1 255 ;;
    d <- randint 1 255 ;;
    e <- randint 1 255 ;;
    let details := dict_set details "NetworkInterfaces" (VList [
      VDict [("NetworkInterfaceId", VStr ("eni-" ++ eni));
             ("PrivateIpAddress", VStr ("10.0." ++ str_int a ++ "." ++ str_int b));
             ("PublicIpAddress",
              VStr ("54." ++ str_int c ++ "." ++ str_int d ++ "." ++ str_int e))]]) in
    ret details
  else if resource_type =s "RDS Instance" then
    let instance_classes := ["db.t3.micro"; "db.t3.small"; "db.t3.medium"; "db.r5.large"] in
    instance_class <- choice instance_classes ;;
    let details := dict_set details "DBInstanceClass" (VStr instance_class) in
    engine <- choice ["mysql"; "postgres"; "aurora"] ;;
    let details := dict_set details "Engine" (VStr engine) in
    let details := dict_set details "EngineVersion" (VStr "8.0.28") in
    ident <- slug_hex_id resource_type ;;
    let details := dict_set details "DBInstanceIdentifier" (VStr ident) in
    let details := dict_set details "DBInstanceStatus" (VStr "available") in
    let details := dict_set details "MasterUsername" (VStr "admin") in
    h <- uuid8 ;;
    eng <- getitem details "Engine" ;;
    eng <- as_str eng ;;
    let details := dict_set details "Endpoint" (VDict [
      ("Address", VStr ("db-" ++ h ++ ".cluster-xyz.region.rds.amazonaws.com"));
      ("Port", VInt (if contains "postgres" eng then 5432 else 3306))]) in
    storage <- randint 50 1000 ;;
    let details := dict_set details "AllocatedStorage" (VInt storage) in
    let details := dict_set details "PreferredBackupWindow" (VStr "03:00-04:00") in
    retention <- choice [7; 14; 30; 35] ;;
    let details := dict_set details "BackupRetentionPeriod" (VInt retention) in
    sg <- uuid8 ;;
    let details := dict_set details "VpcSecurityGroups" (VList [
      VDict [("VpcSecurityGroupId", VStr ("sg-" ++ sg)); ("Status", VStr "active")]]) in
    multi_az <- choice [true; false] ;;
    let details := dict_set details "MultiAZ" (VBool multi_az) in
    let details := dict_set details "PubliclyAccessible" (VBool false) in
    let details := dict_set details "StorageEncrypted" (VBool true) in
    let details := dict_set details "PerformanceInsights" (VDict [
      ("Enabled", VBool true); ("RetentionPeriod", VInt 7)]) in
    ret details
  else if resource_type =s "EBS Volume" then
    size <- randint 8 100 ;;
    let details := dict_set details "Size" (VInt size) in
    volume_type <- choice ["gp2"; "gp3"; "io1"] ;;
    let details := dict_set details "VolumeType" (VStr volume_type) in
    let details := dict_set details "State" (VStr "available") in
    volume_id <- slug_hex_id resource_type ;;
    let details := dict_set details "VolumeId" (VStr volume_id) in
    let details := dict_set details "Encrypted" (VBool true) in
    iops <- randint 100 3000 ;;
    let details := dict_set details "Iops" (VInt iops) in
    let details := dict_set details "MultiAttach" (VBool false) in
    ret details
  else if resource_type =s "EBS Snapshot" then
    size <- randint 8 100 ;;
    let details := dict_set details "VolumeSize" (VInt size) in
    let details := dict_set details "State" (VStr "completed") in
    start_time <- timestamp_days_ago 30 365 ;;
    let details := dict_set details "StartTime" (VStr start_time) in
    volume_id <- slug_hex_id resource_type ;;
    let details := dict_set details "VolumeId" (VStr volume_id) in
    ret details
  else if resource_type =s "DynamoDB Table" then
    rcu <- randint 1 3 ;;
    wcu <- randint 1 2 ;;
    let details := dict_set details "ProvisionedThroughput" (VDict [
      ("ReadCapacityUnits", VInt rcu); ("WriteCapacityUnits", VInt wcu)]) in
    let details := dict_set details "TableStatus" (VStr "ACTIVE") in
    name <- generate_resource_name resource_type ;;
    let details := dict_set details "TableName" (VStr (name ++ "-01")) in
    created <- timestamp_days_ago 30 365 ;;
    let details := dict_set details "CreationDateTime" (VStr created) in
    size_bytes <- randint 1000 1000000 ;;
    let details := dict_set details "TableSizeBytes" (VInt size_bytes) in
    item_count <- randint 0 1000 ;;
    let details := dict_set details "ItemCount" (VInt item_count) in
    stream <- choice [true; false] ;;
    let details := dict_set details "StreamEnabled" (VBool stream) in
    ret details
  else if resource_type =s "IAM User" then
    created <- timestamp_days_ago 30 365 ;;
    let details := dict_set details "CreateDate" (VStr created) in
    last_used <- timestamp_days_ago 30 365 ;;
    let details := dict_set details "PasswordLastUsed" (VStr last_used) in
    groups <- randint 0 3 ;;
    let details := dict_set details "Groups" (VInt groups) in
    ret details
  else if resource_type =s "IAM Role" then
    created <- timestamp_days_ago 30 365 ;;
    let details := dict_set details "CreateDate" (VStr created) in
    last_used <- timestamp_days_ago 30 365 ;;
    let details := dict_set details "LastUsedDate" (VStr last_used) in
    policies <- randint 1 5 ;;
    let details := dict_set details "AttachedPolicies" (VInt policies) in
    ret details
  else if resource_type =s "Elastic IP" then
    a <- randint 0 255 ;;
    b <- randint 0 255 ;;
    c <- randint 0 255 ;;
    let details := dict_set details "PublicIp"
      (VStr ("54." ++ str_int a ++ "." ++ str_int b ++ "." ++ str_int c)) in
    n <- randint 10000000 99999999 ;;
    let details := dict_set details "AllocationId" (VStr ("eipalloc-" ++ hex08 n)) in
    let details := dict_set details "Domain" (VStr "vpc") in
    ret details
  else if resource_type =s "OpenSearch Domain" then
    let instance_types := ["t3.small.search"; "t3.medium.search"; "r5.large.search"] in
    instance_type <- choice instance_types ;;
    let details := dict_set details "InstanceType" (VStr instance_type) in
    let details := dict_set details "EngineVersion" (VStr "OpenSearch_1.0") in
    count <- randint 1 3 ;;
    master <- choice [true; false] ;;
    let details := dict_set details "ClusterConfig" (VDict [
      ("InstanceCount", VInt count); ("DedicatedMasterEnabled", VBool master)]) in
    ret details
  else ret details.

Definition calculate_scan_metrics (total_resources : value) : M dict :=
  (* Fixed total run time of 1 minute (60 seconds) *)
  let total_run_time_seconds := 60 in
  (* Calculate number of workers *)
  let max_workers := 10 in
  peak_workers <- randint 7 max_workers ;;
  q <- truediv (inject_Z peak_workers) (inject_Z max_workers) ;;
  let worker_utilization := (q * 100)%Q in
  (* Calculate tasks per second (between 5-8 tasks/sec) *)
  tasks_per_second <- uniform 5.0 8.0 ;;
  let total_scans :=
    int_of_float (tasks_per_second * inject_Z total_run_time_seconds) in
  (* Calculate completed and failed scans *)
  failed_scans <- randint 1 3 ;;
  let completed_scans := total_scans - failed_scans in
  (* Calculate average execution time in milliseconds *)
  avg_execution_time_ms <-
    truediv (inject_Z (total_run_time_seconds * 1000)) (inject_Z total_scans) ;;
  now <- datetime_now ;;
  total_cost <- uniform 5000 15000 ;;
  ret [("CompletedAt", VStr (isoformat (now + timedelta_days 365)));
       ("TotalResources", total_resources);
       ("ResourcesByType", VDict []);
       ("TotalCost", VFloat total_cost);
       ("TotalScans", VInt total_scans);
       ("CompletedScans", VInt completed_scans);
       ("FailedScans", VInt failed_scans);
       ("TasksPerSecond", VFloat tasks_per_second);
       ("AvgExecutionTimeMs", VFloat (py_round avg_execution_time_ms 2));
       ("WorkerUtilization", VFloat worker_utilization);
       ("PeakWorkers", VInt peak_workers);
       ("MaxWorkers", VInt max_workers);
       ("TotalRunTime", VStr "1m0s")].

(** [d[k]] read as a number, for [d[k] * c] and [d[k] / c]. *)
Definition getnum (d : dict) (k : string) : M Q :=
  v <- getitem d k ;; as_number v.

(** [v == s] for a string literal [s] *)
Definition value_eq_str (v : value) (s : string) : bool :=
  match v with VStr t => t =s s | _ => false end.

Definition calculate_resource_costs (resource_type : string) (details : dict)
  : M dict :=
  let costs : dict :=
    [("hourly", VFloat 0.0); ("daily", VFloat 0.0); ("monthly", VFloat 0.0);
     ("yearly", VFloat 0.0); ("lifetime", VFloat 0.0)] in
  costs <-
    (if resource_type =s "EC2 Instance" then
       (* EC2 pricing based on instance type *)
       let instance_type := dict_get_default details "InstanceType" (VStr "t3.micro") in
       let hourly_rates :=
         [("t3.micro", 0.0104); ("t3.small", 0.0208); ("t3.medium", 0.0416);
          ("t3.large", 0.0832); ("r5.xlarge", 0.252); ("r5.2xlarge", 0.504);
          ("r5.4xlarge", 1.008)]%Q in
       rate <- rates_get hourly_rates instance_type 0.0416 ;;
       let costs := dict_set costs "hourly" (VFloat (rate / 2)) in
       h <- getnum costs "hourly" ;;
       let costs := dict_set costs "daily" (VFloat (h * 24)) in
       d <- getnum costs "daily" ;;
       let costs := dict_set costs "monthly" (VFloat (d * 30.44)) in
       ret costs
     else if resource_type =s "RDS Instance" then
       (* RDS pricing (slightly higher than EC2) *)
       let instance_class := dict_get_default details "DBInstanceClass" (VStr "db.t3.medium") in
       let hourly_rates :=
         [("db.t3.micro", 0.017); ("db.t3.small", 0.034); ("db.t3.medium", 0.068);
          ("db.r5.large", 0.29); ("db.r5.xlarge", 0.58)]%Q in
       rate <- rates_get hourly_rates instance_class 0.068 ;;
       let costs := dict_set costs "hourly" (VFloat (rate / 3)) in
       h <- getnum costs "hourly" ;;
       let costs := dict_set costs "daily" (VFloat (h * 24)) in
       d <- getnum costs "daily" ;;
       let costs := dict_set costs "monthly" (VFloat (d * 30.44)) in
       ret costs
     else if resource_type =s "EBS Volume" then
       (* EBS pricing ($0.08 per GB-month for gp3) *)
       size_gb <- py_float (dict_get_default details "Size" (VInt 20)) ;;
       let volume_type := dict_get_default details "VolumeType" (VStr "gp3") in
       let price_per_gb := (if value_eq_str volume_type "gp2" then 0.10 else 0.08)%Q in
       let costs := dict_set costs "monthly" (VFloat (size_gb * price_per_gb)) in
       m <- getnum costs "monthly" ;;
       let costs := dict_set costs "daily" (VFloat (m / 30.44)) in
       d <- getnum costs "daily" ;;
       let costs := dict_set costs "hourly" (VFloat (d / 24)) in
       ret costs
     else if resource_type =s "EBS Snapshot" then
       (* EBS Snapshot pricing ($0.05 per GB-month) *)
       size_gb <- py_float (dict_get_default details "VolumeSize" (VInt 20)) ;;
       let costs := dict_set costs "monthly" (VFloat (size_gb * 0.05)) in
       m <- getnum costs "monthly" ;;
       let costs := dict_set costs "daily" (VFloat (m / 30.44)) in
       d <- getnum costs "daily" ;;
       let costs := dict_set costs "hourly" (VFloat (d / 24)) in
       ret costs
     else if resource_type =s "Elastic IP" then
       (* Elastic IP pricing (charged when not attached to running instance) *)
       let costs := dict_set costs "hourly" (VFloat 0.005) in
       h <- getnum costs "hourly" ;;
       let costs := dict_set costs "daily" (VFloat (h * 24)) in
       d <- getnum costs "daily" ;;
       let costs := dict_set costs "monthly" (VFloat (d * 30.44)) in
       ret costs
     else if resource_type =s "DynamoDB Table" then
       (* DynamoDB pricing (based on provisioned capacity) *)
       r <- method_get (dict_get_default details "ProvisionedThroughput" (VDict []))
                       "ReadCapacityUnits" (VInt 5) ;;
       read_capacity <- py_int r ;;
       w <- method_get (dict_get_default details "ProvisionedThroughput" (VDict []))
                       "WriteCapacityUnits" (VInt 5) ;;
       write_capacity <- py_int w ;;
       let costs := dict_set costs "hourly"
         (VFloat (inject_Z read_capacity * 0.00013 + inject_Z write_capacity * 0.00065)) in
       h <- getnum costs "hourly" ;;
       let costs := dict_set costs "daily" (VFloat (h * 24)) in
       d <- getnum costs "daily" ;;
       let costs := dict_set costs "monthly" (VFloat (d * 30.44)) in
       ret costs
     else if resource_type =s "ELB" then
       (* ELB pricing *)
       let costs := dict_set costs "hourly" (VFloat 0.0225) in
       h <- getnum costs "hourly" ;;
       let costs := dict_set costs "daily" (VFloat (h * 24)) in
       d <- getnum costs "daily" ;;
       let costs := dict_set costs "monthly" (VFloat (d * 30.44)) in
       ret costs
     else if resource_type =s "OpenSearch Domain" then
       (* OpenSearch pricing (based on instance type) *)
       let instance_type := dict_get_default details "InstanceType" (VStr "t3.small.search") in
       let hourly_rates :=
         [("t3.small.search", 0.036); ("t3.medium.search", 0.073);
          ("r5.large.search", 0.186)]%Q in
       rate <- rates_get hourly_rates instance_type 0.036 ;;
       let costs := dict_set costs "hourly" (VFloat (rate / 2)) in
       h <- getnum costs "hourly" ;;
       let costs := dict_set costs "daily" (VFloat (h * 24)) in
       d <- getnum costs "daily" ;;
       let costs := dict_set costs "monthly" (VFloat (d * 30.44)) in
       ret costs
     else ret costs) ;;
  (* Calculate yearly and lifetime costs *)
  m <- getnum costs "monthly" ;;
  let costs := dict_set costs "yearly" (VFloat (m * 12)) in
  y <- getnum costs "yearly" ;;
  k <- randint (-1) 3 ;;
  let costs := dict_set costs "lifetime" (VFloat (y * inject_Z k)) in
  ret costs.

Definition generate_random_regions : M (list string) :=
  let regions := ["us-east-1"; "us-east-2"; "us-west-1"; "us-west-2";
                  "eu-central-1"; "eu-west-1"; "ap-southeast-1"] in
  k <- randint 3 7 ;;
  sample regions k.

(** The fixed catalog of [generate_sample_data]. *)
Definition resource_types : list string :=
  ["EC2 Instance"; "RDS Instance"; "ELB"; "EBS Volume"; "EBS Snapshot";
   "DynamoDB Table"; "IAM User"; "IAM Role"; "Elastic IP"; "OpenSearch Domain"].

Definition periods : list string :=
  ["hourly"; "daily"; "monthly"; "yearly"; "lifetime"].

(** Body of the inner loop [for i in range(num_resources)] of
    [generate_sample_data]: one resource is built, appended to
    [data["UnusedResources"]] and counted in
    [data["ScanMetrics"]["ResourcesByType"]]. *)
Definition add_resource (resource_type : string) (data : dict) (i : Z) : M dict :=
  ar <- getitem data "AccountsAndRegions" ;;
  ar <- as_dict ar ;;
  account_id <- choice (dict_keys ar) ;;
  regions <- getitem ar account_id ;;
  regions <- as_list regions ;;
  region <- choice regions ;;
  details <- generate_resource_details resource_type ;;
  id <- slug_hex_id resource_type ;;
  name <- generate_resource_name resource_type ;;
  names <- getitem data "AccountNames" ;;
  account_name <- subscript names account_id ;;
  last_used <- timestamp_days_ago 30 180 ;;
  u <- uniform 100 1000 ;;
  reasons <- generate_resource_reasons resource_type 180 ;;
  costs <- calculate_resource_costs resource_type details ;;
  let resource := VDict [
    ("id", VStr id);
    ("name", VStr (name ++ "-" ++ zfill 2 (str_int (i + 1))));
    ("type", VStr resource_type);
    ("account_id", VStr account_id);
    ("account_name", account_name);
    ("region", region);
    ("last_used", VStr last_used);
    ("estimated_monthly_savings", VFloat (py_round u 2));
    ("reasons", VList (map VStr reasons));
    ("details", VDict details);
    ("costs", VDict costs)] in
  unused <- getitem data "UnusedResources" ;;
  unused <- method_append unused resource ;;
  let data := dict_set data "UnusedResources" unused in
  (* Update resource count by type *)
  metrics <- getitem data "ScanMetrics" ;;
  metrics <- as_dict metrics ;;
  by_type <- getitem metrics "ResourcesByType" ;;
  by_type <- as_dict by_type ;;
  let by_type :=
    if negb (dict_mem by_type resource_type)
    then dict_set by_type resource_type (VInt 0) else by_type in
  n <- getitem by_type resource_type ;;
  n <- py_add n (VInt 1) ;;
  let by_type := dict_set by_type resource_type n in
  let metrics := dict_set metrics "ResourcesByType" (VDict by_type) in
  ret (dict_set data "ScanMetrics" (VDict metrics)).

(** Body of the outer loop [for resource_type in resource_types]. *)
Definition add_resources_of_type (data : dict) (resource_type : string) : M dict :=
  (* Generate between 5 and 15 resources of this type *)
  num_resources <- randint 5 15 ;;
  for_each (add_resource resource_type) (range num_resources) data.

(** Body of [for period in [...]]: the pair is
    [(cost_breakdown, total_costs)]. *)
Definition add_period_cost (resource : value) (resource_type : string)
  (acc : dict * dict) (period : string) : M (dict * dict) :=
  let (cost_breakdown, total_costs) := acc in
  costs <- subscript resource "costs" ;;
  cost <- subscript costs period ;;
  entry <- getitem cost_breakdown resource_type ;;
  entry <- as_dict entry ;;
  old <- getitem entry period ;;
  new <- py_add old cost ;;
  let cost_breakdown :=
    dict_set cost_breakdown resource_type (VDict (dict_set entry period new)) in
  old <- getitem total_costs period ;;
  new <- py_add old cost ;;
  ret (cost_breakdown, dict_set total_costs period new).

(** Body of [for resource in data["UnusedResources"]].  A dict key is a
    string in this embedding, so [resource["type"]] is read as one. *)
Definition group_costs (acc : dict * dict) (resource : value) : M (dict * dict) :=
  let (cost_breakdown, total_costs) := acc in
  resource_type <- subscript resource "type" ;;
  resource_type <- as_str resource_type ;;
  let cost_breakdown :=
    if negb (dict_mem cost_breakdown resource_type)
    then dict_set cost_breakdown resource_type (VDict [
           ("type", VStr resource_type);
           ("hourly", VFloat 0.0); ("daily", VFloat 0.0); ("monthly", VFloat 0.0);
           ("yearly", VFloat 0.0); ("lifetime", VFloat 0.0)])
    else cost_breakdown in
  (* Add resource costs to type totals *)
  for_each (add_period_cost resource resource_type) periods
           (cost_breakdown, total_costs).

Definition generate_sample_data : M dict :=
  (* Initialize the data structure *)
  now <- datetime_now ;;
  regions1 <- generate_random_regions ;;
  regions2 <- generate_random_regions ;;
  regions3 <- generate_random_regions ;;
  let data : dict := [
    ("ScanMetrics", VDict [
       ("CompletedAt", VStr (isoformat (now + timedelta_days 365)));
       ("TotalResources", VInt 0);
       ("ResourcesByType", VDict [])]);
    ("AccountsAndRegions", VDict [
       ("123456789012", VList (map VStr regions1));
       ("234567890123", VList (map VStr regions2));
       ("345678901234", VList (map VStr regions3))]);
    ("AccountNames", VDict [
       ("123456789012", VStr "Production");
       ("234567890123", VStr "Staging");
       ("345678901234", VStr "Development")]);
    ("UnusedResources", VList [])] in
  (* Generate resources for each type *)
  data <- for_each add_resources_of_type resource_types data ;;
  (* Calculate total resources *)
  unused <- getitem data "UnusedResources" ;;
  total <- py_len unused ;;
  metrics <- getitem data "ScanMetrics" ;;
  metrics <- as_dict metrics ;;
  let data := dict_set data "ScanMetrics"
                (VDict (dict_set metrics "TotalResources" (VInt total))) in
  (* Calculate scan metrics *)
  metrics <- getitem data "ScanMetrics" ;;
  total_resources <- subscript metrics "TotalResources" ;;
  scan_metrics <- calculate_scan_metrics total_resources ;;
  metrics <- as_dict metrics ;;
  let data := dict_set data "ScanMetrics" (VDict (dict_update metrics scan_metrics)) in
  (* Calculate cost breakdown by resource type *)
  let cost_breakdown : dict := [] in
  let total_costs : dict :=
    [("hourly", VFloat 0.0); ("daily", VFloat 0.0); ("monthly", VFloat 0.0);
     ("yearly", VFloat 0.0); ("lifetime", VFloat 0.0)] in
  (* Group costs by resource type *)
  unused <- getitem data "UnusedResources" ;;
  unused <- as_list unused ;;
  acc <- for_each group_costs unused (cost_breakdown, total_costs) ;;
  let (cost_breakdown, total_costs) := acc in
  (* Convert cost breakdown to list *)
  let data := dict_set data "CostBreakdown" (VList (dict_values cost_breakdown)) in
  let data := dict_set data "TotalCosts" (VDict total_costs) in
  ret data.

(** ** Writing the document

    The file operations of [main] are the environment's: a [Disk] says, for
    this run, whether [open(output_file, "w")] succeeds, whether the writes
    of [json.dump] succeed, whether the close at the end of the [with]
    block (which flushes what is still buffered) succeeds, and whether the
    final [print] succeeds (it raises [OSError] when the write to the standard
    output fails, as on an unbuffered stream to a full device).  [main]
    returns its outcome and the operations it has started, in order. *)

Record Disk : Type := mkDisk {
  open_ok : bool;
  write_ok : bool;
  close_ok : bool;
  print_ok : bool
}.

Inductive io_event : Type :=
| EvOpen (path mode : string)
| EvDump (document : value) (indent : Z)
| EvClose
| EvPrint (line : string).

Definition main (w : World) (disk : Disk) : result unit * list io_event :=
  match generate_sample_data w with
  | Raise e => (Raise e, [])
  | Ok (data, _) =>
      let output_file := "examples/sample_scan_data.json" in
      if negb (open_ok disk) then (Raise OSError, [EvOpen output_file "w"])
      else if negb (write_ok disk) then
        (* the with block closes the file and lets the exception through *)
        (Raise OSError, [EvOpen output_file "w"; EvDump (VDict data) 2; EvClose])
      else if negb (close_ok disk) then
        (Raise OSError, [EvOpen output_file "w"; EvDump (VDict data) 2; EvClose])
      else if negb (print_ok disk) then
        (Raise OSError, [EvOpen output_file "w"; EvDump (VDict data) 2; EvClose;
                         EvPrint ("Sample data written to " ++ output_file)])
      else
        (Ok tt, [EvOpen output_file "w"; EvDump (VDict data) 2; EvClose;
                 EvPrint ("Sample data written to " ++ output_file)])
  end.

(** ** Vocabulary of the specification *)

(** [returns c P]: from every state of the environment, [c] raises nothing
    and its result satisfies [P]. *)
Definition returns {A : Type} (c : M A) (P : A -> Prop) : Prop :=
  forall w, exists a w', c w = Ok (a, w') /\ P a.

(** The environment in which every tape is empty (every read gives 0). *)
Definition quiet_world : World := mkWorld [] [] [].

(** The dict [costs] of [calculate_resource_costs] with its five periods. *)
Definition costs_dict (h d m y l : Q) : dict :=
  [("hourly", VFloat h); ("daily", VFloat d); ("monthly", VFloat m);
   ("yearly", VFloat y); ("lifetime", VFloat l)].

(** What [calculate_resource_costs] returns for [resource_type]: five floats,
    the yearly one being 12 times the monthly one and the lifetime one the
    yearly one times the integer [k] drawn by [random.randint(-1, 3)]; the
    first three stay at their initial [0.0] when no branch prices the type,
    which is the case of the two IAM types. *)
Definition costs_ok (resource_type : string) (costs : dict) : Prop :=
  exists (h d m : Q) (k : Z),
    costs = costs_dict h d m (m * 12) (m * 12 * inject_Z k) /\
    -1 <= k <= 3 /\
    (resource_type = "IAM User" \/ resource_type = "IAM Role" ->
     h = 0.0%Q /\ d = 0.0%Q /\ m = 0.0%Q).

(** A [details] dict on which the cost calculation goes through. *)
Definition details_ok (resource_type : string) (details : dict) : Prop :=
  returns (calculate_resource_costs resource_type details) (costs_ok resource_type).

(** The part of [calculate_resource_costs] before its last four lines leaves
    [yearly] and [lifetime] at their initial value. *)
Definition priced (resource_type : string) (costs : dict) : Prop :=
  exists h d m : Q,
    costs = costs_dict h d m 0.0 0.0 /\
    (resource_type = "IAM User" \/ resource_type = "IAM Role" ->
     h = 0.0%Q /\ d = 0.0%Q /\ m = 0.0%Q).

(** What [calculate_scan_metrics] returns: thirteen entries, the second being
    its argument and the third an empty dict. *)
Definition scan_metrics_ok (total_resources : value) (m : dict) : Prop :=
  exists (completed_at : string) (total_cost tasks avg utilization : Q)
         (total_scans completed failed peak : Z),
    m = [("CompletedAt", VStr completed_at);
         ("TotalResources", total_resources);
         ("ResourcesByType", VDict []);
         ("TotalCost", VFloat total_cost);
         ("TotalScans", VInt total_scans);
         ("CompletedScans", VInt completed);
         ("FailedScans", VInt failed);
         ("TasksPerSecond", VFloat tasks);
         ("AvgExecutionTimeMs", VFloat avg);
         ("WorkerUtilization", VFloat utilization);
         ("PeakWorkers", VInt peak);
         ("MaxWorkers", VInt 10);
         ("TotalRunTime", VStr "1m0s")].

(** A record of [UnusedResources], as [add_resource] builds it. *)
Definition is_resource (resource_type : string) (costs : dict) (r : value) : Prop :=
  exists (id name account_id last_used : string) (account_name region : value)
         (savings : Q) (reasons : list value) (details : dict),
    r = VDict [("id", VStr id);
               ("name", VStr name);
               ("type", VStr resource_type);
               ("account_id", VStr account_id);
               ("account_name", account_name);
               ("region", region);
               ("last_used", VStr last_used);
               ("estimated_monthly_savings", VFloat savings);
               ("reasons", VList reasons);
               ("details", VDict details);
               ("costs", VDict costs)].

Definition resource_ok (resource_type : string) (r : value) : Prop :=
  exists costs, is_resource resource_type costs r /\ costs_ok resource_type costs.

(** The per-type counters hold ints. *)
Definition counts_ok (counts : dict) : Prop :=
  Forall (fun kv => exists n : Z, snd kv = VInt n) counts.

(** The dict [data] of [generate_sample_data] while its resources are being
    generated, [rs] being the resources appended so far. *)
Definition data_ok (rs : list value) (data : dict) : Prop :=
  exists (completed_at : string) (counts : dict) (regions1 regions2 regions3 : list value),
    counts_ok counts /\
    regions1 <> [] /\ regions2 <> [] /\ regions3 <> [] /\
    data = [("ScanMetrics", VDict [("CompletedAt", VStr completed_at);
                                   ("TotalResources", VInt 0);
                                   ("ResourcesByType", VDict counts)]);
            ("AccountsAndRegions", VDict [("123456789012", VList regions1);
                                          ("234567890123", VList regions2);
                                          ("345678901234", VList regions3)]);
            ("AccountNames", VDict [("123456789012", VStr "Production");
                                    ("234567890123", VStr "Staging");
                                    ("345678901234", VStr "Development")]);
            ("UnusedResources", VList rs)].

(** A resource type filled with resources by one round of the outer loop. *)
Definition block_ok (resource_type : string) (block : list value) : Prop :=
  (5 <= List.length block <= 15)%nat /\ Forall (resource_ok resource_type) block.

(** ** The aggregation, on typed data

    The five costs of a resource, of an entry of [CostBreakdown] or of
    [TotalCosts]. *)
Record costs5 : Type := mk5 {
  c_hourly : Q;
  c_daily : Q;
  c_monthly : Q;
  c_yearly : Q;
  c_lifetime : Q
}.

Definition zero5 : costs5 := mk5 0.0 0.0 0.0 0.0 0.0.

(** [old + cost] on each period, as [+=] computes it. *)
Definition add5 (old cost : costs5) : costs5 :=
  mk5 (c_hourly old + c_hourly cost) (c_daily old + c_daily cost)
      (c_monthly old + c_monthly cost) (c_yearly old + c_yearly cost)
      (c_lifetime old + c_lifetime cost).

Definition render_costs (c : costs5) : dict :=
  costs_dict (c_hourly c) (c_daily c) (c_monthly c) (c_yearly c) (c_lifetime c).

Definition render_entry (resource_type : string) (c : costs5) : value :=
  VDict (("type", VStr resource_type) :: render_costs c).

(** The dict [cost_breakdown], typed: one entry per resource type, in the
    order of first occurrence. *)
Definition groups : Type := list (string * costs5).

Fixpoint groups_get (g : groups) (t : string) : option costs5 :=
  match g with
  | [] => None
  | (t', c) :: g' => if t' =s t then Some c else groups_get g' t
  end.

Fixpoint groups_set (g : groups) (t : string) (c : costs5) : groups :=
  match g with
  | [] => [(t, c)]
  | (t', c') :: g' =>
      if t' =s t then (t', c) :: g' else (t', c') :: groups_set g' t c
  end.

(** One round of [for resource in data["UnusedResources"]] on a resource of
    type [t] with costs [c]. *)
Definition groups_add (g : groups) (t : string) (c : costs5) : groups :=
  match groups_get g t with
  | Some old => groups_set g t (add5 old c)
  | None => groups_set g t (add5 zero5 c)
  end.

Definition render_groups (g : groups) : dict :=
  map (fun tc => (fst tc, render_entry (fst tc) (snd tc))) g.

(** The whole loop: the final [cost_breakdown] and [total_costs]. *)
Fixpoint tally (acc : groups * costs5) (infos : list (string * costs5))
  : groups * costs5 :=
  match infos with
  | [] => acc
  | (t, c) :: rest => tally (groups_add (fst acc) t c, add5 (snd acc) c) rest
  end.

(** [r] is a resource of type [fst info] with costs [snd info]. *)
Definition summarises (info : string * costs5) (r : value) : Prop :=
  is_resource (fst info) (render_costs (snd info)) r.

(** The typed reading of [costs_ok]. *)
Definition info_ok (info : string * costs5) : Prop :=
  let t := fst info in
  let c := snd info in
  exists k : Z,
    -1 <= k <= 3 /\
    c_yearly c = (c_monthly c * 12)%Q /\
    c_lifetime c = (c_yearly c * inject_Z k)%Q /\
    (t = "IAM User" \/ t = "IAM Role" ->
     c_hourly c = 0.0%Q /\ c_daily c = 0.0%Q /\ c_monthly c = 0.0%Q).

(** The resource types of a run in which the catalog's types get [counts]
    resources each: every type repeated its number of times, in the order of
    the catalog. *)
Definition types_in_blocks (counts : list nat) : list string :=
  flat_map (fun tn => repeat (fst tn) (snd tn)) (combine resource_types counts).

(** The document [generate_sample_data] returns. *)
Definition report_ok (data : dict) : Prop :=
  exists (metrics : dict) (accounts names : value) (rs : list value)
         (infos : list (string * costs5)) (counts : list nat),
    data = [("ScanMetrics", VDict metrics);
            ("AccountsAndRegions", accounts);
            ("AccountNames", names);
            ("UnusedResources", VList rs);
            ("CostBreakdown",
             VList (dict_values (render_groups (fst (tally ([], zero5) infos)))));
            ("TotalCosts", VDict (render_costs (snd (tally ([], zero5) infos))))] /\
    scan_metrics_ok (VInt (Z.of_nat (List.length rs))) metrics /\
    Forall2 summarises infos rs /\
    Forall info_ok infos /\
    List.length counts = List.length resource_types /\
    Forall (fun n => 5 <= n <= 15)%nat counts /\
    map fst infos = types_in_blocks counts.

(** ** What the properties observe in a document *)

(** [v[k]] when [v] is a dict holding [k]. *)
Definition field (v : value) (k : string) : option value :=
  match v with
  | VDict d => dict_get d k
  | _ => None
  end.

(** [v[k]] when it is a float. *)
Definition field_float (v : value) (k : string) : option Q :=
  match field v k with
  | Some (VFloat x) => Some x
  | _ => None
  end.

(** [v["type"]] when it is a string: the type of a resource or of an entry
    of [CostBreakdown]. *)
Definition type_of (v : value) : option string :=
  match field v "type" with
  | Some (VStr t) => Some t
  | _ => None
  end.

Definition has_type (t : string) (v : value) : bool :=
  match type_of v with
  | Some t' => t' =s t
  | None => false
  end.

(** [r["costs"][period]] *)
Definition cost_of (period : string) (r : value) : option Q :=
  match field r "costs" with
  | Some costs => field_float costs period
  | None => None
  end.

(** The sum of a list of floats. *)
Definition Qsum (l : list Q) : Q := fold_right Qplus 0%Q l.

(** The typed resources of one type. *)
Definition of_type (t : string) (infos : list (string * costs5))
  : list (string * costs5) :=
  filter (fun info => fst info =s t) infos.

(** The period a projection of [costs5] stands for. *)
Definition reads (period : string) (f : costs5 -> Q) : Prop :=
  (period = "hourly" /\ f = c_hourly) \/
  (period = "daily" /\ f = c_daily) \/
  (period = "monthly" /\ f = c_monthly) \/
  (period = "yearly" /\ f = c_yearly) \/
  (period = "lifetime" /\ f = c_lifetime).

(** What the entry of [t] in [g] holds of the period [f] before the loop
    starts. *)
Definition base (f : costs5 -> Q) (g : groups) (t : string) : Q :=
  match groups_get g t with
  | Some c => f c
  | None => 0
  end.

(** A record: a dict. *)
Definition is_record (v : value) : Prop := exists d, v = VDict d.

Definition is_dump (e : io_event) : bool :=
  match e with EvDump _ _ => true | _ => false end.

Definition is_open (e : io_event) : bool :=
  match e with EvOpen _ _ => true | _ => false end.

(** Opening or writing the output file fails (the close at the end of the
    [with] block completes the writing). *)
Definition file_io_fails (disk : Disk) : Prop :=
  open_ok disk = false \/ write_ok disk = false \/ close_ok disk = false.

(** The first and the last instant of a Python [datetime],
    0001-01-01T00:00:00 and 9999-12-31T23:59:59.999999, in microseconds since
    1970-01-01. *)
Definition datetime_min : Z := timedelta_days (-719162).
Definition datetime_max : Z := timedelta_days 2932897 - 1.

Definition datetime_in_range (t : Z) : Prop := datetime_min <= t <= datetime_max.

(** The clock of the environment reads instants at least 365 days inside
    that range.  The program shifts a reading of the clock by 365 days at
    most (forwards for [CompletedAt], backwards for the other timestamps), so
    in such an environment no [datetime] it computes is out of range.  (A
    clock that has run out reads 1970-01-01.) *)
Definition clock_in_range (w : World) : Prop :=
  Forall (fun t => datetime_in_range (t - timedelta_days 365) /\
                   datetime_in_range (t + timedelta_days 365))
         (clock w).

(** A resource, or an entry of [CostBreakdown], of one of the two IAM types. *)
Definition is_iam (v : value) : bool :=
  has_type "IAM User" v || has_type "IAM Role" v.

Definition iam_type (t : string) : bool :=
  (t =s "IAM User") || (t =s "IAM Role").

(** A computation that neither reads nor changes the environment. *)
Definition pure {A : Type} (c : M A) : Prop :=
  (exists a, forall w, c w = Ok (a, w)) \/ (exists e, forall w, c w = Raise e).

(** The draws 0, 1, ..., n - 1. *)
Definition draws_below (n : nat) : list N := map N.of_nat (seq 0 n).

(** What [random.randint(a, b)] returns when the generator's next draw is [x]. *)
Definition randint_of_draw (a b : Z) (x : N) : option Z :=
  match randint a b (mkWorld [x] [] []) with
  | Ok (k, _) => Some k
  | Raise _ => None
  end.

(** The draws of [draws] on which [random.randint(a, b)] returns [k]. *)
Definition draws_giving (a b k : Z) (draws : list N) : list N :=
  filter (fun x => match randint_of_draw a b x with
                   | Some k' => k' =? k
                   | None => false
                   end) draws.

(** ** What the generator puts in a resource

    The tables below are read off the branches of the three per-type
    functions; the predicates say what a generated resource holds beyond
    the costs. *)

(** The types [calculate_resource_costs] has a branch for. *)
Definition priced_types : list string :=
  ["EC2 Instance"; "RDS Instance"; "EBS Volume"; "EBS Snapshot"; "Elastic IP";
   "DynamoDB Table"; "ELB"; "OpenSearch Domain"].

(** The fields [generate_resource_details] sets for a type, in order. *)
Definition detail_fields (resource_type : string) : list string :=
  if resource_type =s "EC2 Instance" then
    ["InstanceType"; "State"; "LaunchTime"; "Tags"; "SecurityGroups";
     "NetworkInterfaces"]
  else if resource_type =s "RDS Instance" then
    ["DBInstanceClass"; "Engine"; "EngineVersion"; "DBInstanceIdentifier";
     "DBInstanceStatus"; "MasterUsername"; "Endpoint"; "AllocatedStorage";
     "PreferredBackupWindow"; "BackupRetentionPeriod"; "VpcSecurityGroups";
     "MultiAZ"; "PubliclyAccessible"; "StorageEncrypted"; "PerformanceInsights"]
  else if resource_type =s "EBS Volume" then
    ["Size"; "VolumeType"; "State"; "VolumeId"; "Encrypted"; "Iops"; "MultiAttach"]
  else if resource_type =s "EBS Snapshot" then
    ["VolumeSize"; "State"; "StartTime"; "VolumeId"]
  else if resource_type =s "DynamoDB Table" then
    ["ProvisionedThroughput"; "TableStatus"; "TableName"; "CreationDateTime";
     "TableSizeBytes"; "ItemCount"; "StreamEnabled"]
  else if resource_type =s "IAM User" then
    ["CreateDate"; "PasswordLastUsed"; "Groups"]
  else if resource_type =s "IAM Role" then
    ["CreateDate"; "LastUsedDate"; "AttachedPolicies"]
  else if resource_type =s "Elastic IP" then
    ["PublicIp"; "AllocationId"; "Domain"]
  else if resource_type =s "OpenSearch Domain" then
    ["InstanceType"; "EngineVersion"; "ClusterConfig"]
  else [].

(** What [calculate_resource_costs] reads in the details of a generated
    resource: the field is there, of the type the pricing needs, with a value
    [generate_resource_details] can draw. *)
Definition pricing_inputs (resource_type : string) (details : dict) : Prop :=
  (resource_type = "EC2 Instance" ->
   exists t, dict_get details "InstanceType" = Some (VStr t) /\
             In t ["t3.micro"; "t3.small"; "t3.medium"; "t3.large"; "r5.xlarge"]) /\
  (resource_type = "RDS Instance" ->
   exists c, dict_get details "DBInstanceClass" = Some (VStr c) /\
             In c ["db.t3.micro"; "db.t3.small"; "db.t3.medium"; "db.r5.large"]) /\
  (resource_type = "EBS Volume" ->
   exists n t, dict_get details "Size" = Some (VInt n) /\ 8 <= n <= 100 /\
               dict_get details "VolumeType" = Some (VStr t) /\
               In t ["gp2"; "gp3"; "io1"]) /\
  (resource_type = "EBS Snapshot" ->
   exists n, dict_get details "VolumeSize" = Some (VInt n) /\ 8 <= n <= 100) /\
  (resource_type = "DynamoDB Table" ->
   exists r w, dict_get details "ProvisionedThroughput" =
                 Some (VDict [("ReadCapacityUnits", VInt r);
                              ("WriteCapacityUnits", VInt w)]) /\
               1 <= r <= 3 /\ 1 <= w <= 2) /\
  (resource_type = "OpenSearch Domain" ->
   exists t, dict_get details "InstanceType" = Some (VStr t) /\
             In t ["t3.small.search"; "t3.medium.search"; "r5.large.search"]).

Definition details_made (resource_type : string) (details : dict) : Prop :=
  dict_keys details = detail_fields resource_type /\
  pricing_inputs resource_type details.

(** The costs of a generated resource: consistent over the periods, positive
    for a priced type, zero for the others. *)
Definition costs_made (resource_type : string) (costs : dict) : Prop :=
  exists (h d m : Q) (k : Z),
    costs = costs_dict h d m (m * 12) (m * 12 * inject_Z k) /\
    -1 <= k <= 3 /\
    d == h * 24 /\ m == d * 30.44 /\
    (In resource_type priced_types -> (0 < h)%Q) /\
    (~ In resource_type priced_types -> h = 0.0%Q /\ d = 0.0%Q /\ m = 0.0%Q).

(** The names [generate_resource_name] can return for a type. *)
Definition base_names (resource_type : string) : list string :=
  if resource_type =s "EC2 Instance" then ["app-server"]
  else if resource_type =s "RDS Instance" then
    ["mysql-db"; "postgres-db"; "aurora-postgresql-db"]
  else if resource_type =s "DynamoDB Table" then ["user-data"]
  else if resource_type =s "EBS Volume" then ["data-volume"]
  else if resource_type =s "EBS Snapshot" then ["backup"]
  else if resource_type =s "Elastic IP" then ["static-ip"]
  else if resource_type =s "ELB" then ["load-balancer"]
  else if resource_type =s "IAM Role" then ["service-role"]
  else if resource_type =s "IAM User" then ["system-user"]
  else if resource_type =s "OpenSearch Domain" then ["search-cluster"]
  else ["resource"].

(** The three accounts of [generate_sample_data] with their names. *)
Definition account_names : list (string * string) :=
  [("123456789012", "Production"); ("234567890123", "Staging");
   ("345678901234", "Development")].

(** The regions [generate_random_regions] gives an account. *)
Definition regions_made (regions : list string) : Prop :=
  (3 <= List.length regions <= 7)%nat /\ NoDup regions /\
  incl regions ["us-east-1"; "us-east-2"; "us-west-1"; "us-west-2";
                "eu-central-1"; "eu-west-1"; "ap-southeast-1"].

(** The [i]-th resource [add_resource] builds for [resource_type] when the
    three accounts have the regions [regions]. *)
Definition resource_made (regions : list (list string)) (resource_type : string)
  (i : Z) (r : value) : Prop :=
  exists (ident base account_id account_name region last_used : string)
         (account_regions : list string) (savings : Q) (reasons : list string)
         (details costs : dict),
    r = VDict [("id", VStr ident);
               ("name", VStr (base ++ "-" ++ zfill 2 (str_int (i + 1))));
               ("type", VStr resource_type);
               ("account_id", VStr account_id);
               ("account_name", VStr account_name);
               ("region", VStr region);
               ("last_used", VStr last_used);
               ("estimated_monthly_savings", VFloat savings);
               ("reasons", VList (map VStr reasons));
               ("details", VDict details);
               ("costs", VDict costs)] /\
    In (account_id, account_name, account_regions)
       (combine account_names regions) /\
    In region account_regions /\
    In base (base_names resource_type) /\
    (100 <= savings <= 1000)%Q /\
    (2 <= List.length reasons <= 3)%nat /\ NoDup reasons /\
    details_made resource_type details /\
    costs_ok resource_type costs /\
    costs_made resource_type costs.

(** The dict [data] while the resources are generated, the accounts having
    the regions [regions1], [regions2], [regions3]. *)
Definition data_made (regions1 regions2 regions3 : list string) (rs : list value)
  (data : dict) : Prop :=
  exists (completed_at : string) (counts : dict),
    counts_ok counts /\
    data = [("ScanMetrics", VDict [("CompletedAt", VStr completed_at);
                                   ("TotalResources", VInt 0);
                                   ("ResourcesByType", VDict counts)]);
            ("AccountsAndRegions",
             VDict [("123456789012", VList (map VStr regions1));
                    ("234567890123", VList (map VStr regions2));
                    ("345678901234", VList (map VStr regions3))]);
            ("AccountNames", VDict [("123456789012", VStr "Production");
                                    ("234567890123", VStr "Staging");
                                    ("345678901234", VStr "Development")]);
            ("UnusedResources", VList rs)].

(** The resources one round of the outer loop appends for a type: between 5
    and 15 of them, built for the indices 0, 1, 2, ... *)
Definition block_made (regions : list (list string)) (resource_type : string)
  (block : list value) : Prop :=
  exists n : Z,
    5 <= n <= 15 /\
    Forall2 (resource_made regions resource_type) (range n) block.

(** The document [generate_sample_data] returns, resource by resource. *)
Definition report_made (data : dict) : Prop :=
  exists (regions1 regions2 regions3 : list string) (blocks : list (list value))
         (metrics : dict) (breakdown totals : value),
    data = [("ScanMetrics", VDict metrics);
            ("AccountsAndRegions",
             VDict [("123456789012", VList (map VStr regions1));
                    ("234567890123", VList (map VStr regions2));
                    ("345678901234", VList (map VStr regions3))]);
            ("AccountNames", VDict [("123456789012", VStr "Production");
                                    ("234567890123", VStr "Staging");
                                    ("345678901234", VStr "Development")]);
            ("UnusedResources", VList (List.concat blocks));
            ("CostBreakdown", breakdown);
            ("TotalCosts", totals)] /\
    regions_made regions1 /\ regions_made regions2 /\ regions_made regions3 /\
    Forall2 (block_made [regions1; regions2; regions3]) resource_types blocks.

(** The keys of a record, in order. *)
Definition record_keys (v : value) : list string :=
  match v with
  | VDict d => dict_keys d
  | _ => []
  end.

(** The two types [calculate_resource_costs] prices by the month, dividing for
    the daily and the hourly cost; it prices the other types by the hour. *)
Definition priced_by_month (resource_type : string) : bool :=
  (resource_type =s "EBS Volume") || (resource_type =s "EBS Snapshot").

(** The periods of the costs of a type, each related to the one the code
    computes it from. *)
Definition periods_related (resource_type : string) (h d m y : Q) : Prop :=
  y == m * 12 /\
  if priced_by_month resource_type
  then d == m / 30.44 /\ h == d / 24
  else d == h * 24 /\ m == d * 30.44.

(** A field that is missing or holds a string. *)
Definition name_or_missing (v : option value) : Prop :=
  v = None \/ exists s : string, v = Some (VStr s).

(** A field that is missing or holds an int which a float holds exactly. *)
Definition count_or_missing (v : option value) : Prop :=
  v = None \/ exists n : Z, v = Some (VInt n) /\ Z.abs n <= 2 ^ 53.

(** Details in which every field the pricing reads is missing or of the type
    [generate_resource_details] gives it. *)
Definition plain_details (details : dict) : Prop :=
  name_or_missing (dict_get details "InstanceType") /\
  name_or_missing (dict_get details "DBInstanceClass") /\
  name_or_missing (dict_get details "VolumeType") /\
  count_or_missing (dict_get details "Size") /\
  count_or_missing (dict_get details "VolumeSize") /\
  (dict_get details "ProvisionedThroughput" = None \/
   exists throughput : dict,
     dict_get details "ProvisionedThroughput" = Some (VDict throughput) /\
     count_or_missing (dict_get throughput "ReadCapacityUnits") /\
     count_or_missing (dict_get throughput "WriteCapacityUnits")).

(** * Proofs *)

(** ** The monad and the primitives of the environment *)

Lemma returns_ret {A : Type} (a : A) (P : A -> Prop) : P a -> returns (ret a) P.
Proof. intros H w. exists a, w. split; [reflexivity | exact H]. Qed.

Lemma returns_bind {A B : Type} (c : M A) (k : A -> M B) (P : A -> Prop)
  (Q : B -> Prop) :
  returns c P -> (forall a, P a -> returns (k a) Q) -> returns (bind c k) Q.
Proof.
  intros Hc Hk w. destruct (Hc w) as (a & w1 & E & Ha).
  destruct (Hk a Ha w1) as (b & w2 & E2 & Hb).
  exists b, w2. unfold bind. rewrite E. split; assumption.
Qed.

Lemma returns_weaken {A : Type} (c : M A) (P Q : A -> Prop) :
  returns c P -> (forall a, P a -> Q a) -> returns c Q.
Proof.
  intros Hc HPQ w. destruct (Hc w) as (a & w1 & E & Ha).
  exists a, w1. split; [exact E | apply HPQ; exact Ha].
Qed.

Lemma returns_next_entropy : returns next_entropy (fun _ => True).
Proof.
  intros w. unfold next_entropy. destruct (entropy w); eauto.
Qed.

Lemma returns_next_urandom : returns next_urandom (fun _ => True).
Proof.
  intros w. unfold next_urandom. destruct (urandom w); eauto.
Qed.

Lemma returns_datetime_now : returns datetime_now (fun _ => True).
Proof.
  intros w. unfold datetime_now, next_clock. destruct (clock w); eauto.
Qed.

Lemma returns_randbelow (n : Z) :
  0 < n -> returns (randbelow n) (fun r => 0 <= r < n).
Proof.
  intros Hn. unfold randbelow.
  eapply returns_bind; [apply returns_next_entropy | intros x _].
  apply returns_ret. apply Z.mod_pos_bound. exact Hn.
Qed.

Lemma returns_randint (a b : Z) :
  a <= b -> returns (randint a b) (fun n => a <= n <= b).
Proof.
  intros Hab. unfold randint.
  destruct (b <? a) eqn:E; [apply Z.ltb_lt in E; lia |].
  eapply returns_bind; [apply returns_randbelow; lia | intros r Hr].
  apply returns_ret. cbv beta in *. lia.
Qed.

Lemma returns_random_random : returns random_random (fun u => 0 <= u < 1)%Q.
Proof.
  unfold random_random.
  eapply returns_bind; [apply returns_next_entropy | intros x _].
  apply returns_ret.
  assert (H : 0 <= Z.of_N x mod 2 ^ 53 < 2 ^ 53) by (apply Z.mod_pos_bound; lia).
  unfold Qle, Qlt. cbn [Qnum Qden]. lia.
Qed.

Lemma returns_uniform (a b : Q) :
  (a <= b)%Q -> returns (uniform a b) (fun x => a <= x <= b)%Q.
Proof.
  intros Hab. unfold uniform.
  eapply returns_bind; [apply returns_random_random | intros u Hu].
  apply returns_ret. cbv beta in *.
  assert (H0 : (0 <= (b - a) * u)%Q) by (apply Qmult_le_0_compat; lra).
  assert (H1 : (0 <= (b - a) * (1 - u))%Q) by (apply Qmult_le_0_compat; lra).
  split; lra.
Qed.

Lemma returns_uniform_any (a b : Q) : returns (uniform a b) (fun _ => True).
Proof.
  unfold uniform.
  eapply returns_bind; [apply returns_random_random | intros u Hu].
  apply returns_ret. exact I.
Qed.

Lemma returns_choice {A : Type} (seq : list A) :
  seq <> [] -> returns (choice seq) (fun x => In x seq).
Proof.
  intros Hne. destruct seq as [|x l]; [congruence |].
  unfold choice.
  eapply returns_bind; [apply returns_randbelow; cbn [List.length]; lia | intros i Hi].
  apply returns_ret. cbv beta in *. apply nth_In. lia.
Qed.

(** ** [random.sample] *)

Lemma list_set_length {A : Type} (l : list A) (j : nat) (v : A) :
  List.length (list_set l j v) = List.length l.
Proof.
  revert j. induction l as [|x l IH]; intros [|j]; cbn; try reflexivity.
  rewrite IH. reflexivity.
Qed.

Lemma list_set_incl {A : Type} (l : list A) (j : nat) (v : A) :
  In v l -> incl (list_set l j v) l.
Proof.
  revert j. induction l as [|x l IH]; intros j Hv y Hy.
  - destruct j; exact Hy.
  - destruct j as [|j]; cbn in Hy.
    + destruct Hy as [<- | Hy]; [exact Hv | right; exact Hy].
    + destruct Hy as [<- | Hy]; [left; reflexivity |].
      destruct Hv as [<- | Hv].
      * clear IH. revert j Hy. induction l as [|z l IHl]; intros j Hy.
        -- destruct j; destruct Hy.
        -- destruct j as [|j]; cbn in Hy.
           ++ destruct Hy as [<- | Hy]; [left; reflexivity | right; right; exact Hy].
           ++ destruct Hy as [<- | Hy]; [right; left; reflexivity |].
              destruct (IHl j Hy) as [<- | H]; [left; reflexivity | right; right; exact H].
      * right. exact (IH j Hv y Hy).
Qed.

Lemma returns_sample_loop {A : Type} (k : nat) :
  forall (pool : list A) (n : nat),
    (k <= n <= List.length pool)%nat ->
    returns (sample_loop pool n k)
            (fun r => List.length r = k /\ incl r pool).
Proof.
  induction k as [|k IH]; intros pool n Hn; cbn [sample_loop].
  - apply returns_ret. split; [reflexivity | intros x []].
  - eapply returns_bind; [apply returns_randbelow; lia | intros j Hj].
    cbv beta in Hj.
    destruct (nth_error pool (Z.to_nat j)) as [x|] eqn:Ex;
      [| apply nth_error_None in Ex; lia].
    destruct (nth_error pool (n - 1)) as [last|] eqn:El;
      [| apply nth_error_None in El; lia].
    eapply returns_bind.
    + apply IH. rewrite list_set_length. lia.
    + intros rest [Hlen Hincl]. apply returns_ret. split.
      * cbn. rewrite Hlen. reflexivity.
      * intros y [<- | Hy]; [eapply nth_error_In; exact Ex |].
        apply (list_set_incl pool (Z.to_nat j) last).
        -- eapply nth_error_In; exact El.
        -- apply Hincl. exact Hy.
Qed.

Lemma returns_sample {A : Type} (population : list A) (k : Z) :
  0 <= k <= Z.of_nat (List.length population) ->
  returns (sample population k)
          (fun r => List.length r = Z.to_nat k /\ incl r population).
Proof.
  intros Hk. unfold sample.
  destruct (k <? 0) eqn:E1; [apply Z.ltb_lt in E1; lia |].
  destruct (Z.of_nat (List.length population) <? k) eqn:E2;
    [apply Z.ltb_lt in E2; lia |].
  cbn [orb]. apply returns_sample_loop. lia.
Qed.

Lemma returns_generate_random_regions :
  returns generate_random_regions (fun r => r <> []).
Proof.
  unfold generate_random_regions.
  eapply returns_bind; [apply returns_randint; lia | intros k Hk].
  cbv beta in Hk.
  eapply returns_weaken; [apply returns_sample; cbn [List.length]; lia |].
  intros r [Hlen _] ->. cbn in Hlen. lia.
Qed.

(** ** Symbolic execution of straight-line code *)

Lemma returns_timestamp_days_ago (lo hi : Z) :
  lo <= hi -> returns (timestamp_days_ago lo hi) (fun _ => True).
Proof.
  intros H. unfold timestamp_days_ago.
  eapply returns_bind; [apply returns_datetime_now | intros now _].
  eapply returns_bind; [apply returns_randint; exact H | intros d _].
  apply returns_ret. exact I.
Qed.

Lemma returns_slug_hex_id (resource_type : string) :
  returns (slug_hex_id resource_type) (fun _ => True).
Proof.
  unfold slug_hex_id.
  eapply returns_bind; [apply returns_randint; lia | intros n _].
  apply returns_ret. exact I.
Qed.

Lemma returns_uuid8 : returns uuid8 (fun _ => True).
Proof.
  unfold uuid8, uuid4_hex.
  apply returns_bind with (P := fun _ => True);
    [| intros h _; apply returns_ret; exact I].
  eapply returns_bind; [apply returns_next_urandom | intros r _].
  apply returns_ret. exact I.
Qed.

(** One primitive call, with whatever its lemma says about the result. *)
Ltac prim :=
  first
    [ apply returns_randint; lia
    | apply returns_uniform_any
    | apply returns_choice; discriminate
    | apply returns_timestamp_days_ago; lia
    | apply returns_slug_hex_id
    | apply returns_uuid8
    | apply returns_datetime_now ].

(** One statement [x <- c ;; ...] whose [c] is a primitive call. *)
Ltac step :=
  cbv zeta; eapply returns_bind; [prim | intros ? ?; cbv beta in * |- ].

(** Choice of the branch of an [if]/[elif] chain on a literal resource type. *)
Ltac branch := cbn [String.eqb Ascii.eqb Bool.eqb].

Ltac catalog H :=
  cbn [resource_types In] in H;
  repeat (destruct H as [<- | H]); [.. | destruct H].

Lemma returns_resource_reasons_list (resource_type : string) (days_ago : Z) :
  In resource_type resource_types ->
  returns (resource_reasons_list resource_type days_ago)
          (fun reasons => List.length reasons = 3%nat).
Proof.
  intros H. catalog H; unfold resource_reasons_list; branch;
    repeat step; apply returns_ret; reflexivity.
Qed.

Lemma returns_generate_resource_reasons (resource_type : string) (days_ago : Z) :
  In resource_type resource_types ->
  returns (generate_resource_reasons resource_type days_ago)
          (fun r => (2 <= List.length r <= 3)%nat).
Proof.
  intros H. unfold generate_resource_reasons.
  eapply returns_bind; [apply returns_resource_reasons_list; exact H | intros l Hl].
  eapply returns_bind; [apply returns_randint; lia | intros k Hk].
  cbv beta in *.
  eapply returns_weaken; [apply returns_sample; lia |].
  intros r [Hr _]. cbv beta. lia.
Qed.

Lemma returns_generate_resource_name (resource_type : string) :
  returns (generate_resource_name resource_type) (fun _ => True).
Proof.
  unfold generate_resource_name.
  repeat match goal with
         | |- returns (if ?b then _ else _) _ => destruct b
         end;
    try (apply returns_ret; exact I).
  step. apply returns_ret. exact I.
Qed.

(** Straight-line code applied to a state [w]: the pure steps compute, a call
    with a lemma [L : returns c P] is replaced by its result. *)
Ltac compute_pure :=
  cbn [bind ret raise getitem subscript getnum as_dict as_list as_str as_number
       py_float py_int method_get rates_get value_eq_str dict_get dict_set
       dict_mem dict_get_default negb String.eqb Ascii.eqb Bool.eqb].

Lemma bind_ok {A B : Type} (c : M A) (k : A -> M B) (w w1 : World) (a : A) :
  c w = Ok (a, w1) -> bind c k w = k a w1.
Proof. intros E. unfold bind. rewrite E. reflexivity. Qed.

Ltac run L w :=
  let a := fresh "a" in
  let w' := fresh "w" in
  let E := fresh "E" in
  let H := fresh "H" in
  destruct (L w) as (a & w' & E & H);
  first [rewrite (bind_ok _ _ _ _ _ E) | rewrite E];
  clear E; cbv beta in H; compute_pure.

Ltac finish := eexists; eexists; split; [reflexivity |].

(** ** [calculate_resource_costs] *)

Lemma costs_tail (resource_type : string) (h d m : Q) :
  (resource_type = "IAM User" \/ resource_type = "IAM Role" ->
   h = 0.0%Q /\ d = 0.0%Q /\ m = 0.0%Q) ->
  returns
    (m' <- getnum (costs_dict h d m 0.0 0.0) "monthly" ;;
     let costs := dict_set (costs_dict h d m 0.0 0.0) "yearly" (VFloat (m' * 12)) in
     y <- getnum costs "yearly" ;;
     k <- randint (-1) 3 ;;
     let costs := dict_set costs "lifetime" (VFloat (y * inject_Z k)) in
     ret costs)
    (costs_ok resource_type).
Proof.
  intros Hiam w. unfold costs_dict. compute_pure.
  run (returns_randint (-1) 3 ltac:(lia)) w.
  finish. exists h, d, m, a. auto.
Qed.

Lemma returns_bind_ret {A B : Type} (a : A) (k : A -> M B) (Q : B -> Prop) :
  returns (k a) Q -> returns (bind (ret a) k) Q.
Proof. intros H w. exact (H w). Qed.

Lemma costs_from_priced (resource_type : string) (c : M dict) :
  returns c (priced resource_type) ->
  returns
    (costs <- c ;;
     m <- getnum costs "monthly" ;;
     let costs := dict_set costs "yearly" (VFloat (m * 12)) in
     y <- getnum costs "yearly" ;;
     k <- randint (-1) 3 ;;
     let costs := dict_set costs "lifetime" (VFloat (y * inject_Z k)) in
     ret costs)
    (costs_ok resource_type).
Proof.
  intros Hc. eapply returns_bind; [exact Hc |].
  intros costs (h & d & m & -> & Hiam). apply costs_tail. exact Hiam.
Qed.

Ltac priced_branch :=
  let w := fresh "w" in
  intros w; compute_pure; finish;
  do 3 eexists; split; [unfold costs_dict; reflexivity |];
  intros [? | ?]; discriminate.

Lemma costs_of_iam (resource_type : string) (details : dict) :
  resource_type = "IAM User" \/ resource_type = "IAM Role" ->
  details_ok resource_type details.
Proof.
  intros [-> | ->]; unfold details_ok, calculate_resource_costs; branch;
    apply costs_from_priced; apply returns_ret;
    exists 0.0%Q, 0.0%Q, 0.0%Q; (split; [reflexivity | auto]).
Qed.

Lemma returns_generate_resource_details (resource_type : string) :
  In resource_type resource_types ->
  returns (generate_resource_details resource_type) (details_ok resource_type).
Proof.
  intros H. catalog H; unfold generate_resource_details; branch.
  - (* EC2 Instance *)
    step. step. step.
    eapply returns_bind; [apply returns_generate_resource_name | intros ? _].
    repeat step. apply returns_ret.
    unfold details_ok, calculate_resource_costs; branch.
    apply costs_from_priced. priced_branch.
  - (* RDS Instance *)
    step. step. step. step.
    cbn [getitem dict_get dict_set String.eqb Ascii.eqb Bool.eqb].
    apply returns_bind_ret. cbn [as_str]. apply returns_bind_ret.
    repeat step. apply returns_ret.
    unfold details_ok, calculate_resource_costs; branch.
    apply costs_from_priced. priced_branch.
  - (* ELB *)
    apply returns_ret.
    unfold details_ok, calculate_resource_costs; branch.
    apply costs_from_priced. priced_branch.
  - (* EBS Volume *)
    repeat step. apply returns_ret.
    unfold details_ok, calculate_resource_costs; branch.
    apply costs_from_priced. priced_branch.
  - (* EBS Snapshot *)
    repeat step. apply returns_ret.
    unfold details_ok, calculate_resource_costs; branch.
    apply costs_from_priced. priced_branch.
  - (* DynamoDB Table *)
    step. step.
    eapply returns_bind; [apply returns_generate_resource_name | intros ? _].
    repeat step. apply returns_ret.
    unfold details_ok, calculate_resource_costs; branch.
    apply costs_from_priced. priced_branch.
  - (* IAM User *)
    repeat step. apply returns_ret. apply costs_of_iam. auto.
  - (* IAM Role *)
    repeat step. apply returns_ret. apply costs_of_iam. auto.
  - (* Elastic IP *)
    repeat step. apply returns_ret.
    unfold details_ok, calculate_resource_costs; branch.
    apply costs_from_priced. priced_branch.
  - (* OpenSearch Domain *)
    repeat step. apply returns_ret.
    unfold details_ok, calculate_resource_costs; branch.
    apply costs_from_priced. priced_branch.
Qed.

(** ** [calculate_scan_metrics] *)

Lemma int_of_float_lower (x : Q) (n : Z) :
  0 <= n -> (inject_Z n <= x)%Q -> n <= int_of_float x.
Proof.
  intros Hn Hx. unfold int_of_float. destruct x as [p q].
  unfold Qle in Hx. cbn [Qnum Qden inject_Z] in *.
  apply Z.quot_le_lower_bound; lia.
Qed.

Lemma returns_calculate_scan_metrics (total_resources : value) :
  returns (calculate_scan_metrics total_resources)
          (scan_metrics_ok total_resources).
Proof.
  intros w. unfold calculate_scan_metrics. cbv zeta.
  run (returns_randint 7 10 ltac:(lia)) w.
  unfold truediv at 1. change (Qeq_bool (inject_Z 10) 0) with false.
  compute_pure.
  run (returns_uniform 5.0 8.0 ltac:(lra)) w0.
  run (returns_randint 1 3 ltac:(lia)) w1.
  assert (Hscans : 300 <= int_of_float (a0 * inject_Z 60)).
  { apply int_of_float_lower; [lia |].
    change (inject_Z 300) with (5 * 60)%Q. change (inject_Z 60) with 60%Q. lra. }
  unfold truediv.
  destruct (Qeq_bool (inject_Z (int_of_float (a0 * inject_Z 60))) 0) eqn:Ez.
  { apply Qeq_bool_eq in Ez. unfold Qeq in Ez. cbn in Ez. lia. }
  compute_pure.
  run returns_datetime_now w2.
  run (returns_uniform_any 5000 15000) w3.
  finish. unfold scan_metrics_ok. do 9 eexists. reflexivity.
Qed.

(** ** Dicts *)

Lemma dict_get_set_same (d : dict) (k : string) (v : value) :
  dict_get (dict_set d k v) k = Some v.
Proof.
  induction d as [|[k' v'] d IH]; cbn [dict_set dict_get].
  - rewrite String.eqb_refl. reflexivity.
  - destruct (k' =s k) eqn:E; cbn [dict_get]; rewrite E; [reflexivity | exact IH].
Qed.

Lemma dict_get_set_other (d : dict) (k k' : string) (v : value) :
  k <> k' -> dict_get (dict_set d k v) k' = dict_get d k'.
Proof.
  intros Hne. induction d as [|[k0 v0] d IH]; cbn [dict_set dict_get].
  - destruct (k =s k') eqn:E; [apply String.eqb_eq in E; contradiction | reflexivity].
  - destruct (k0 =s k) eqn:E; cbn [dict_get].
    + apply String.eqb_eq in E. subst k0.
      destruct (k =s k') eqn:E'; [apply String.eqb_eq in E'; contradiction | reflexivity].
    + rewrite IH. reflexivity.
Qed.

Lemma counts_ok_get (counts : dict) (k : string) (v : value) :
  counts_ok counts -> dict_get counts k = Some v -> exists n, v = VInt n.
Proof.
  intros H. induction H as [|[k' v'] d [n Hn] _ IH]; cbn [dict_get]; [discriminate |].
  destruct (k' =s k); [| exact IH].
  intros [= <-]. exists n. exact Hn.
Qed.

Lemma counts_ok_set (counts : dict) (k : string) (n : Z) :
  counts_ok counts -> counts_ok (dict_set counts k (VInt n)).
Proof.
  intros H. induction H as [|[k' v'] d Hkv Hd IH]; cbn [dict_set].
  - constructor; [exists n; reflexivity | constructor].
  - destruct (k' =s k); constructor; try assumption.
    exists n. reflexivity.
Qed.

(** The four statements of [add_resource] that count the resource. *)
Lemma count_resource (counts : dict) (resource_type : string) :
  counts_ok counts ->
  exists n : Z,
    dict_get (if negb (dict_mem counts resource_type)
              then dict_set counts resource_type (VInt 0) else counts)
             resource_type = Some (VInt n).
Proof.
  intros H. unfold dict_mem.
  destruct (dict_get counts resource_type) as [v|] eqn:E; cbn [negb].
  - destruct (counts_ok_get _ _ _ H E) as [n ->]. exists n. exact E.
  - exists 0. apply dict_get_set_same.
Qed.

Lemma counts_ok_default (counts : dict) (resource_type : string) :
  counts_ok counts ->
  counts_ok (if negb (dict_mem counts resource_type)
             then dict_set counts resource_type (VInt 0) else counts).
Proof.
  intros H. destruct (negb (dict_mem counts resource_type));
    [apply counts_ok_set |]; exact H.
Qed.

(** ** The generation loops *)

Lemma map_VStr_nonempty (l : list string) : l <> [] -> map VStr l <> [].
Proof. destruct l; [congruence | discriminate]. Qed.

Ltac compute_data :=
  cbn [bind ret raise getitem subscript getnum as_dict as_list as_str as_number
       method_append py_len dict_keys map fst snd dict_get dict_set
       negb String.eqb Ascii.eqb Bool.eqb].

Ltac run_data L w a w' H :=
  let E := fresh "E" in
  destruct (L w) as (a & w' & E & H);
  first [rewrite (bind_ok _ _ _ _ _ E) | rewrite E];
  clear E; cbv beta in H; compute_data.

Lemma returns_add_resource (resource_type : string) (rs : list value)
  (data : dict) (i : Z) :
  In resource_type resource_types ->
  data_ok rs data ->
  returns (add_resource resource_type data i)
          (fun data' => exists r,
               resource_ok resource_type r /\ data_ok (rs ++ [r]) data').
Proof.
  intros Hin (completed_at & counts & r1 & r2 & r3 & Hc & H1 & H2 & H3 & ->) w.
  unfold add_resource. compute_data.
  run_data (returns_choice ["123456789012"; "234567890123"; "345678901234"]
              ltac:(discriminate)) w account_id w0 Hacc.
  destruct (count_resource counts resource_type Hc) as [n Hn].
  pose proof (counts_ok_default counts resource_type Hc) as Hc'.
  destruct Hacc as [<- | [<- | [<- | []]]]; compute_data;
    [run_data (returns_choice r1 H1) w0 region w1 Hreg
    |run_data (returns_choice r2 H2) w0 region w1 Hreg
    |run_data (returns_choice r3 H3) w0 region w1 Hreg];
    run_data (returns_generate_resource_details resource_type Hin) w1 details w2 Hdet;
    run_data (returns_slug_hex_id resource_type) w2 ident w3 Hid;
    run_data (returns_generate_resource_name resource_type) w3 name w4 Hname;
    run_data (returns_timestamp_days_ago 30 180 ltac:(lia)) w4 last_used w5 Hlast;
    run_data (returns_uniform_any 100 1000) w5 u w6 Hu;
    run_data (returns_generate_resource_reasons resource_type 180 Hin) w6 reasons w7 Hreasons;
    run_data Hdet w7 costs w8 Hcosts;
    unfold getitem; rewrite Hn; cbn [py_add int_like bind ret];
    finish;
    (eexists; split;
     [ exists costs; split; [do 9 eexists; reflexivity | exact Hcosts]
     | unfold extend; do 5 eexists;
       refine (conj _ (conj _ (conj _ (conj _ eq_refl))));
       [apply counts_ok_set; exact Hc' | assumption ..] ]).
Qed.

Lemma returns_add_resources (resource_type : string) (idxs : list Z) :
  In resource_type resource_types ->
  forall (rs : list value) (data : dict),
    data_ok rs data ->
    returns (for_each (add_resource resource_type) idxs data)
            (fun data' => exists new,
                 List.length new = List.length idxs /\
                 Forall (resource_ok resource_type) new /\
                 data_ok (rs ++ new) data').
Proof.
  intros Hin. induction idxs as [|i idxs IH]; intros rs data Hdata; cbn [for_each].
  - apply returns_ret. exists []. rewrite app_nil_r. auto.
  - eapply returns_bind; [apply returns_add_resource; eassumption |].
    intros data1 (r & Hr & Hdata1).
    eapply returns_weaken; [apply IH; exact Hdata1 |].
    intros data2 (new & Hlen & Hnew & Hdata2).
    exists (r :: new). cbn [List.length]. rewrite <- app_assoc in Hdata2.
    auto.
Qed.

Lemma range_length (n : Z) : List.length (range n) = Z.to_nat n.
Proof. unfold range. rewrite length_map, length_seq. reflexivity. Qed.

Lemma returns_add_resources_of_type (resource_type : string) (rs : list value)
  (data : dict) :
  In resource_type resource_types ->
  data_ok rs data ->
  returns (add_resources_of_type data resource_type)
          (fun data' => exists block,
               block_ok resource_type block /\ data_ok (rs ++ block) data').
Proof.
  intros Hin Hdata. unfold add_resources_of_type.
  eapply returns_bind; [apply returns_randint; lia | intros n Hn].
  cbv beta in Hn.
  eapply returns_weaken; [apply returns_add_resources; eassumption |].
  intros data' (new & Hlen & Hnew & Hdata').
  exists new. rewrite range_length in Hlen. unfold block_ok.
  repeat split; try assumption; lia.
Qed.

Lemma returns_generate_resources (types : list string) :
  incl types resource_types ->
  forall (rs : list value) (data : dict),
    data_ok rs data ->
    returns (for_each add_resources_of_type types data)
            (fun data' => exists blocks,
                 Forall2 block_ok types blocks /\
                 data_ok (rs ++ List.concat blocks) data').
Proof.
  induction types as [|t types IH]; intros Hincl rs data Hdata; cbn [for_each].
  - apply returns_ret. exists []. cbn [List.concat]. rewrite app_nil_r.
    split; [constructor | exact Hdata].
  - eapply returns_bind.
    + apply returns_add_resources_of_type; [apply Hincl; left; reflexivity | eassumption].
    + intros data1 (block & Hblock & Hdata1).
      eapply returns_weaken.
      * apply IH; [intros x Hx; apply Hincl; right; exact Hx | exact Hdata1].
      * intros data2 (blocks & Hblocks & Hdata2).
        exists (block :: blocks). cbn [List.concat].
        rewrite <- app_assoc in Hdata2.
        split; [constructor; assumption | exact Hdata2].
Qed.

(** ** The aggregation loop computes [tally] *)

Lemma dict_set_set (d : dict) (k : string) (v v' : value) :
  dict_set (dict_set d k v) k v' = dict_set d k v'.
Proof.
  induction d as [|[k0 v0] d IH]; cbn [dict_set].
  - rewrite String.eqb_refl. reflexivity.
  - destruct (k0 =s k) eqn:E; cbn [dict_set]; rewrite E; [reflexivity |].
    rewrite IH. reflexivity.
Qed.

Lemma getitem_some (d : dict) (k : string) (v : value) :
  dict_get d k = Some v -> getitem d k = ret v.
Proof. intros H. unfold getitem. rewrite H. reflexivity. Qed.

Lemma getitem_set_same (d : dict) (k : string) (v : value) :
  getitem (dict_set d k v) k = ret v.
Proof. apply getitem_some, dict_get_set_same. Qed.

Lemma dict_get_render (g : groups) (t : string) :
  dict_get (render_groups g) t = option_map (render_entry t) (groups_get g t).
Proof.
  induction g as [|[t' c] g IH]; cbn [render_groups map dict_get groups_get fst snd].
  - reflexivity.
  - destruct (t' =s t) eqn:E; [| exact IH].
    apply String.eqb_eq in E. subst t'. reflexivity.
Qed.

Lemma dict_set_render (g : groups) (t : string) (c : costs5) :
  dict_set (render_groups g) t (render_entry t c) = render_groups (groups_set g t c).
Proof.
  induction g as [|[t' c'] g IH]; cbn [render_groups map dict_set groups_set fst snd].
  - reflexivity.
  - destruct (t' =s t) eqn:E; cbn [map fst snd].
    + apply String.eqb_eq in E. subst t'. reflexivity.
    + f_equal. exact IH.
Qed.

Ltac compute_costs :=
  cbn [for_each periods add_period_cost bind ret raise getitem subscript as_dict
       as_str py_add int_like number_like dict_get dict_set render_costs
       render_entry costs_dict add5 c_hourly c_daily c_monthly c_yearly
       c_lifetime String.eqb Ascii.eqb Bool.eqb].

(** The five rounds of [for period in ...] on one resource. *)
Lemma add_costs_run (cb : dict) (t : string) (old tot c : costs5) (r : value)
  (w : World) :
  summarises (t, c) r ->
  dict_get cb t = Some (render_entry t old) ->
  for_each (add_period_cost r t) periods (cb, render_costs tot) w =
  Ok ((dict_set cb t (render_entry t (add5 old c)), render_costs (add5 tot c)), w).
Proof.
  intros (id & name & acc & lu & an & reg & sav & rea & det & ->) Hget.
  destruct old as [oh od om oy ol], tot as [th td tm ty tl], c as [h d m y l].
  cbn [fst snd render_costs c_hourly c_daily c_monthly c_yearly c_lifetime].
  compute_costs. rewrite (getitem_some _ _ _ Hget). compute_costs.
  do 4 (rewrite getitem_set_same; compute_costs).
  rewrite !dict_set_set. reflexivity.
Qed.

Lemma group_costs_run (g : groups) (tot : costs5) (info : string * costs5)
  (r : value) (w : World) :
  summarises info r ->
  group_costs (render_groups g, render_costs tot) r w =
  Ok ((render_groups (groups_add g (fst info) (snd info)),
       render_costs (add5 tot (snd info))), w).
Proof.
  destruct info as [t c]. intros Hr. cbn [fst snd].
  assert (Htype : subscript r "type" = ret (VStr t)).
  { destruct Hr as (id & name & acc & lu & an & reg & sav & rea & det & ->).
    reflexivity. }
  unfold group_costs. rewrite Htype. cbn [bind ret as_str].
  unfold dict_mem, groups_add. rewrite dict_get_render.
  destruct (groups_get g t) as [old|] eqn:E; cbn [option_map negb].
  - rewrite (add_costs_run _ t old tot c r w Hr).
    + rewrite dict_set_render. reflexivity.
    + rewrite dict_get_render, E. reflexivity.
  - change (VDict [("type", VStr t); ("hourly", VFloat 0.0); ("daily", VFloat 0.0);
                   ("monthly", VFloat 0.0); ("yearly", VFloat 0.0);
                   ("lifetime", VFloat 0.0)])
      with (render_entry t zero5).
    rewrite (add_costs_run _ t zero5 tot c r w Hr).
    + rewrite dict_set_set, dict_set_render. reflexivity.
    + apply dict_get_set_same.
Qed.

Lemma group_all_costs_run (infos : list (string * costs5)) :
  forall (rs : list value) (g : groups) (tot : costs5) (w : World),
    Forall2 summarises infos rs ->
    for_each group_costs rs (render_groups g, render_costs tot) w =
    Ok ((render_groups (fst (tally (g, tot) infos)),
         render_costs (snd (tally (g, tot) infos))), w).
Proof.
  induction infos as [|[t c] infos IH]; intros rs g tot w H; inversion H; subst.
  - reflexivity.
  - cbn [for_each tally fst snd].
    rewrite (bind_ok _ _ _ _ _ (group_costs_run g tot (t, c) _ w H2)).
    cbn [fst snd]. apply IH. assumption.
Qed.

(** ** [generate_sample_data] *)

Lemma resource_ok_info (t : string) (r : value) :
  resource_ok t r -> exists c, summarises (t, c) r /\ info_ok (t, c).
Proof.
  intros (costs & Hr & h & d & m & k & -> & Hk & Hiam).
  exists (mk5 h d m (m * 12) (m * 12 * inject_Z k)). split; [exact Hr |].
  exists k. cbn [fst snd c_hourly c_daily c_monthly c_yearly c_lifetime]. auto.
Qed.

Lemma block_ok_infos (t : string) (block : list value) :
  Forall (resource_ok t) block ->
  exists infos,
    Forall2 summarises infos block /\ Forall info_ok infos /\
    map fst infos = repeat t (List.length block).
Proof.
  induction 1 as [|r block Hr _ (infos & H2 & Hok & Hty)].
  - exists []. repeat split; constructor.
  - destruct (resource_ok_info t r Hr) as (c & Hs & Hi).
    exists ((t, c) :: infos). repeat split.
    + constructor; assumption.
    + constructor; assumption.
    + cbn [map fst List.length repeat]. rewrite Hty. reflexivity.
Qed.

Lemma blocks_ok_infos (types : list string) (blocks : list (list value)) :
  Forall2 block_ok types blocks ->
  exists infos counts,
    Forall2 summarises infos (List.concat blocks) /\ Forall info_ok infos /\
    List.length counts = List.length types /\
    Forall (fun n => 5 <= n <= 15)%nat counts /\
    map fst infos = flat_map (fun tn => repeat (fst tn) (snd tn)) (combine types counts).
Proof.
  induction 1 as [|t block types blocks [Hlen Hblock] _
                    (infos & counts & H2 & Hok & Hcl & Hc & Hty)].
  - exists [], []. repeat split; constructor.
  - destruct (block_ok_infos t block Hblock) as (infos_b & H2b & Hokb & Htyb).
    exists (infos_b ++ infos)%list, (List.length block :: counts).
    repeat split.
    + cbn [List.concat]. apply Forall2_app; assumption.
    + apply Forall_app. split; assumption.
    + cbn [List.length]. rewrite Hcl. reflexivity.
    + constructor; assumption.
    + cbn [combine flat_map fst snd]. rewrite map_app, Htyb, Hty. reflexivity.
Qed.

Ltac compute_report :=
  cbn [bind ret raise getitem subscript as_dict as_list py_len dict_update
       fold_left fst snd dict_get dict_set String.eqb Ascii.eqb Bool.eqb].

Lemma returns_generate_sample_data : returns generate_sample_data report_ok.
Proof.
  intros w. unfold generate_sample_data.
  run_data returns_datetime_now w now w0 Hnow.
  run_data returns_generate_random_regions w0 regions1 w1 H1.
  run_data returns_generate_random_regions w1 regions2 w2 H2.
  run_data returns_generate_random_regions w2 regions3 w3 H3.
  match goal with
  | |- context [for_each add_resources_of_type resource_types ?d] =>
      assert (Hdata : data_ok [] d)
  end.
  { do 5 eexists.
    refine (conj _ (conj _ (conj _ (conj _ eq_refl))));
      [constructor | apply map_VStr_nonempty; assumption ..]. }
  destruct (returns_generate_resources resource_types (incl_refl _) [] _ Hdata w3)
    as (data1 & w4 & E & blocks & Hblocks & Hdata1).
  rewrite (bind_ok _ _ _ _ _ E). clear E Hdata.
  cbn [app] in Hdata1.
  destruct Hdata1 as (completed_at & cnt & r1 & r2 & r3 & _ & _ & _ & _ & ->).
  compute_report.
  destruct (returns_calculate_scan_metrics
              (VInt (Z.of_nat (List.length (List.concat blocks)))) w4)
    as (metrics & w5 & E & Hmetrics).
  rewrite (bind_ok _ _ _ _ _ E). clear E.
  pose proof Hmetrics as Hshape.
  destruct Hshape as (ca & tc & ts & avg & ut & nscans & ncomp & nfail & peak & ->).
  destruct (blocks_ok_infos _ _ Hblocks)
    as (infos & counts & Hsum & Hok & Hcl & Hc & Hty).
  compute_report.
  change ([] : dict) with (render_groups []) at 1.
  change [("hourly", VFloat 0.0); ("daily", VFloat 0.0); ("monthly", VFloat 0.0);
          ("yearly", VFloat 0.0); ("lifetime", VFloat 0.0)]
    with (render_costs zero5).
  rewrite (bind_ok _ _ _ _ _ (group_all_costs_run infos _ [] zero5 w5 Hsum)).
  finish.
  eexists _, (VDict [("123456789012", VList r1); ("234567890123", VList r2);
                          ("345678901234", VList r3)]),
    (VDict [("123456789012", VStr "Production"); ("234567890123", VStr "Staging");
            ("345678901234", VStr "Development")]),
    (List.concat blocks), infos, counts.
  repeat split; assumption.
Qed.

(** ** [tally] adds up *)

Lemma groups_get_set_same (g : groups) (t : string) (c : costs5) :
  groups_get (groups_set g t c) t = Some c.
Proof.
  induction g as [|[t' c'] g IH]; cbn [groups_set groups_get].
  - rewrite String.eqb_refl. reflexivity.
  - destruct (t' =s t) eqn:E; cbn [groups_get]; rewrite E; [reflexivity | exact IH].
Qed.

Lemma groups_get_set_other (g : groups) (t t' : string) (c : costs5) :
  t <> t' -> groups_get (groups_set g t c) t' = groups_get g t'.
Proof.
  intros Hne. induction g as [|[t0 c0] g IH]; cbn [groups_set groups_get].
  - destruct (t =s t') eqn:E; [apply String.eqb_eq in E; contradiction | reflexivity].
  - destruct (t0 =s t) eqn:E; cbn [groups_get].
    + apply String.eqb_eq in E. subst t0.
      destruct (t =s t') eqn:E'; [apply String.eqb_eq in E'; contradiction | reflexivity].
    + rewrite IH. reflexivity.
Qed.

Lemma groups_set_keys (g : groups) (t : string) (c : costs5) :
  map fst (groups_set g t c) =
  match groups_get g t with
  | Some _ => map fst g
  | None => (map fst g ++ [t])%list
  end.
Proof.
  induction g as [|[t' c'] g IH]; cbn [groups_set groups_get map fst app].
  - reflexivity.
  - destruct (t' =s t) eqn:E; cbn [map fst]; [reflexivity |].
    rewrite IH. destruct (groups_get g t); reflexivity.
Qed.

Lemma groups_get_none (g : groups) (t : string) :
  groups_get g t = None <-> ~ In t (map fst g).
Proof.
  induction g as [|[t' c'] g IH]; cbn [groups_get map fst In].
  - tauto.
  - destruct (t' =s t) eqn:E.
    + apply String.eqb_eq in E. split; [discriminate | intros H; exfalso; auto].
    + apply String.eqb_neq in E. rewrite IH. tauto.
Qed.

Lemma groups_add_keys_nodup (g : groups) (t : string) (c : costs5) :
  NoDup (map fst g) -> NoDup (map fst (groups_add g t c)).
Proof.
  intros H. unfold groups_add.
  destruct (groups_get g t) eqn:E; rewrite groups_set_keys, E; [exact H |].
  apply groups_get_none in E.
  apply NoDup_app; [exact H | constructor; [intros [] | constructor] |].
  intros x Hx [<- | []]. contradiction.
Qed.

Lemma groups_get_add_other (g : groups) (t t' : string) (c : costs5) :
  t <> t' -> groups_get (groups_add g t c) t' = groups_get g t'.
Proof.
  intros Hne. unfold groups_add.
  destruct (groups_get g t); apply groups_get_set_other; exact Hne.
Qed.

Lemma tally_keys_nodup (infos : list (string * costs5)) :
  forall (g : groups) (tot : costs5),
    NoDup (map fst g) -> NoDup (map fst (fst (tally (g, tot) infos))).
Proof.
  induction infos as [|[t c] infos IH]; intros g tot H; cbn [tally fst snd].
  - exact H.
  - apply IH. apply groups_add_keys_nodup. exact H.
Qed.

Lemma Qsum_app (l m : list Q) : Qsum (l ++ m) == Qsum l + Qsum m.
Proof.
  induction l as [|x l IH]; cbn [app].
  - unfold Qsum at 2. cbn [fold_right]. lra.
  - change (Qsum (x :: l ++ m)) with (x + Qsum (l ++ m))%Q.
    change (Qsum (x :: l)) with (x + Qsum l)%Q.
    rewrite IH. lra.
Qed.

Section Projection.

(** One of the five periods, read off [costs5]. *)
Variable f : costs5 -> Q.
Hypothesis f_add : forall a b, f (add5 a b) = (f a + f b)%Q.
Hypothesis f_zero : f zero5 == 0.

Lemma groups_get_add_same (g : groups) (t : string) (c : costs5) :
  exists c', groups_get (groups_add g t c) t = Some c' /\
             f c' == base f g t + f c.
Proof.
  unfold groups_add, base.
  destruct (groups_get g t) as [old|]; eexists;
    (split; [apply groups_get_set_same |]); rewrite f_add.
  - reflexivity.
  - rewrite f_zero. reflexivity.
Qed.

Lemma tally_total (infos : list (string * costs5)) :
  forall (g : groups) (tot : costs5),
    f (snd (tally (g, tot) infos)) == f tot + Qsum (map f (map snd infos)).
Proof.
  induction infos as [|[t c] infos IH]; intros g tot;
    cbn [tally fst snd map Qsum fold_right].
  - lra.
  - rewrite IH, f_add. fold (Qsum (map f (map snd infos))). lra.
Qed.

Lemma tally_absent (infos : list (string * costs5)) :
  forall (g : groups) (tot : costs5) (t : string),
    groups_get g t = None -> ~ In t (map fst infos) ->
    groups_get (fst (tally (g, tot) infos)) t = None.
Proof.
  induction infos as [|[t0 c0] infos IH]; intros g tot t Hg Hin;
    cbn [tally fst snd map In] in *.
  - exact Hg.
  - apply IH; [| tauto].
    rewrite groups_get_add_other; [exact Hg | tauto].
Qed.

Lemma tally_present (infos : list (string * costs5)) :
  forall (g : groups) (tot : costs5) (t : string),
    groups_get g t <> None \/ In t (map fst infos) ->
    exists c,
      groups_get (fst (tally (g, tot) infos)) t = Some c /\
      f c == base f g t + Qsum (map f (map snd (of_type t infos))).
Proof.
  induction infos as [|[t0 c0] infos IH]; intros g tot t H;
    cbn [tally fst snd map In of_type filter Qsum fold_right] in *.
  - destruct H as [H | []]. unfold base.
    destruct (groups_get g t) as [c|]; [| congruence].
    exists c. split; [reflexivity | lra].
  - destruct (t0 =s t) eqn:E.
    + apply String.eqb_eq in E. subst t0.
      destruct (groups_get_add_same g t c0) as (c' & Hc' & Hf).
      destruct (IH (groups_add g t c0) (add5 tot c0) t) as (c & Hc & Hsum).
      { left. rewrite Hc'. discriminate. }
      exists c. split; [exact Hc |].
      rewrite Hsum. unfold base at 1. rewrite Hc', Hf.
      cbn [map snd Qsum fold_right]. fold (of_type t infos).
      fold (Qsum (map f (map snd (of_type t infos)))). lra.
    + apply String.eqb_neq in E.
      destruct (IH (groups_add g t0 c0) (add5 tot c0) t) as (c & Hc & Hsum).
      { rewrite groups_get_add_other by exact E.
        destruct H as [H | [H | H]]; [left; exact H | contradiction | right; exact H]. }
      exists c. split; [exact Hc |].
      rewrite Hsum. unfold base. rewrite groups_get_add_other by exact E.
      fold (of_type t infos). reflexivity.
Qed.

End Projection.

(** ** From typed data back to the document *)

Lemma reads_period (p : string) :
  In p periods -> exists f, reads p f.
Proof.
  unfold periods, reads. cbn [In].
  intros [<- | [<- | [<- | [<- | [<- | []]]]]]; eexists; eauto 10.
Qed.

Lemma reads_add (p : string) (f : costs5 -> Q) :
  reads p f -> forall a b, f (add5 a b) = (f a + f b)%Q.
Proof.
  intros [[_ ->] | [[_ ->] | [[_ ->] | [[_ ->] | [_ ->]]]]] a b; reflexivity.
Qed.

Lemma reads_zero (p : string) (f : costs5 -> Q) : reads p f -> f zero5 == 0.
Proof.
  intros [[_ ->] | [[_ ->] | [[_ ->] | [[_ ->] | [_ ->]]]]]; reflexivity.
Qed.

Lemma summarises_type (info : string * costs5) (r : value) :
  summarises info r -> type_of r = Some (fst info).
Proof.
  intros (id & name & acc & lu & an & reg & sav & rea & det & ->). reflexivity.
Qed.

Lemma summarises_cost (info : string * costs5) (r : value) (p : string)
  (f : costs5 -> Q) :
  summarises info r -> reads p f -> cost_of p r = Some (f (snd info)).
Proof.
  intros (id & name & acc & lu & an & reg & sav & rea & det & ->).
  intros [[-> ->] | [[-> ->] | [[-> ->] | [[-> ->] | [-> ->]]]]]; reflexivity.
Qed.

Lemma entry_type (t : string) (c : costs5) : type_of (render_entry t c) = Some t.
Proof. reflexivity. Qed.

Lemma entry_float (t p : string) (c : costs5) (f : costs5 -> Q) :
  reads p f -> field_float (render_entry t c) p = Some (f c).
Proof.
  intros [[-> ->] | [[-> ->] | [[-> ->] | [[-> ->] | [-> ->]]]]]; reflexivity.
Qed.

Lemma totals_float (p : string) (c : costs5) (f : costs5 -> Q) :
  reads p f -> field_float (VDict (render_costs c)) p = Some (f c).
Proof.
  intros [[-> ->] | [[-> ->] | [[-> ->] | [[-> ->] | [-> ->]]]]]; reflexivity.
Qed.

Lemma summarises_costs (infos : list (string * costs5)) (rs : list value)
  (p : string) (f : costs5 -> Q) :
  Forall2 summarises infos rs -> reads p f ->
  map (cost_of p) rs = map Some (map f (map snd infos)).
Proof.
  intros H Hp. induction H as [|info r infos rs Hr _ IH]; cbn [map].
  - reflexivity.
  - rewrite IH, (summarises_cost info r p f Hr Hp). reflexivity.
Qed.

Lemma summarises_types (infos : list (string * costs5)) (rs : list value) :
  Forall2 summarises infos rs ->
  map type_of rs = map (fun info => Some (fst info)) infos.
Proof.
  induction 1 as [|info r infos rs Hr _ IH]; cbn [map].
  - reflexivity.
  - rewrite IH, (summarises_type info r Hr). reflexivity.
Qed.

Lemma summarises_of_type (infos : list (string * costs5)) (rs : list value)
  (t : string) :
  Forall2 summarises infos rs ->
  Forall2 summarises (of_type t infos) (filter (has_type t) rs).
Proof.
  induction 1 as [|info r infos rs Hr _ IH]; cbn [of_type filter].
  - constructor.
  - unfold has_type at 1. rewrite (summarises_type info r Hr).
    destruct (fst info =s t); [constructor; assumption | exact IH].
Qed.

Lemma entries_of_type (g : groups) (t : string) :
  filter (has_type t) (dict_values (render_groups g)) =
  dict_values (render_groups (of_type t g)).
Proof.
  induction g as [|[t' c] g IH];
    cbn [render_groups dict_values map of_type filter fst snd].
  - reflexivity.
  - unfold has_type at 1. rewrite entry_type.
    destruct (t' =s t); cbn [map fst snd]; [f_equal |]; exact IH.
Qed.

Lemma of_type_absent (g : groups) (t : string) :
  ~ In t (map fst g) -> of_type t g = [].
Proof.
  induction g as [|[t' c] g IH]; cbn [of_type filter map fst In]; intros H.
  - reflexivity.
  - destruct (t' =s t) eqn:E.
    + apply String.eqb_eq in E. exfalso. auto.
    + apply IH. tauto.
Qed.

Lemma of_type_single (g : groups) (t : string) (c : costs5) :
  NoDup (map fst g) -> groups_get g t = Some c -> of_type t g = [(t, c)].
Proof.
  induction g as [|[t' c'] g IH]; cbn [of_type filter map fst groups_get];
    intros Hnd Hget; [discriminate |].
  inversion Hnd as [|? ? Hnotin Hnd']; subst.
  destruct (t' =s t) eqn:E.
  - apply String.eqb_eq in E. subst t'. injection Hget as ->.
    f_equal. apply of_type_absent. exact Hnotin.
  - apply IH; assumption.
Qed.

Lemma in_types (infos : list (string * costs5)) (t : string) :
  In (Some t) (map (fun info => Some (fst info)) infos) <-> In t (map fst infos).
Proof.
  induction infos as [|[t' c] infos IH]; cbn [map In fst].
  - tauto.
  - rewrite IH. split; (intros [H | H]; [left; congruence | right; exact H]).
Qed.

Lemma tally_keys (infos : list (string * costs5)) (t : string) :
  In t (map fst (fst (tally ([], zero5) infos))) -> In t (map fst infos).
Proof.
  intros H. destruct (in_dec string_dec t (map fst infos)) as [Hin | Hnot];
    [exact Hin | exfalso].
  apply (proj1 (groups_get_none _ t)) in H; [exact H |].
  apply tally_absent; [reflexivity | exact Hnot].
Qed.

(** The entry of a type that occurs, and what it holds of each period. *)
Lemma tally_entry (infos : list (string * costs5)) (t : string) :
  In t (map fst infos) ->
  exists c,
    of_type t (fst (tally ([], zero5) infos)) = [(t, c)] /\
    forall p f, reads p f -> f c == Qsum (map f (map snd (of_type t infos))).
Proof.
  intros Hin.
  assert (Hh : reads "hourly" c_hourly) by (left; split; reflexivity).
  destruct (tally_present c_hourly (reads_add _ _ Hh) (reads_zero _ _ Hh)
              infos [] zero5 t (or_intror Hin)) as (c & Hc & _).
  exists c. split.
  - apply of_type_single; [| exact Hc].
    apply tally_keys_nodup. constructor.
  - intros p f Hf.
    destruct (tally_present f (reads_add p f Hf) (reads_zero p f Hf)
                infos [] zero5 t (or_intror Hin)) as (c' & Hc' & Hsum).
    rewrite Hc in Hc'. injection Hc' as <-.
    rewrite Hsum. unfold base. cbn [groups_get]. lra.
Qed.

(** * The properties of the specification *)

(** C1. For every run and every resource type present in [UnusedResources],
    [CostBreakdown] holds exactly one entry of that type, and for each of the
    five periods the entry's value equals the sum of the period's cost over
    the resources of the type (floats being exact rationals here, equality
    is [==]); every entry of [CostBreakdown] is of a type that is present. *)
Theorem cost_breakdown_sums_by_type :
  forall w : World,
  exists (data : dict) (w' : World) (rs breakdown : list value),
    generate_sample_data w = Ok (data, w') /\
    dict_get data "UnusedResources" = Some (VList rs) /\
    dict_get data "CostBreakdown" = Some (VList breakdown) /\
    (forall t, In (Some t) (map type_of rs) ->
       exists e,
         filter (has_type t) breakdown = [e] /\
         forall p, In p periods ->
           exists (x : Q) (cs : list Q),
             field_float e p = Some x /\
             map (cost_of p) (filter (has_type t) rs) = map Some cs /\
             x == Qsum cs) /\
    (forall e, In e breakdown ->
       exists t, type_of e = Some t /\ In (Some t) (map type_of rs)).
Proof.
  intros w.
  destruct (returns_generate_sample_data w)
    as (data & w' & Erun & metrics & accounts & names & rs & infos & counts
        & -> & _ & Hsum & _ & _ & _ & _).
  eexists _, w', rs, _. split; [exact Erun |].
  split; [reflexivity |]. split; [reflexivity |].
  rewrite (summarises_types infos rs Hsum). split.
  - intros t Ht. apply in_types in Ht.
    destruct (tally_entry infos t Ht) as (c & Hsingle & Hc).
    exists (render_entry t c). split.
    + rewrite entries_of_type, Hsingle. reflexivity.
    + intros p Hp. destruct (reads_period p Hp) as [f Hf].
      exists (f c), (map f (map snd (of_type t infos))).
      split; [apply entry_float; exact Hf |].
      split; [| apply (Hc p f Hf)].
      apply summarises_costs; [apply summarises_of_type; exact Hsum | exact Hf].
  - intros e He. unfold dict_values, render_groups in He.
    rewrite map_map in He. apply in_map_iff in He.
    destruct He as ([t c] & <- & Hin). cbn [fst snd].
    exists t. split; [apply entry_type |].
    apply in_types, tally_keys.
    apply (in_map fst) in Hin. exact Hin.
Qed.

(** C2. For every run and each of the five periods, [TotalCosts] holds the
    sum of the period's cost over all the resources of [UnusedResources]. *)
Theorem total_costs_sum_all_resources :
  forall w : World,
  exists (data : dict) (w' : World) (rs : list value) (totals : value),
    generate_sample_data w = Ok (data, w') /\
    dict_get data "UnusedResources" = Some (VList rs) /\
    dict_get data "TotalCosts" = Some totals /\
    forall p, In p periods ->
      exists (x : Q) (cs : list Q),
        field_float totals p = Some x /\
        map (cost_of p) rs = map Some cs /\
        x == Qsum cs.
Proof.
  intros w.
  destruct (returns_generate_sample_data w)
    as (data & w' & Erun & metrics & accounts & names & rs & infos & counts
        & -> & _ & Hsum & _ & _ & _ & _).
  eexists _, w', rs, _. split; [exact Erun |].
  split; [reflexivity |]. split; [reflexivity |].
  intros p Hp. destruct (reads_period p Hp) as [f Hf].
  exists (f (snd (tally ([], zero5) infos))), (map f (map snd infos)).
  split; [apply totals_float; exact Hf |].
  split; [apply summarises_costs; assumption |].
  rewrite (tally_total f (reads_add p f Hf)).
  rewrite (reads_zero p f Hf). lra.
Qed.

(** C3. For every run, [ScanMetrics.TotalResources] of the returned document
    is the length of its [UnusedResources]. *)
Theorem total_resources_is_length :
  forall w : World,
  exists (data : dict) (w' : World) (rs : list value) (metrics : value),
    generate_sample_data w = Ok (data, w') /\
    dict_get data "UnusedResources" = Some (VList rs) /\
    dict_get data "ScanMetrics" = Some metrics /\
    field metrics "TotalResources" = Some (VInt (Z.of_nat (List.length rs))).
Proof.
  intros w.
  destruct (returns_generate_sample_data w)
    as (data & w' & Erun & metrics & accounts & names & rs & infos & counts
        & -> & Hm & _).
  eexists _, w', rs, _. split; [exact Erun |].
  split; [reflexivity |]. split; [reflexivity |].
  destruct Hm as (ca & tc & ts & avg & ut & nscans & ncomp & nfail & peak & ->).
  reflexivity.
Qed.

Lemma summarises_record (infos : list (string * costs5)) (rs : list value) :
  Forall2 summarises infos rs -> Forall is_record rs.
Proof.
  induction 1 as [|info r infos rs Hr _ IH]; constructor; [| exact IH].
  destruct Hr as (id & name & acc & lu & an & reg & sav & rea & det & ->).
  eexists. reflexivity.
Qed.

(** C4. For every run, the document has exactly the six top-level fields
    [ScanMetrics], [AccountsAndRegions], [AccountNames], [UnusedResources],
    [CostBreakdown] and [TotalCosts], [UnusedResources] being a list of
    records; [main] dumps this document and nothing else: once when the
    output file opens, not at all when it does not. *)
Theorem document_has_six_fields_written_once :
  forall (w : World) (disk : Disk),
  exists (data : dict) (w' : World) (rs : list value),
    generate_sample_data w = Ok (data, w') /\
    dict_keys data = ["ScanMetrics"; "AccountsAndRegions"; "AccountNames";
                      "UnusedResources"; "CostBreakdown"; "TotalCosts"] /\
    dict_get data "UnusedResources" = Some (VList rs) /\
    Forall is_record rs /\
    filter is_dump (snd (main w disk)) =
      (if open_ok disk then [EvDump (VDict data) 2] else []) /\
    (file_io_fails disk \/
     snd (main w disk) =
       [EvOpen "examples/sample_scan_data.json" "w"; EvDump (VDict data) 2;
        EvClose; EvPrint "Sample data written to examples/sample_scan_data.json"]).
Proof.
  intros w disk.
  destruct (returns_generate_sample_data w)
    as (data & w' & Erun & metrics & accounts & names & rs & infos & counts
        & -> & _ & Hsum & _).
  eexists _, w', rs. split; [exact Erun |].
  split; [reflexivity |]. split; [reflexivity |].
  split; [exact (summarises_record infos rs Hsum) |].
  unfold main, file_io_fails. rewrite Erun.
  destruct disk as [[|] [|] [|] [|]]; cbn; auto.
Qed.

(** C8. In the returned document [ScanMetrics.ResourcesByType] is always the
    empty mapping: [ScanMetrics] is updated with the result of
    [calculate_scan_metrics], whose [ResourcesByType] is the empty dict. *)
Theorem resources_by_type_is_empty :
  (forall total_resources : value,
      returns (calculate_scan_metrics total_resources)
              (fun m => dict_get m "ResourcesByType" = Some (VDict []))) /\
  forall w : World,
  exists (data : dict) (w' : World) (metrics : value),
    generate_sample_data w = Ok (data, w') /\
    dict_get data "ScanMetrics" = Some metrics /\
    field metrics "ResourcesByType" = Some (VDict []).
Proof.
  split.
  - intros total_resources.
    eapply returns_weaken; [apply returns_calculate_scan_metrics |].
    intros m (ca & tc & ts & avg & ut & nscans & ncomp & nfail & peak & ->).
    reflexivity.
  - intros w.
    destruct (returns_generate_sample_data w)
      as (data & w' & Erun & metrics & accounts & names & rs & infos & counts
          & -> & Hm & _).
    eexists _, w', _. split; [exact Erun |]. split; [reflexivity |].
    destruct Hm as (ca & tc & ts & avg & ut & nscans & ncomp & nfail & peak & ->).
    reflexivity.
Qed.

(** ** Catalog and counts *)

Lemma resource_types_nodup : NoDup resource_types.
Proof.
  unfold resource_types.
  repeat (constructor; [cbn [In]; intuition discriminate |]).
  constructor.
Qed.

Lemma blocks_in_types (types : list string) :
  forall (counts : list nat) (s : string),
    In s (flat_map (fun tn => repeat (fst tn) (snd tn)) (combine types counts)) ->
    In s types.
Proof.
  induction types as [|t types IH]; intros [|n counts] s;
    cbn [combine flat_map fst snd]; try (intros []).
  intros H. apply in_app_or in H. destruct H as [H | H].
  - apply repeat_spec in H. left. symmetry. exact H.
  - right. exact (IH counts s H).
Qed.

Lemma filter_repeat_same (t : string) (n : nat) :
  filter (fun s => s =s t) (repeat t n) = repeat t n.
Proof.
  induction n as [|n IH]; cbn [repeat filter]; [reflexivity |].
  rewrite String.eqb_refl, IH. reflexivity.
Qed.

Lemma filter_repeat_other (t t' : string) (n : nat) :
  t' <> t -> filter (fun s => s =s t) (repeat t' n) = [].
Proof.
  intros Hne. induction n as [|n IH]; cbn [repeat filter]; [reflexivity |].
  destruct (t' =s t) eqn:E; [apply String.eqb_eq in E; contradiction | exact IH].
Qed.

Lemma filter_absent (t : string) (l : list string) :
  ~ In t l -> filter (fun s => s =s t) l = [].
Proof.
  induction l as [|x l IH]; cbn [filter In]; intros H; [reflexivity |].
  destruct (x =s t) eqn:E; [apply String.eqb_eq in E; exfalso; auto | apply IH; tauto].
Qed.

(** A type of the catalog occurs as often as its round of the outer loop
    generated resources. *)
Lemma count_in_blocks (P : nat -> Prop) (types : list string) :
  forall (counts : list nat) (t : string),
    NoDup types -> List.length counts = List.length types -> Forall P counts ->
    In t types ->
    P (List.length
         (filter (fun s => s =s t)
                 (flat_map (fun tn => repeat (fst tn) (snd tn)) (combine types counts)))).
Proof.
  induction types as [|t0 types IH]; intros [|n counts] t Hnd Hlen HP Hin;
    cbn [List.length] in Hlen; try discriminate; [destruct Hin |].
  cbn [combine flat_map fst snd]. rewrite filter_app.
  inversion Hnd as [|? ? Hnotin Hnd']; subst.
  inversion HP as [|? ? Pn HP']; subst.
  destruct (string_dec t0 t) as [-> | Hne].
  - rewrite filter_repeat_same, (filter_absent t).
    + rewrite app_nil_r, repeat_length. exact Pn.
    + intros H. apply Hnotin. exact (blocks_in_types types counts t H).
  - rewrite (filter_repeat_other t t0 n Hne). cbn [app].
    apply IH; try assumption; [lia |].
    destruct Hin as [H | H]; [contradiction | exact H].
Qed.

Lemma of_type_length (infos : list (string * costs5)) (t : string) :
  List.length (of_type t infos) =
  List.length (filter (fun s => s =s t) (map fst infos)).
Proof.
  induction infos as [|[t' c] infos IH]; cbn [of_type filter map fst]; [reflexivity |].
  destruct (t' =s t); cbn [List.length]; fold (of_type t infos); rewrite IH; reflexivity.
Qed.

(** C7. Every record of [UnusedResources] has a type of the fixed catalog of
    ten resource types, and every type of the catalog occurs there between 5
    and 15 times. *)
Theorem every_catalog_type_occurs_5_to_15_times :
  resource_types =
    ["EC2 Instance"; "RDS Instance"; "ELB"; "EBS Volume"; "EBS Snapshot";
     "DynamoDB Table"; "IAM User"; "IAM Role"; "Elastic IP"; "OpenSearch Domain"] /\
  forall w : World,
  exists (data : dict) (w' : World) (rs : list value),
    generate_sample_data w = Ok (data, w') /\
    dict_get data "UnusedResources" = Some (VList rs) /\
    Forall (fun r => exists t, type_of r = Some t /\ In t resource_types) rs /\
    forall t, In t resource_types ->
      (5 <= List.length (filter (has_type t) rs) <= 15)%nat.
Proof.
  split; [reflexivity |]. intros w.
  destruct (returns_generate_sample_data w)
    as (data & w' & Erun & metrics & accounts & names & rs & infos & counts
        & -> & _ & Hsum & _ & Hcl & Hc & Hty).
  eexists _, w', rs. split; [exact Erun |]. split; [reflexivity |]. split.
  - apply Forall_forall. intros r Hr.
    apply (in_map type_of) in Hr. rewrite (summarises_types infos rs Hsum) in Hr.
    apply in_map_iff in Hr. destruct Hr as ([t c] & <- & Hin).
    exists t. split; [reflexivity |].
    apply (in_map fst) in Hin. rewrite Hty in Hin.
    exact (blocks_in_types resource_types counts t Hin).
  - intros t Ht.
    rewrite <- (Forall2_length (summarises_of_type infos rs t Hsum)).
    rewrite of_type_length, Hty.
    apply (count_in_blocks (fun n => 5 <= n <= 15)%nat);
      [apply resource_types_nodup | assumption ..].
Qed.

(** ** The IAM types *)

Lemma iam_type_spec (t : string) :
  iam_type t = true <-> t = "IAM User" \/ t = "IAM Role".
Proof.
  unfold iam_type. rewrite orb_true_iff, !String.eqb_eq. reflexivity.
Qed.

Lemma summarises_iam (info : string * costs5) (r : value) :
  summarises info r -> is_iam r = iam_type (fst info).
Proof.
  intros H. unfold is_iam, has_type, iam_type.
  rewrite (summarises_type info r H). reflexivity.
Qed.

Lemma info_iam_zero (info : string * costs5) (p : string) (f : costs5 -> Q) :
  info_ok info -> iam_type (fst info) = true -> reads p f -> f (snd info) == 0.
Proof.
  intros (k & _ & Hy & Hl & Hiam) Ht Hf. apply iam_type_spec in Ht.
  destruct (Hiam Ht) as (Hh & Hd & Hm). rewrite Hm in Hy. rewrite Hy in Hl.
  destruct Hf as [[_ ->] | [[_ ->] | [[_ ->] | [[_ ->] | [_ ->]]]]].
  - rewrite Hh. reflexivity.
  - rewrite Hd. reflexivity.
  - rewrite Hm. reflexivity.
  - rewrite Hy. reflexivity.
  - rewrite Hl. lra.
Qed.

Lemma Qsum_zero (l : list Q) : Forall (fun x => x == 0) l -> Qsum l == 0.
Proof.
  induction 1 as [|x l Hx _ IH]; [reflexivity |].
  change (Qsum (x :: l)) with (x + Qsum l)%Q. rewrite Hx, IH. reflexivity.
Qed.

(** Leaving the IAM resources out does not change a sum of costs. *)
Lemma Qsum_without_iam (infos : list (string * costs5)) (p : string)
  (f : costs5 -> Q) :
  Forall info_ok infos -> reads p f ->
  Qsum (map f (map snd infos)) ==
  Qsum (map f (map snd (filter (fun info => negb (iam_type (fst info))) infos))).
Proof.
  intros H Hf. induction H as [|info infos Hi _ IH]; [reflexivity |].
  cbn [filter map].
  change (Qsum (f (snd info) :: map f (map snd infos)))
    with (f (snd info) + Qsum (map f (map snd infos)))%Q.
  destruct (iam_type (fst info)) eqn:E; cbn [negb map].
  - rewrite (info_iam_zero info p f Hi E Hf), IH. lra.
  - change (Qsum (f (snd info) :: ?l)) with (f (snd info) + Qsum l)%Q.
    rewrite IH. reflexivity.
Qed.

Lemma summarises_without_iam (infos : list (string * costs5)) (rs : list value) :
  Forall2 summarises infos rs ->
  Forall2 summarises
          (filter (fun info => negb (iam_type (fst info))) infos)
          (filter (fun r => negb (is_iam r)) rs).
Proof.
  induction 1 as [|info r infos rs Hr _ IH]; cbn [filter]; [constructor |].
  rewrite (summarises_iam info r Hr).
  destruct (iam_type (fst info)); cbn [negb]; [exact IH | constructor; assumption].
Qed.

Lemma of_type_forall (P : string * costs5 -> Prop) (infos : list (string * costs5))
  (t : string) :
  Forall P infos -> Forall (fun info => P info /\ fst info = t) (of_type t infos).
Proof.
  induction 1 as [|info infos Hi _ IH]; cbn [of_type filter]; [constructor |].
  destruct (fst info =s t) eqn:E; [| exact IH].
  apply String.eqb_eq in E. constructor; [split; assumption | exact IH].
Qed.

(** C9. No branch of [calculate_resource_costs] prices the types IAM User and
    IAM Role: whatever the details, the five costs it returns for them are
    zero.  So in every run each resource of these types has five zero costs,
    the entries of these types in [CostBreakdown] are zero, and [TotalCosts]
    is the sum over the other resources alone. *)
Theorem iam_resources_cost_nothing :
  (forall (resource_type : string) (details : dict),
      resource_type = "IAM User" \/ resource_type = "IAM Role" ->
      returns (calculate_resource_costs resource_type details)
              (fun costs => forall p, In p periods ->
                 exists x, field_float (VDict costs) p = Some x /\ x == 0)) /\
  forall w : World,
  exists (data : dict) (w' : World) (rs breakdown : list value) (totals : value),
    generate_sample_data w = Ok (data, w') /\
    dict_get data "UnusedResources" = Some (VList rs) /\
    dict_get data "CostBreakdown" = Some (VList breakdown) /\
    dict_get data "TotalCosts" = Some totals /\
    Forall (fun r => is_iam r = true ->
              forall p, In p periods -> exists x, cost_of p r = Some x /\ x == 0) rs /\
    Forall (fun e => is_iam e = true ->
              forall p, In p periods -> exists x, field_float e p = Some x /\ x == 0)
           breakdown /\
    forall p, In p periods ->
      exists (x : Q) (cs : list Q),
        field_float totals p = Some x /\
        map (cost_of p) (filter (fun r => negb (is_iam r)) rs) = map Some cs /\
        x == Qsum cs.
Proof.
  split.
  - intros resource_type details Hiam.
    eapply returns_weaken; [exact (costs_of_iam resource_type details Hiam) |].
    intros costs (h & d & m & k & -> & _ & Hzero) p Hp.
    destruct (Hzero Hiam) as (-> & -> & ->).
    cbn [periods In] in Hp.
    destruct Hp as [<- | [<- | [<- | [<- | [<- | []]]]]];
      eexists; (split; [reflexivity | lra]).
  - intros w.
    destruct (returns_generate_sample_data w)
      as (data & w' & Erun & metrics & accounts & names & rs & infos & counts
          & -> & _ & Hsum & Hok & _).
    eexists _, w', rs, _, _. split; [exact Erun |].
    do 3 (split; [reflexivity |]). split; [| split].
    + clear Erun. induction Hsum as [|info r infos rs Hr _ IH]; [constructor |].
      inversion Hok as [|? ? Hi Hok']; subst.
      constructor; [| exact (IH Hok')].
      intros Hiam p Hp. rewrite (summarises_iam info r Hr) in Hiam.
      destruct (reads_period p Hp) as [f Hf].
      exists (f (snd info)).
      split; [exact (summarises_cost info r p f Hr Hf) |].
      exact (info_iam_zero info p f Hi Hiam Hf).
    + apply Forall_forall. intros e He.
      unfold dict_values, render_groups in He. rewrite map_map in He.
      apply in_map_iff in He. destruct He as ([t c] & <- & Hin).
      cbn [fst snd]. intros Hiam p Hp.
      destruct (reads_period p Hp) as [f Hf].
      exists (f c). split; [exact (entry_float t p c f Hf) |].
      assert (Ht : In t (map fst infos))
        by (apply tally_keys; exact (in_map fst _ _ Hin)).
      destruct (tally_entry infos t Ht) as (c' & Hsingle & Hc').
      assert (Hcc : In (t, c) (of_type t (fst (tally ([], zero5) infos)))).
      { apply filter_In. split; [exact Hin | apply String.eqb_refl]. }
      rewrite Hsingle in Hcc. destruct Hcc as [[= <-] | []].
      rewrite (Hc' p f Hf). apply Qsum_zero.
      rewrite !Forall_map.
      eapply Forall_impl; [| exact (of_type_forall info_ok infos t Hok)].
      intros info [Hi Hti]. apply (info_iam_zero info p f Hi); [| exact Hf].
      rewrite Hti. exact Hiam.
    + intros p Hp. destruct (reads_period p Hp) as [f Hf].
      exists (f (snd (tally ([], zero5) infos))).
      eexists. split; [exact (totals_float p _ f Hf) |].
      split; [exact (summarises_costs _ _ p f (summarises_without_iam infos rs Hsum) Hf) |].
      rewrite (tally_total f (reads_add p f Hf)), (reads_zero p f Hf).
      rewrite <- (Qsum_without_iam infos p f Hok Hf). lra.
Qed.

(** ** The draw behind the lifetime cost *)

Lemma pure_ret {A : Type} (a : A) : pure (ret a).
Proof. left. exists a. reflexivity. Qed.

Lemma pure_raise {A : Type} (e : exn) : pure (@raise A e).
Proof. right. exists e. reflexivity. Qed.

Lemma pure_bind {A B : Type} (c : M A) (k : A -> M B) :
  pure c -> (forall a, pure (k a)) -> pure (bind c k).
Proof.
  intros [[a Ha] | [e He]] Hk.
  - destruct (Hk a) as [[b Hb] | [e He]].
    + left. exists b. intros w. unfold bind. rewrite Ha. apply Hb.
    + right. exists e. intros w. unfold bind. rewrite Ha. apply He.
  - right. exists e. intros w. unfold bind. rewrite He. reflexivity.
Qed.

Lemma pure_getnum (d : dict) (k : string) : pure (getnum d k).
Proof.
  unfold getnum, getitem. destruct (dict_get d k) as [v|].
  - apply pure_bind; [apply pure_ret |].
    intros [b | n | x | s | l | d']; first [apply pure_ret | apply pure_raise].
  - apply pure_bind; [apply pure_raise | intros a].
    destruct a; first [apply pure_ret | apply pure_raise].
Qed.

Lemma pure_rates_get (rates : list (string * Q)) (key : value) (dflt : Q) :
  pure (rates_get rates key dflt).
Proof. destruct key; first [apply pure_ret | apply pure_raise]. Qed.

Lemma pure_py_float (v : value) : pure (py_float v).
Proof. destruct v; first [apply pure_ret | apply pure_raise]. Qed.

Lemma pure_py_int (v : value) : pure (py_int v).
Proof. destruct v; first [apply pure_ret | apply pure_raise]. Qed.

Lemma pure_method_get (v : value) (k : string) (dflt : value) :
  pure (method_get v k dflt).
Proof. destruct v; first [apply pure_ret | apply pure_raise]. Qed.

Ltac pure_steps :=
  repeat first
    [ apply pure_ret
    | apply pure_getnum
    | apply pure_rates_get
    | apply pure_py_float
    | apply pure_py_int
    | apply pure_method_get
    | apply pure_bind; [| intros ?] ].

(** [calculate_resource_costs] draws once, for the lifetime cost: when it
    returns, the integer [k] is what [random.randint(-1, 3)] returns in the
    environment of the call, and the environment left is the one that call
    leaves. *)
Lemma costs_use_one_draw (resource_type : string) (details : dict)
  (w w' : World) (costs : dict) :
  calculate_resource_costs resource_type details w = Ok (costs, w') ->
  exists (y : Q) (k : Z),
    randint (-1) 3 w = Ok (k, w') /\
    field_float (VDict costs) "yearly" = Some y /\
    field_float (VDict costs) "lifetime" = Some (y * inject_Z k)%Q.
Proof.
  unfold calculate_resource_costs. intros H.
  match type of H with
  | bind ?B _ _ = _ => assert (HB : pure B)
  end.
  { repeat match goal with
           | |- pure (if ?b then _ else _) => destruct b
           end; cbv zeta; pure_steps. }
  destruct HB as [[c0 Hc0] | [e He]];
    [| unfold bind in H; rewrite He in H; discriminate].
  rewrite (bind_ok _ _ _ _ _ (Hc0 w)) in H.
  destruct (pure_getnum c0 "monthly") as [[m Hm] | [e He]];
    [| unfold bind in H; rewrite He in H; discriminate].
  rewrite (bind_ok _ _ _ _ _ (Hm w)) in H. cbv zeta in H.
  unfold getnum at 1 in H. rewrite getitem_set_same in H.
  cbn [bind ret as_number] in H.
  unfold bind in H. destruct (randint (-1) 3 w) as [[k w1] | e]; [| discriminate].
  unfold ret in H. injection H as <- <-.
  exists (m * 12)%Q, k. split; [reflexivity |].
  unfold field_float, field. split.
  - rewrite dict_get_set_other by discriminate.
    rewrite dict_get_set_same. reflexivity.
  - rewrite dict_get_set_same. reflexivity.
Qed.

Lemma randint_of_draw_lifetime (x : N) :
  randint_of_draw (-1) 3 x = Some (-1 + Z.of_N x mod 5).
Proof. reflexivity. Qed.

Lemma draw_mod_5 (i n : nat) :
  (i < 5)%nat -> Z.of_N (N.of_nat (i + 5 * n)) mod 5 = Z.of_nat i.
Proof.
  intros Hi. rewrite nat_N_Z, Nat2Z.inj_add, Nat2Z.inj_mul.
  rewrite (Z.mul_comm (Z.of_nat 5)), Z_mod_plus_full.
  apply Z.mod_small. lia.
Qed.

(** Of the draws 0, ..., 5n - 1, exactly n give each multiplier. *)
Lemma lifetime_draws_even (n : nat) (k : Z) :
  -1 <= k <= 3 ->
  List.length (draws_giving (-1) 3 k (draws_below (5 * n))) = n.
Proof.
  intros Hk. unfold draws_giving, draws_below.
  induction n as [|n IH]; [reflexivity |].
  replace (5 * S n)%nat with (5 * n + 5)%nat by lia.
  rewrite seq_app, map_app, filter_app, length_app, IH.
  cbn [Nat.add seq map filter].
  rewrite !randint_of_draw_lifetime.
  change (5 * n)%nat with (0 + 5 * n)%nat at 1.
  change (S (5 * n)) with (1 + 5 * n)%nat.
  change (S (1 + 5 * n)) with (2 + 5 * n)%nat.
  change (S (2 + 5 * n)) with (3 + 5 * n)%nat.
  change (S (3 + 5 * n)) with (4 + 5 * n)%nat.
  rewrite !draw_mod_5 by lia.
  assert (Hcases : k = -1 \/ k = 0 \/ k = 1 \/ k = 2 \/ k = 3) by lia.
  destruct Hcases as [-> | [-> | [-> | [-> | ->]]]]; cbn; lia.
Qed.

(** C10. For every generated resource the yearly cost is the monthly cost
    times 12 and the lifetime cost is the yearly cost times an integer [k]
    among -1, 0, 1, 2, 3.  That integer is what [random.randint(-1, 3)]
    returns in the environment in which [calculate_resource_costs] is called
    (the function draws nothing else); of the draws 0, ..., 5n - 1 of the
    generator exactly n give each of the five values.  And there is a run
    with a resource whose yearly cost is not zero and whose lifetime cost is
    negative, equal to minus its yearly cost. *)
Theorem lifetime_is_yearly_times_draw :
  (forall w : World,
   exists (data : dict) (w' : World) (rs : list value),
     generate_sample_data w = Ok (data, w') /\
     dict_get data "UnusedResources" = Some (VList rs) /\
     Forall (fun r =>
               exists (m y l : Q) (k : Z),
                 cost_of "monthly" r = Some m /\
                 cost_of "yearly" r = Some y /\
                 cost_of "lifetime" r = Some l /\
                 y == m * 12 /\ -1 <= k <= 3 /\ l == y * inject_Z k) rs) /\
  (forall (resource_type : string) (details : dict) (w w' : World) (costs : dict),
     calculate_resource_costs resource_type details w = Ok (costs, w') ->
     exists (y : Q) (k : Z),
       randint (-1) 3 w = Ok (k, w') /\
       field_float (VDict costs) "yearly" = Some y /\
       field_float (VDict costs) "lifetime" = Some (y * inject_Z k)%Q) /\
  (forall (n : nat) (k : Z),
     -1 <= k <= 3 ->
     List.length (draws_giving (-1) 3 k (draws_below (5 * n))) = n) /\
  (exists (data : dict) (w' : World) (rs : list value) (r : value) (y l : Q),
     generate_sample_data quiet_world = Ok (data, w') /\
     dict_get data "UnusedResources" = Some (VList rs) /\
     In r rs /\
     cost_of "yearly" r = Some y /\
     cost_of "lifetime" r = Some l /\
     ~ y == 0 /\ l < 0 /\ l == - y)%Q.
Proof.
  split; [| split; [| split]].
  - intros w.
    destruct (returns_generate_sample_data w)
      as (data & w' & Erun & metrics & accounts & names & rs & infos & counts
          & -> & _ & Hsum & Hok & _).
    eexists _, w', rs. split; [exact Erun |]. split; [reflexivity |].
    clear Erun. induction Hsum as [|info r infos rs Hr _ IH]; [constructor |].
    inversion Hok as [|? ? Hi Hok']; subst.
    constructor; [| exact (IH Hok')].
    destruct Hi as (k & Hk & Hy & Hl & _).
    exists (c_monthly (snd info)), (c_yearly (snd info)), (c_lifetime (snd info)), k.
    split; [apply (summarises_cost info r); [exact Hr | unfold reads; auto 10] |].
    split; [apply (summarises_cost info r); [exact Hr | unfold reads; auto 10] |].
    split; [apply (summarises_cost info r); [exact Hr | unfold reads; auto 10] |].
    rewrite Hl, Hy. repeat split; try reflexivity; lia.
  - exact costs_use_one_draw.
  - exact lifetime_draws_even.
  - do 6 eexists.
    split; [vm_compute; reflexivity |].
    split; [reflexivity |].
    split; [left; reflexivity |].
    split; [vm_compute; reflexivity |].
    split; [vm_compute; reflexivity |].
    split; [intros H; vm_compute in H; discriminate |].
    split; vm_compute; reflexivity.
Qed.

(** No shift of a reading by 365 days or less leaves the range of [datetime]
    when the two shifts by 365 days do not. *)
Lemma shifts_stay_in_range (t d : Z) :
  datetime_in_range (t - timedelta_days 365) ->
  datetime_in_range (t + timedelta_days 365) ->
  -365 <= d <= 365 ->
  datetime_in_range (t + timedelta_days d).
Proof. unfold datetime_in_range, datetime_min, datetime_max, timedelta_days. lia. Qed.

(** C6 (amended). In an environment whose clock stays 365 days inside the
    range of [datetime], generating the data never fails:
    [generate_sample_data] returns.  For every type of the catalog the list
    [reasons] has (at least) 3 entries when [random.sample] is asked for 2 or
    3 of them, so that [generate_resource_reasons] returns.  [main] raises an
    error exactly when opening or writing the output file fails or the final
    [print] fails, and it tries nothing a second time: whatever happens, the
    file is opened once and the document dumped at most once. *)
Theorem generation_total_and_errors_from_file_or_print :
  (forall w : World,
      clock_in_range w ->
      exists (data : dict) (w' : World), generate_sample_data w = Ok (data, w')) /\
  (forall (resource_type : string) (days_ago : Z),
      In resource_type resource_types ->
      returns (resource_reasons_list resource_type days_ago)
              (fun reasons => (3 <= List.length reasons)%nat) /\
      returns (generate_resource_reasons resource_type days_ago)
              (fun chosen => (2 <= List.length chosen <= 3)%nat)) /\
  (forall (w : World) (disk : Disk),
      clock_in_range w ->
      ((exists e, fst (main w disk) = Raise e) <->
       file_io_fails disk \/ print_ok disk = false)) /\
  (forall (w : World) (disk : Disk),
      clock_in_range w ->
      List.length (filter is_open (snd (main w disk))) = 1%nat /\
      (List.length (filter is_dump (snd (main w disk))) <= 1)%nat).
Proof.
  split; [| split; [| split]].
  - intros w _.
    destruct (returns_generate_sample_data w) as (data & w' & E & _). eauto.
  - intros resource_type days_ago Hin. split.
    + eapply returns_weaken; [apply returns_resource_reasons_list; exact Hin |].
      intros reasons ->. apply le_n.
    + apply returns_generate_resource_reasons. exact Hin.
  - intros w disk _. unfold main, file_io_fails.
    destruct (returns_generate_sample_data w) as (data & w' & -> & _).
    destruct disk as [[|] [|] [|] [|]]; cbn; split;
      try (intros [e He]; discriminate);
      try (intros [[H | [H | H]] | H]; discriminate);
      intros _; eauto 6.
  - intros w disk _. unfold main.
    destruct (returns_generate_sample_data w) as (data & w' & -> & _).
    destruct disk as [[|] [|] [|] [|]]; cbn; split; auto.
Qed.

(** The amended statement in a run of 2025-11-04 in which the write of
    [json.dump] fails. *)
Lemma generation_total_and_errors_from_file_or_print_witness :
  clock_in_range (mkWorld [] [] [1762214400000000]) /\
  ((exists e, fst (main (mkWorld [] [] [1762214400000000])
                        (mkDisk true false true true)) = Raise e) <->
   file_io_fails (mkDisk true false true true) \/
   print_ok (mkDisk true false true true) = false).
Proof.
  assert (H : clock_in_range (mkWorld [] [] [1762214400000000])).
  { constructor; [| constructor].
    unfold datetime_in_range, datetime_min, datetime_max, timedelta_days. lia. }
  split; [exact H |].
  exact (proj1 (proj2 (proj2 generation_total_and_errors_from_file_or_print))
           (mkWorld [] [] [1762214400000000]) (mkDisk true false true true) H).
Defined.

(** C6 as the specification states it fails: with the output file opened,
    written and closed without error, [main] raises when the final [print]
    fails. *)
Lemma print_failure_raises_after_the_file_is_written :
  (exists e, fst (main quiet_world (mkDisk true true true false)) = Raise e) /\
  ~ file_io_fails (mkDisk true true true false).
Proof.
  split.
  - unfold main.
    destruct (returns_generate_sample_data quiet_world) as (data & w' & -> & _).
    exists OSError. reflexivity.
  - unfold file_io_fails. cbn. intros [H | [H | H]]; discriminate.
Qed.

(** C5 (the code departs from it). [add_resource] counts the resources by type
    in [ScanMetrics.ResourcesByType], but the document does not keep the
    counts: in the run where every draw reads 0, each of the ten types gets 5
    resources, 50 in all, and [ResourcesByType] is the empty dict, in which
    no type is mapped to its count. *)
Theorem resources_by_type_counts_are_dropped :
  exists (data : dict) (w' : World) (rs : list value) (metrics : value)
         (by_type : dict),
    generate_sample_data quiet_world = Ok (data, w') /\
    dict_get data "UnusedResources" = Some (VList rs) /\
    dict_get data "ScanMetrics" = Some metrics /\
    field metrics "ResourcesByType" = Some (VDict by_type) /\
    List.length rs = 50%nat /\
    Forall (fun t => List.length (filter (has_type t) rs) = 5%nat /\
                     dict_get by_type t = None) resource_types.
Proof.
  do 5 eexists.
  split; [vm_compute; reflexivity |].
  split; [reflexivity |]. split; [reflexivity |]. split; [reflexivity |].
  split; [vm_compute; reflexivity |].
  repeat (constructor; [split; vm_compute; reflexivity |]). constructor.
Qed.

(** ** The library model on concrete values *)

Example isoformat_example :
  isoformat 1709210096000250 = "2024-02-29T12:34:56.000250".
Proof. vm_compute. reflexivity. Qed.

(** The two ends of the range of [datetime]; one microsecond further Python
    raises [OverflowError], where the embedding goes on counting. *)
Example datetime_range_example :
  (isoformat datetime_min, isoformat datetime_max, isoformat (datetime_max + 1)) =
  ("0001-01-01T00:00:00", "9999-12-31T23:59:59.999999", "10000-01-01T00:00:00").
Proof. vm_compute. reflexivity. Qed.

Example sample_example :
  sample ["a"; "b"; "c"; "d"] 3 (mkWorld [1%N; 2%N; 0%N] [] []) =
  Ok (["b"; "c"; "a"], quiet_world).
Proof. vm_compute. reflexivity. Qed.

Example round_and_str_examples :
  (str_float (py_round (314159 # 100000) 2), str_float (py_round (5 # 2) 1),
   str_float (py_round (1 # 8) 2), str_float 3) =
  ("3.14", "2.5", "0.12", "3.0").
Proof. vm_compute. reflexivity. Qed.

Example hex08_example : hex08 10000000 = "00989680".
Proof. vm_compute. reflexivity. Qed.

Example uuid4_example :
  uuid4_hex (mkWorld [] [12345678901234567890123456789012345678%N] []) =
  Ok ("0949b0f6f002431384499050de38f34e", quiet_world).
Proof. vm_compute. reflexivity. Qed.

(** * Further properties of the code *)

(** ** Types outside the catalog *)

Lemma reasons_unknown_raise (resource_type : string) (days_ago : Z) (w : World) :
  ~ In resource_type resource_types ->
  generate_resource_reasons resource_type days_ago w = Raise ValueError.
Proof.
  intros Hnot.
  assert (Hempty : returns (resource_reasons_list resource_type days_ago)
                           (fun reasons => reasons = [])).
  { unfold resource_reasons_list. step. step. step.
    repeat match goal with
           | |- context [if ?rt =s ?s then _ else _] =>
               let E := fresh "E" in
               destruct (rt =s s) eqn:E;
               [apply String.eqb_eq in E; exfalso; apply Hnot; subst;
                cbn; auto 12 |]
           end.
    apply returns_ret. reflexivity. }
  unfold generate_resource_reasons.
  destruct (Hempty w) as (reasons & w1 & E1 & ->).
  rewrite (bind_ok _ _ _ _ _ E1).
  destruct (returns_randint 2 3 ltac:(lia) w1) as (k & w2 & E2 & Hk).
  rewrite (bind_ok _ _ _ _ _ E2). cbv beta in Hk.
  unfold sample. cbn [List.length].
  destruct (k <? 0) eqn:Ek; [reflexivity |].
  destruct (Z.of_nat 0 <? k) eqn:Ek'; [reflexivity |].
  apply Z.ltb_ge in Ek'. cbn in Ek'. lia.
Qed.

Lemma details_unknown_empty (resource_type : string) (w : World) :
  ~ In resource_type resource_types ->
  generate_resource_details resource_type w = Ok ([], w).
Proof.
  intros Hnot. unfold generate_resource_details.
  repeat match goal with
         | |- context [if ?rt =s ?s then _ else _] =>
             let E := fresh "E" in
             destruct (rt =s s) eqn:E;
             [apply String.eqb_eq in E; exfalso; apply Hnot; subst;
              cbn; auto 12 |]
         end.
  reflexivity.
Qed.


(** X1. For a resource type outside the catalog no branch of
    [generate_resource_reasons] fills [reasons], and [random.sample] is asked
    for 2 or 3 elements of the empty list: the call raises [ValueError],
    whatever [days_ago] and the environment. *)
Theorem reasons_of_unknown_type_raise :
  forall (resource_type : string) (days_ago : Z) (w : World),
    ~ In resource_type resource_types ->
    generate_resource_reasons resource_type days_ago w = Raise ValueError.
Proof.
  intros resource_type days_ago w Hnot.
  exact (reasons_unknown_raise resource_type days_ago w Hnot).
Qed.

Lemma reasons_of_unknown_type_raise_witness :
  ~ In "S3 Bucket" resource_types /\
  generate_resource_reasons "S3 Bucket" 180 quiet_world = Raise ValueError.
Proof.
  assert (H : ~ In "S3 Bucket" resource_types).
  { cbn. intuition discriminate. }
  split; [exact H | exact (reasons_of_unknown_type_raise "S3 Bucket" 180 quiet_world H)].
Defined.

(** ** [random.sample] returns distinct elements *)

Lemma firstn_snoc {A : Type} (l : list A) (n : nat) (x : A) :
  nth_error l n = Some x -> firstn (S n) l = (firstn n l ++ [x])%list.
Proof.
  revert n. induction l as [|y l IH]; intros [|n] H; cbn in H; try discriminate.
  - injection H as ->. reflexivity.
  - cbn [firstn app]. f_equal. apply IH. exact H.
Qed.

(** Taking [pool[j]] out of the first [n] cells and moving [pool[n - 1]] into
    its place leaves in the first [n - 1] cells what was not taken. *)
Lemma sample_step_permutation {A : Type} (j : nat) :
  forall (pool : list A) (n : nat) (x last : A),
    (j < n)%nat ->
    nth_error pool j = Some x ->
    nth_error pool (n - 1) = Some last ->
    Permutation (firstn n pool) (x :: firstn (n - 1) (list_set pool j last)).
Proof.
  induction j as [|j IH]; intros [|y t] [|n] x last Hj Hx Hl;
    cbn in Hx; try discriminate; try lia;
    replace (S n - 1)%nat with n in * by lia.
  - injection Hx as ->.
    change (Permutation (x :: firstn n t) (x :: firstn n (last :: t))).
    constructor.
    destruct n as [|m]; [constructor |].
    change (nth_error t m = Some last) in Hl.
    change (firstn (S m) (last :: t)) with (last :: firstn m t).
    rewrite (firstn_snoc t m last Hl).
    apply Permutation_sym, Permutation_cons_append.
  - destruct n as [|m]; [lia |].
    change (nth_error t m = Some last) in Hl.
    change (Permutation (y :: firstn (S m) t)
                        (x :: y :: firstn m (list_set t j last))).
    eapply perm_trans; [| apply perm_swap].
    constructor.
    replace m with (S m - 1)%nat at 2 by lia.
    apply IH; [lia | exact Hx |].
    replace (S m - 1)%nat with m by lia. exact Hl.
Qed.

Lemma returns_sample_loop_nodup {A : Type} (k : nat) :
  forall (pool : list A) (n : nat),
    (k <= n <= List.length pool)%nat ->
    NoDup (firstn n pool) ->
    returns (sample_loop pool n k)
            (fun r => List.length r = k /\ NoDup r /\ incl r (firstn n pool)).
Proof.
  induction k as [|k IH]; intros pool n Hn Hnd; cbn [sample_loop].
  - apply returns_ret. repeat split; [constructor | intros x []].
  - eapply returns_bind; [apply returns_randbelow; lia | intros j Hj].
    cbv beta in Hj.
    destruct (nth_error pool (Z.to_nat j)) as [x|] eqn:Ex;
      [| apply nth_error_None in Ex; lia].
    destruct (nth_error pool (n - 1)) as [last|] eqn:El;
      [| apply nth_error_None in El; lia].
    pose proof (sample_step_permutation (Z.to_nat j) pool n x last
                  ltac:(lia) Ex El) as Hperm.
    pose proof (Permutation_NoDup Hperm Hnd) as Hnd'.
    inversion Hnd' as [|? ? Hnotin Hrest]; subst.
    eapply returns_bind.
    + apply IH; [rewrite list_set_length; lia | exact Hrest].
    + intros rest (Hlen & Hndr & Hincl). apply returns_ret. split; [| split].
      * cbn. rewrite Hlen. reflexivity.
      * constructor; [| exact Hndr]. intros Hin. apply Hnotin, Hincl, Hin.
      * intros y [<- | Hy].
        -- apply (Permutation_in _ (Permutation_sym Hperm)). left. reflexivity.
        -- apply (Permutation_in _ (Permutation_sym Hperm)). right.
           apply Hincl. exact Hy.
Qed.

Lemma returns_sample_nodup {A : Type} (population : list A) (k : Z) :
  0 <= k <= Z.of_nat (List.length population) ->
  NoDup population ->
  returns (sample population k)
          (fun r => List.length r = Z.to_nat k /\ NoDup r /\ incl r population).
Proof.
  intros Hk Hnd. unfold sample.
  destruct (k <? 0) eqn:E1; [apply Z.ltb_lt in E1; lia |].
  destruct (Z.of_nat (List.length population) <? k) eqn:E2;
    [apply Z.ltb_lt in E2; lia |].
  cbn [orb].
  eapply returns_weaken.
  - apply returns_sample_loop_nodup; [lia | rewrite firstn_all; exact Hnd].
  - intros r H. rewrite firstn_all in H. exact H.
Qed.

Lemma returns_regions_made : returns generate_random_regions regions_made.
Proof.
  unfold generate_random_regions.
  eapply returns_bind; [apply returns_randint; lia | intros k Hk].
  cbv beta in Hk.
  eapply returns_weaken.
  - apply returns_sample_nodup; [cbn [List.length]; lia |].
    repeat (constructor; [cbn [In]; intuition discriminate |]). constructor.
  - intros r (Hlen & Hnd & Hincl). cbv beta. repeat split; try assumption; lia.
Qed.

Ltac distinct_strings :=
  repeat (constructor;
          [cbn [In]; intros Hin;
           repeat (destruct Hin as [Hin | Hin]; [cbn in Hin; discriminate Hin |]);
           exact Hin |]);
  constructor.

Lemma returns_resource_reasons_distinct (resource_type : string) (days_ago : Z) :
  In resource_type resource_types ->
  returns (resource_reasons_list resource_type days_ago)
          (fun reasons => List.length reasons = 3%nat /\ NoDup reasons).
Proof.
  intros H. catalog H; unfold resource_reasons_list; branch;
    repeat step; apply returns_ret; (split; [reflexivity |]);
    unfold extend; cbn [app]; distinct_strings.
Qed.

Lemma returns_reasons_distinct (resource_type : string) (days_ago : Z) :
  In resource_type resource_types ->
  returns (generate_resource_reasons resource_type days_ago)
          (fun chosen => (2 <= List.length chosen <= 3)%nat /\ NoDup chosen).
Proof.
  intros Hin. unfold generate_resource_reasons.
  eapply returns_bind;
    [apply returns_resource_reasons_distinct; exact Hin | intros l [Hl Hnd]].
  eapply returns_bind; [apply returns_randint; lia | intros k Hk].
  cbv beta in *.
  eapply returns_weaken; [apply returns_sample_nodup; [lia | exact Hnd] |].
  intros r (Hr & Hndr & _). cbv beta. split; [lia | exact Hndr].
Qed.

(** X2. For every type of the catalog and every [days_ago],
    [generate_resource_reasons] returns 2 or 3 reasons and no reason twice. *)
Theorem chosen_reasons_are_distinct :
  forall days_ago : Z,
    Forall (fun resource_type =>
              returns (generate_resource_reasons resource_type days_ago)
                      (fun chosen =>
                         (2 <= List.length chosen <= 3)%nat /\ NoDup chosen))
           resource_types.
Proof.
  intros days_ago. apply Forall_forall. intros resource_type Hin.
  exact (returns_reasons_distinct resource_type days_ago Hin).
Qed.

(** X3. [generate_random_regions] returns between 3 and 7 regions, all among
    its seven regions and no region twice. *)
Theorem random_regions_are_distinct :
  returns generate_random_regions
    (fun regions =>
       (3 <= List.length regions <= 7)%nat /\
       NoDup regions /\
       incl regions ["us-east-1"; "us-east-2"; "us-west-1"; "us-west-2";
                     "eu-central-1"; "eu-west-1"; "ap-southeast-1"]).
Proof. exact returns_regions_made. Qed.

(** ** [generate_resource_details] *)

Ltac pricing_inputs_done :=
  unfold pricing_inputs;
  repeat split; intros Heq; try discriminate Heq;
  repeat eexists; try reflexivity; try eassumption; try lia.

Lemma returns_details_made (resource_type : string) :
  In resource_type resource_types ->
  returns (generate_resource_details resource_type) (details_made resource_type).
Proof.
  intros H. catalog H; unfold generate_resource_details; branch.
  - (* EC2 Instance *)
    step. step. step.
    eapply returns_bind; [apply returns_generate_resource_name | intros ? _].
    repeat step. apply returns_ret.
    split; [reflexivity | pricing_inputs_done].
  - (* RDS Instance *)
    step. step. step. step.
    cbn [getitem dict_get dict_set String.eqb Ascii.eqb Bool.eqb].
    apply returns_bind_ret. cbn [as_str]. apply returns_bind_ret.
    repeat step. apply returns_ret.
    split; [reflexivity | pricing_inputs_done].
  - apply returns_ret. split; [reflexivity | pricing_inputs_done].
  - repeat step. apply returns_ret.
    split; [reflexivity | pricing_inputs_done].
  - repeat step. apply returns_ret.
    split; [reflexivity | pricing_inputs_done].
  - step. step.
    eapply returns_bind; [apply returns_generate_resource_name | intros ? _].
    repeat step. apply returns_ret.
    split; [reflexivity | pricing_inputs_done].
  - repeat step. apply returns_ret. split; [reflexivity | pricing_inputs_done].
  - repeat step. apply returns_ret. split; [reflexivity | pricing_inputs_done].
  - repeat step. apply returns_ret. split; [reflexivity | pricing_inputs_done].
  - repeat step. apply returns_ret. split; [reflexivity | pricing_inputs_done].
Qed.

(** X4. The keys of the dict [generate_resource_details] returns, and their
    order, depend on the resource type alone ([detail_fields]), not on the
    draws, and no key occurs twice; for a type outside the catalog the dict is
    empty and the environment is left as it was. *)
Theorem detail_fields_depend_on_type_alone :
  (forall resource_type : string,
      returns (generate_resource_details resource_type)
              (fun details => dict_keys details = detail_fields resource_type /\
                              NoDup (dict_keys details))) /\
  (forall (resource_type : string) (w : World),
      ~ In resource_type resource_types ->
      generate_resource_details resource_type w = Ok ([], w)).
Proof.
  split; [| intros rt w H; exact (details_unknown_empty rt w H)].
  intros resource_type.
  destruct (in_dec string_dec resource_type resource_types) as [Hin | Hnot].
  - eapply returns_weaken; [exact (returns_details_made resource_type Hin) |].
    intros details [Hkeys _]. split; [exact Hkeys |]. rewrite Hkeys.
    clear Hkeys. catalog Hin; cbn;
      repeat (constructor; [cbn [In]; intuition discriminate |]); constructor.
  - intros w. exists [], w. split; [exact (details_unknown_empty _ w Hnot) |].
    split; [| constructor].
    unfold detail_fields.
    repeat match goal with
           | |- context [if ?rt =s ?s then _ else _] =>
               let E := fresh "E" in
               destruct (rt =s s) eqn:E;
               [apply String.eqb_eq in E; exfalso; apply Hnot; subst;
                cbn; auto 12 |]
           end.
    reflexivity.
Qed.

(** X5. For every type of the catalog the details generated hold the fields
    [calculate_resource_costs] reads for that type, of the type it needs and
    within the generator's ranges: the instance type or class is one of those
    drawn, the sizes lie between 8 and 100, the volume type is gp2, gp3 or
    io1, and [ProvisionedThroughput] is a dict of 1..3 read and 1..2 write
    units. *)
Theorem generated_details_feed_the_pricing :
  Forall (fun resource_type =>
            returns (generate_resource_details resource_type)
                    (pricing_inputs resource_type))
         resource_types.
Proof.
  apply Forall_forall. intros resource_type Hin.
  eapply returns_weaken; [exact (returns_details_made resource_type Hin) |].
  intros details [_ H]. exact H.
Qed.

(** X6. In the details of an RDS instance the engine is mysql, postgres or
    aurora, and the port of [Endpoint] is 5432 when the engine is postgres and
    3306 otherwise. *)
Theorem rds_port_follows_engine :
  returns (generate_resource_details "RDS Instance")
    (fun details =>
       exists (engine : string) (endpoint : value) (port : Z),
         dict_get details "Engine" = Some (VStr engine) /\
         In engine ["mysql"; "postgres"; "aurora"] /\
         dict_get details "Endpoint" = Some endpoint /\
         field endpoint "Port" = Some (VInt port) /\
         port = if engine =s "postgres" then 5432 else 3306).
Proof.
  unfold generate_resource_details. branch. step.
  cbv zeta. eapply returns_bind; [apply returns_choice; discriminate |].
  intros engine Hengine. cbv beta in Hengine. cbn [In] in Hengine.
  destruct Hengine as [<- | [<- | [<- | []]]];
    (step; step;
     cbn [getitem dict_get dict_set String.eqb Ascii.eqb Bool.eqb];
     apply returns_bind_ret; cbn [as_str]; apply returns_bind_ret;
     repeat step; apply returns_ret;
     do 3 eexists;
     split; [reflexivity |]; split; [cbn; auto |];
     split; [reflexivity |]; split; reflexivity).
Qed.

(** ** [calculate_scan_metrics] in numbers *)

Lemma int_of_float_floor (x : Q) : (0 <= x)%Q -> int_of_float x = Qfloor x.
Proof.
  intros Hx. unfold int_of_float. destruct x as [p q].
  unfold Qle in Hx. cbn [Qnum Qden Qfloor] in *.
  apply Z.quot_div_nonneg; lia.
Qed.

Lemma round_half_even_between (y : Q) (a b : Z) :
  (inject_Z a <= y)%Q -> (y <= inject_Z b)%Q ->
  a <= round_half_even y <= b.
Proof.
  intros Ha Hb. unfold round_half_even.
  assert (Hfa : a <= Qfloor y).
  { rewrite <- (Qfloor_Z a). apply Qfloor_resp_le. exact Ha. }
  assert (Hfb : Qfloor y <= b).
  { rewrite <- (Qfloor_Z b). apply Qfloor_resp_le. exact Hb. }
  pose proof (Qfloor_le y) as Hfl.
  assert (Hup : (0 < y - inject_Z (Qfloor y))%Q -> Qfloor y + 1 <= b).
  { intros Hpos.
    assert (Hlt : (inject_Z (Qfloor y) < inject_Z b)%Q) by lra.
    rewrite <- Zlt_Qlt in Hlt. lia. }
  destruct (y - inject_Z (Qfloor y) ?= 1 # 2)%Q eqn:E.
  - apply Qeq_alt in E.
    destruct (Z.even (Qfloor y)); [lia |].
    split; [lia | apply Hup; rewrite E; reflexivity].
  - lia.
  - apply Qgt_alt in E. split; [lia | apply Hup; lra].
Qed.

Lemma py_round_between (x : Q) (a b : Z) :
  (inject_Z a <= x)%Q -> (x <= inject_Z b)%Q ->
  (inject_Z a <= py_round x 2 <= inject_Z b)%Q.
Proof.
  intros Ha Hb. unfold py_round. change (Z.pow 10 (Z.of_nat 2)) with 100.
  destruct (round_half_even_between (x * inject_Z 100) (a * 100) (b * 100))
    as [H1 H2].
  - rewrite inject_Z_mult. change (inject_Z 100) with 100%Q. lra.
  - rewrite inject_Z_mult. change (inject_Z 100) with 100%Q. lra.
  - rewrite Zle_Qle, inject_Z_mult in H1, H2.
    change (inject_Z 100) with 100%Q in *.
    set (r := inject_Z (round_half_even (x * 100))) in *.
    split.
    + apply Qle_shift_div_l; [reflexivity | exact H1].
    + apply Qle_shift_div_r; [reflexivity | exact H2].
Qed.

(** X7. Whatever [total_resources], [calculate_scan_metrics] returns metrics
    in which [PeakWorkers] lies between 7 and [MaxWorkers] = 10,
    [WorkerUtilization] is ten times [PeakWorkers], [TasksPerSecond] lies
    between 5 and 8, [TotalScans] is an integer between 300 and 480 less than
    1 away from sixty times [TasksPerSecond], [FailedScans] lies between 1
    and 3, [CompletedScans] is [TotalScans - FailedScans],
    [AvgExecutionTimeMs] lies between 125 and 200, [TotalCost] between 5000
    and 15000, and [TotalRunTime] is 1m0s.

    [TotalScans] is stated within 1 of the product, not as its integer part:
    the script truncates the product as binary64 rounds it, which can be the
    integer just above the exact product that the embedding truncates. *)
Theorem scan_metrics_are_consistent :
  forall total_resources : value,
    returns (calculate_scan_metrics total_resources)
      (fun m =>
         exists (peak scans failed : Z) (tasks avg utilization cost : Q),
           dict_get m "PeakWorkers" = Some (VInt peak) /\
           dict_get m "MaxWorkers" = Some (VInt 10) /\
           dict_get m "WorkerUtilization" = Some (VFloat utilization) /\
           dict_get m "TasksPerSecond" = Some (VFloat tasks) /\
           dict_get m "TotalScans" = Some (VInt scans) /\
           dict_get m "FailedScans" = Some (VInt failed) /\
           dict_get m "CompletedScans" = Some (VInt (scans - failed)) /\
           dict_get m "AvgExecutionTimeMs" = Some (VFloat avg) /\
           dict_get m "TotalCost" = Some (VFloat cost) /\
           dict_get m "TotalRunTime" = Some (VStr "1m0s") /\
           7 <= peak <= 10 /\ utilization == inject_Z (10 * peak) /\
           (5 <= tasks <= 8)%Q /\
           (inject_Z scans - 1 < tasks * 60 < inject_Z scans + 1)%Q /\
           300 <= scans <= 480 /\ 1 <= failed <= 3 /\
           (125 <= avg <= 200)%Q /\ (5000 <= cost <= 15000)%Q).
Proof.
  intros total_resources w. unfold calculate_scan_metrics. cbv zeta.
  run_data (returns_randint 7 10 ltac:(lia)) w peak w0 Hpeak.
  unfold truediv at 1. change (Qeq_bool (inject_Z 10) 0) with false.
  compute_data.
  run_data (returns_uniform 5.0 8.0 ltac:(lra)) w0 tasks w1 Htasks.
  run_data (returns_randint 1 3 ltac:(lia)) w1 failed w2 Hfailed.
  change (inject_Z 60) with 60%Q.
  assert (Hfloor : int_of_float (tasks * 60) = Qfloor (tasks * 60))
    by (apply int_of_float_floor; lra).
  set (scans := int_of_float (tasks * 60)) in *.
  assert (Hlo : 300 <= scans).
  { rewrite Hfloor, <- (Qfloor_Z 300). apply Qfloor_resp_le.
    change (inject_Z 300) with 300%Q. lra. }
  assert (Hhi : scans <= 480).
  { rewrite Hfloor, <- (Qfloor_Z 480). apply Qfloor_resp_le.
    change (inject_Z 480) with 480%Q. lra. }
  assert (Hscans : (inject_Z scans <= tasks * 60 < inject_Z (scans + 1))%Q).
  { rewrite Hfloor. split; [apply Qfloor_le | apply Qlt_floor]. }
  unfold truediv.
  destruct (Qeq_bool (inject_Z scans) 0) eqn:Ez.
  { apply Qeq_bool_eq in Ez. unfold Qeq in Ez. cbn in Ez. lia. }
  compute_data.
  run_data returns_datetime_now w2 now w3 Hnow.
  run_data (returns_uniform 5000 15000 ltac:(lra)) w3 cost w4 Hcost.
  eexists; eexists; split; [reflexivity |].
  exists peak, scans, failed, tasks. do 3 eexists.
  do 10 (split; [reflexivity |]).
  split; [exact Hpeak |].
  split.
  { rewrite inject_Z_mult. change (inject_Z 10) with 10%Q. field. }
  split; [destruct Htasks; split; lra |].
  split.
  { destruct Hscans as [Hs1 Hs2]. rewrite inject_Z_plus in Hs2.
    change (inject_Z 1) with 1%Q in Hs2. split; lra. }
  split; [lia |]. split; [exact Hfailed |]. split; [| exact Hcost].
  change (60 * 1000) with 60000. change (inject_Z 60000) with 60000%Q.
  assert (Hpos : (0 < inject_Z scans)%Q).
  { change 0%Q with (inject_Z 0). rewrite <- Zlt_Qlt. lia. }
  assert (H300 : (300 <= inject_Z scans)%Q).
  { change 300%Q with (inject_Z 300). rewrite <- Zle_Qle. exact Hlo. }
  assert (H480 : (inject_Z scans <= 480)%Q).
  { change 480%Q with (inject_Z 480). rewrite <- Zle_Qle. exact Hhi. }
  apply (py_round_between _ 125 200).
  - change (inject_Z 125) with 125%Q. apply Qle_shift_div_l; [exact Hpos | lra].
  - change (inject_Z 200) with 200%Q. apply Qle_shift_div_r; [exact Hpos | lra].
Qed.

(** ** [calculate_resource_costs] on any details *)

Lemma Q_div_mul (x c : Q) : ~ c == 0 -> (x / c * c == x)%Q.
Proof. intros Hc. field. exact Hc. Qed.

Ltac run_costs w :=
  let k := fresh "k" in
  let w' := fresh "w" in
  let E := fresh "E" in
  let H := fresh "H" in
  destruct (returns_randint (-1) 3 ltac:(lia) w) as (k & w' & E & H);
  rewrite (bind_ok _ _ _ _ _ E); eexists; eexists; (split; [reflexivity |]).

Ltac periods_done w :=
  compute_pure; run_costs w;
  do 4 eexists; do 4 (split; [reflexivity |]);
  split; [reflexivity | split; reflexivity].

Ltac any_rate s :=
  unfold rate_lookup;
  repeat match goal with
         | |- context [if ?lit =s s then _ else _] => destruct (lit =s s)
         end.

(** X8. For any resource type, priced or not, and any details in which every
    field the pricing reads is missing (the branch then takes its default) or
    of the type the generator gives it, [calculate_resource_costs] returns,
    and the periods of the costs are related as the branch computes them:
    yearly = monthly * 12, and daily = monthly / 30.44 with
    hourly = daily / 24 for an EBS volume or snapshot,
    daily = hourly * 24 with monthly = daily * 30.44 for every other type. *)
Theorem cost_periods_are_consistent :
  forall (resource_type : string) (details : dict),
    plain_details details ->
    returns (calculate_resource_costs resource_type details)
      (fun costs =>
         exists h d m y : Q,
           field_float (VDict costs) "hourly" = Some h /\
           field_float (VDict costs) "daily" = Some d /\
           field_float (VDict costs) "monthly" = Some m /\
           field_float (VDict costs) "yearly" = Some y /\
           periods_related resource_type h d m y).
Proof.
  intros resource_type details (Hit & Hdc & Hvt & Hsz & Hvs & Hpt) w.
  unfold calculate_resource_costs, periods_related, priced_by_month.
  repeat match goal with
         | |- context [if ?rt =s ?s then _ else _] =>
             let E := fresh "E" in
             destruct (rt =s s) eqn:E; [apply String.eqb_eq in E; subst |]
         end;
    cbn [orb String.eqb Ascii.eqb Bool.eqb]; cbv zeta; unfold dict_get_default.
  - (* EC2 Instance *)
    destruct Hit as [-> | [s ->]]; [| compute_pure; any_rate s]; periods_done w.
  - (* RDS Instance *)
    destruct Hdc as [-> | [s ->]]; [| compute_pure; any_rate s]; periods_done w.
  - (* EBS Volume *)
    destruct Hsz as [-> | (n & -> & _)]; destruct Hvt as [-> | [s ->]];
      compute_pure; try destruct (s =s "gp2"); periods_done w.
  - (* EBS Snapshot *)
    destruct Hvs as [-> | (n & -> & _)]; periods_done w.
  - (* Elastic IP *)
    periods_done w.
  - (* DynamoDB Table *)
    destruct Hpt as [-> | (t & -> & [Hr | (r & Hr & _)] & [Hw | (c & Hw & _)])];
      compute_pure; unfold dict_get_default; try rewrite Hr; try rewrite Hw;
      periods_done w.
  - (* ELB *)
    periods_done w.
  - (* OpenSearch Domain *)
    destruct Hit as [-> | [s ->]]; [| compute_pure; any_rate s]; periods_done w.
  - (* a type without pricing *)
    periods_done w.
Qed.

Lemma cost_periods_are_consistent_witness :
  plain_details [("Size", VInt 9); ("VolumeType", VStr "gp2")] /\
  returns (calculate_resource_costs "EBS Volume"
             [("Size", VInt 9); ("VolumeType", VStr "gp2")])
    (fun costs =>
       exists h d m y : Q,
         field_float (VDict costs) "hourly" = Some h /\
         field_float (VDict costs) "daily" = Some d /\
         field_float (VDict costs) "monthly" = Some m /\
         field_float (VDict costs) "yearly" = Some y /\
         periods_related "EBS Volume" h d m y).
Proof.
  assert (H : plain_details [("Size", VInt 9); ("VolumeType", VStr "gp2")]).
  { unfold plain_details, name_or_missing, count_or_missing. cbn.
    repeat split; try (left; reflexivity).
    - right. exists "gp2". reflexivity.
    - right. exists 9. split; [reflexivity | lia]. }
  split; [exact H | exact (cost_periods_are_consistent "EBS Volume" _ H)].
Defined.

(** X9. For a resource type that has no pricing branch, whatever the
    details, [calculate_resource_costs] returns and each of the five costs is
    zero. *)
Theorem unpriced_types_cost_nothing :
  forall (resource_type : string) (details : dict),
    ~ In resource_type priced_types ->
    returns (calculate_resource_costs resource_type details)
      (fun costs => forall p, In p periods ->
         exists x, field_float (VDict costs) p = Some x /\ x == 0).
Proof.
  intros resource_type details Hnot. unfold calculate_resource_costs.
  repeat match goal with
         | |- context [if ?rt =s ?s then _ else _] =>
             let E := fresh "E" in
             destruct (rt =s s) eqn:E;
             [apply String.eqb_eq in E; exfalso; apply Hnot; subst;
              cbn; auto 10 |]
         end.
  eapply returns_weaken.
  - apply (costs_from_priced "IAM User"). apply returns_ret.
    exists 0.0%Q, 0.0%Q, 0.0%Q. split; [reflexivity | auto].
  - intros costs (h & d & m & k & -> & _ & Hz) p Hp.
    destruct (Hz (or_introl eq_refl)) as (-> & -> & ->).
    cbn [periods In] in Hp.
    destruct Hp as [<- | [<- | [<- | [<- | [<- | []]]]]];
      eexists; (split; [reflexivity | lra]).
Qed.

Lemma unpriced_types_cost_nothing_witness :
  ~ In "S3 Bucket" priced_types /\
  returns (calculate_resource_costs "S3 Bucket" [("Size", VList [])])
    (fun costs => forall p, In p periods ->
       exists x, field_float (VDict costs) p = Some x /\ x == 0).
Proof.
  assert (H : ~ In "S3 Bucket" priced_types) by (cbn; intuition discriminate).
  split; [exact H | exact (unpriced_types_cost_nothing "S3 Bucket" _ H)].
Defined.

(** X10. The hourly cost of an EC2 instance is half the rate of its
    [InstanceType] in the table; details without [InstanceType] are priced as
    t3.micro (0.0052), and an instance type that is not in the table at the
    default rate 0.0416 (0.0208). *)
Theorem ec2_price_and_its_defaults :
  forall details : dict,
    (dict_get details "InstanceType" = None ->
     returns (calculate_resource_costs "EC2 Instance" details)
       (fun costs => exists h, field_float (VDict costs) "hourly" = Some h /\
                               h == 0.0052)) /\
    (forall (instance_type : string) (rate : Q),
        dict_get details "InstanceType" = Some (VStr instance_type) ->
        In (instance_type, rate)
           [("t3.micro", 0.0104); ("t3.small", 0.0208); ("t3.medium", 0.0416);
            ("t3.large", 0.0832); ("r5.xlarge", 0.252); ("r5.2xlarge", 0.504);
            ("r5.4xlarge", 1.008)]%Q ->
        returns (calculate_resource_costs "EC2 Instance" details)
          (fun costs => exists h, field_float (VDict costs) "hourly" = Some h /\
                                  h == rate / 2)) /\
    (forall instance_type : string,
        dict_get details "InstanceType" = Some (VStr instance_type) ->
        ~ In instance_type
             ["t3.micro"; "t3.small"; "t3.medium"; "t3.large"; "r5.xlarge";
              "r5.2xlarge"; "r5.4xlarge"] ->
        returns (calculate_resource_costs "EC2 Instance" details)
          (fun costs => exists h, field_float (VDict costs) "hourly" = Some h /\
                                  h == 0.0208)).
Proof.
  intros details. split; [| split].
  - intros Hnone w. unfold calculate_resource_costs. branch. cbv zeta.
    unfold dict_get_default. rewrite Hnone. compute_pure.
    cbn [rate_lookup String.eqb Ascii.eqb Bool.eqb]. compute_pure.
    run_costs w. eexists. split; reflexivity.
  - intros instance_type rate Hget Hin w.
    unfold calculate_resource_costs. branch. cbv zeta.
    unfold dict_get_default. rewrite Hget. compute_pure.
    cbn [In] in Hin.
    destruct Hin as [[= <- <-] | [[= <- <-] | [[= <- <-] | [[= <- <-] |
                    [[= <- <-] | [[= <- <-] | [[= <- <-] | []]]]]]]];
      cbn [rate_lookup String.eqb Ascii.eqb Bool.eqb]; compute_pure;
      run_costs w; eexists; split; reflexivity.
  - intros instance_type Hget Hnot w.
    unfold calculate_resource_costs. branch. cbv zeta.
    unfold dict_get_default. rewrite Hget. compute_pure.
    unfold rate_lookup.
    repeat match goal with
           | |- context [if ?s =s instance_type then _ else _] =>
               let E := fresh "E" in
               destruct (s =s instance_type) eqn:E;
               [apply String.eqb_eq in E; exfalso; apply Hnot; subst;
                cbn; auto 10 |]
           end.
    compute_pure. run_costs w. eexists. split; reflexivity.
Qed.

Lemma ec2_price_and_its_defaults_witness :
  returns (calculate_resource_costs "EC2 Instance"
             [("InstanceType", VStr "r5.xlarge"); ("State", VStr "stopped")])
    (fun costs => exists h, field_float (VDict costs) "hourly" = Some h /\
                            h == 0.252 / 2).
Proof.
  apply (proj1 (proj2 (ec2_price_and_its_defaults
                         [("InstanceType", VStr "r5.xlarge");
                          ("State", VStr "stopped")])) "r5.xlarge" 0.252%Q).
  - reflexivity.
  - cbn. auto 10.
Defined.

(** X11. For an EBS volume whose [Size] is an int that a float holds exactly
    (at most 2^53 in absolute value; [float] raises [OverflowError] on an int
    beyond its range, which the embedding does not model), the monthly cost is
    the size times 0.10 for gp2 and times 0.08 for any other volume type, the
    daily cost is the monthly cost divided by 30.44 and the hourly cost the
    daily cost divided by 24; with neither [Size] nor [VolumeType] the monthly
    cost is 1.6 (20 GB of gp3). *)
Theorem ebs_volume_price :
  forall details : dict,
    (forall (size : Z) (volume_type : string),
        dict_get details "Size" = Some (VInt size) ->
        dict_get details "VolumeType" = Some (VStr volume_type) ->
        Z.abs size <= 2 ^ 53 ->
        returns (calculate_resource_costs "EBS Volume" details)
          (fun costs =>
             exists h d m,
               field_float (VDict costs) "hourly" = Some h /\
               field_float (VDict costs) "daily" = Some d /\
               field_float (VDict costs) "monthly" = Some m /\
               m == inject_Z size * (if volume_type =s "gp2" then 0.10 else 0.08) /\
               d == m / 30.44 /\ h == d / 24)) /\
    (dict_get details "Size" = None ->
     dict_get details "VolumeType" = None ->
     returns (calculate_resource_costs "EBS Volume" details)
       (fun costs => exists m, field_float (VDict costs) "monthly" = Some m /\
                               m == 1.6)).
Proof.
  intros details. split.
  - intros size volume_type Hsize Htype _ w.
    unfold calculate_resource_costs. branch. cbv zeta.
    unfold dict_get_default. rewrite Hsize, Htype. compute_pure.
    run_costs w. do 3 eexists.
    do 3 (split; [reflexivity |]). repeat split; reflexivity.
  - intros Hsize Htype w.
    unfold calculate_resource_costs. branch. cbv zeta.
    unfold dict_get_default. rewrite Hsize, Htype. compute_pure.
    run_costs w. eexists. split; reflexivity.
Qed.

Lemma ebs_volume_price_witness :
  returns (calculate_resource_costs "EBS Volume"
             [("Size", VInt 50); ("VolumeType", VStr "gp2")])
    (fun costs =>
       exists h d m,
         field_float (VDict costs) "hourly" = Some h /\
         field_float (VDict costs) "daily" = Some d /\
         field_float (VDict costs) "monthly" = Some m /\
         m == inject_Z 50 * (if "gp2" =s "gp2" then 0.10 else 0.08) /\
         d == m / 30.44 /\ h == d / 24).
Proof.
  apply (proj1 (ebs_volume_price [("Size", VInt 50); ("VolumeType", VStr "gp2")])
           50 "gp2"); [reflexivity | reflexivity | cbn; lia].
Defined.

(** X12. For a DynamoDB table whose details hold a [ProvisionedThroughput]
    that is not a dict, [calculate_resource_costs] raises [AttributeError]
    (the [.get] on the value). *)
Theorem dynamodb_throughput_must_be_a_dict :
  forall (details : dict) (v : value) (w : World),
    dict_get details "ProvisionedThroughput" = Some v ->
    (forall d, v <> VDict d) ->
    calculate_resource_costs "DynamoDB Table" details w = Raise AttributeError.
Proof.
  intros details v w Hget Hv.
  unfold calculate_resource_costs. branch. cbv zeta.
  unfold dict_get_default. rewrite Hget.
  destruct v; try reflexivity. exfalso. exact (Hv d eq_refl).
Qed.

Lemma dynamodb_throughput_must_be_a_dict_witness :
  dict_get [("ProvisionedThroughput", VInt 5)] "ProvisionedThroughput" = Some (VInt 5) /\
  (forall d, VInt 5 <> VDict d) /\
  calculate_resource_costs "DynamoDB Table" [("ProvisionedThroughput", VInt 5)]
                           quiet_world = Raise AttributeError.
Proof.
  assert (H1 : dict_get [("ProvisionedThroughput", VInt 5)] "ProvisionedThroughput"
               = Some (VInt 5)) by reflexivity.
  assert (H2 : forall d, VInt 5 <> VDict d) by (intros d; discriminate).
  split; [exact H1 |]. split; [exact H2 |].
  exact (dynamodb_throughput_must_be_a_dict _ _ quiet_world H1 H2).
Defined.

(** ** The resources of a run, one by one *)

Ltac costs_made_done k Hk :=
  do 3 eexists; exists k;
  split; [unfold costs_dict; reflexivity |];
  split; [exact Hk |];
  split; [try reflexivity; try (symmetry; apply Q_div_mul; discriminate) |];
  split; [try reflexivity; try (symmetry; apply Q_div_mul; discriminate) |];
  split; [intros _ | intros Hnot; exfalso; apply Hnot; cbn; auto 10].

Ltac run_costs_made w k Hk :=
  let w' := fresh "w" in
  let E := fresh "E" in
  destruct (returns_randint (-1) 3 ltac:(lia) w) as (k & w' & E & Hk);
  rewrite (bind_ok _ _ _ _ _ E); eexists; eexists; (split; [reflexivity |]).

Lemma inject_Z_pos (n : Z) : 0 < n -> (0 < inject_Z n)%Q.
Proof. intros H. change 0%Q with (inject_Z 0). rewrite <- Zlt_Qlt. exact H. Qed.

Lemma returns_costs_made (resource_type : string) (details : dict) :
  In resource_type resource_types ->
  pricing_inputs resource_type details ->
  returns (calculate_resource_costs resource_type details) (costs_made resource_type).
Proof.
  intros H (Hec2 & Hrds & Hvol & Hsnap & Hddb & Hos) w.
  catalog H; unfold calculate_resource_costs; branch; cbv zeta;
    unfold dict_get_default.
  - destruct (Hec2 eq_refl) as (t & -> & Ht). compute_pure.
    cbn [In] in Ht.
    destruct Ht as [<- | [<- | [<- | [<- | [<- | []]]]]];
      cbn [rate_lookup String.eqb Ascii.eqb Bool.eqb]; compute_pure;
      run_costs_made w k Hk; costs_made_done k Hk; reflexivity.
  - destruct (Hrds eq_refl) as (c & -> & Hc). compute_pure.
    cbn [In] in Hc.
    destruct Hc as [<- | [<- | [<- | [<- | []]]]];
      cbn [rate_lookup String.eqb Ascii.eqb Bool.eqb]; compute_pure;
      run_costs_made w k Hk; costs_made_done k Hk; reflexivity.
  - compute_pure. run_costs_made w k Hk; costs_made_done k Hk; reflexivity.
  - destruct (Hvol eq_refl) as (n & t & -> & Hn & -> & Ht). compute_pure.
    pose proof (inject_Z_pos n ltac:(lia)) as Hpos.
    cbn [In] in Ht.
    destruct Ht as [<- | [<- | [<- | []]]];
      cbn [String.eqb Ascii.eqb Bool.eqb];
      run_costs_made w k Hk; costs_made_done k Hk;
      repeat (apply Qlt_shift_div_l; [reflexivity |]); lra.
  - destruct (Hsnap eq_refl) as (n & -> & Hn). compute_pure.
    pose proof (inject_Z_pos n ltac:(lia)) as Hpos.
    run_costs_made w k Hk; costs_made_done k Hk;
      repeat (apply Qlt_shift_div_l; [reflexivity |]); lra.
  - destruct (Hddb eq_refl) as (r & wc & -> & Hr & Hw). compute_pure.
    pose proof (inject_Z_pos r ltac:(lia)) as Hrpos.
    pose proof (inject_Z_pos wc ltac:(lia)) as Hwpos.
    run_costs_made w k Hk; costs_made_done k Hk. lra.
  - compute_pure. run_costs_made w k Hk.
    do 3 eexists. exists k.
    split; [unfold costs_dict; reflexivity |].
    split; [exact Hk |]. split; [reflexivity |]. split; [reflexivity |].
    split; [intros Hin; cbn in Hin; exfalso; intuition discriminate | auto].
  - compute_pure. run_costs_made w k Hk.
    do 3 eexists. exists k.
    split; [unfold costs_dict; reflexivity |].
    split; [exact Hk |]. split; [reflexivity |]. split; [reflexivity |].
    split; [intros Hin; cbn in Hin; exfalso; intuition discriminate | auto].
  - compute_pure. run_costs_made w k Hk; costs_made_done k Hk; reflexivity.
  - destruct (Hos eq_refl) as (t & -> & Ht). compute_pure.
    cbn [In] in Ht.
    destruct Ht as [<- | [<- | [<- | []]]];
      cbn [rate_lookup String.eqb Ascii.eqb Bool.eqb]; compute_pure;
      run_costs_made w k Hk; costs_made_done k Hk; reflexivity.
Qed.

Lemma costs_made_ok (resource_type : string) (costs : dict) :
  costs_made resource_type costs -> costs_ok resource_type costs.
Proof.
  intros (h & d & m & k & -> & Hk & _ & _ & _ & Hz).
  exists h, d, m, k. split; [reflexivity |]. split; [exact Hk |].
  intros Hiam. apply Hz. intros Hin. cbn in Hin.
  destruct Hiam as [-> | ->]; intuition discriminate.
Qed.

Lemma returns_name_in (resource_type : string) :
  returns (generate_resource_name resource_type)
          (fun name => In name (base_names resource_type)).
Proof.
  unfold generate_resource_name, base_names.
  repeat match goal with
         | |- context [if ?b then _ else _] => destruct b
         end;
    try (apply returns_ret; left; reflexivity).
  cbv zeta.
  eapply returns_bind; [apply returns_choice; discriminate | intros e He].
  apply returns_ret. cbn [In] in *.
  destruct He as [<- | [<- | [<- | []]]]; cbn; auto.
Qed.

Lemma returns_savings :
  returns (uniform 100 1000)
          (fun u => (100 <= py_round u 2 <= 1000)%Q).
Proof.
  eapply returns_weaken; [apply returns_uniform; lra |].
  intros u [H1 H2].
  apply (py_round_between u 100 1000); assumption.
Qed.

Lemma choice_in_map {A B : Type} (f : A -> B) (l : list A) :
  l <> [] ->
  returns (choice (map f l)) (fun y => exists x, y = f x /\ In x l).
Proof.
  intros Hne.
  eapply returns_weaken.
  - apply returns_choice. destruct l; [congruence | discriminate].
  - intros y Hy. apply in_map_iff in Hy. destruct Hy as (x & <- & Hx).
    exists x. auto.
Qed.

Lemma regions_made_nonempty (regions : list string) :
  regions_made regions -> regions <> [].
Proof. intros [[H _] _] ->. cbn in H. lia. Qed.

Lemma returns_add_resource_made (regions1 regions2 regions3 : list string)
  (resource_type : string) (rs : list value) (data : dict) (i : Z) :
  In resource_type resource_types ->
  regions_made regions1 -> regions_made regions2 -> regions_made regions3 ->
  data_made regions1 regions2 regions3 rs data ->
  returns (add_resource resource_type data i)
          (fun data' => exists r,
               resource_made [regions1; regions2; regions3] resource_type i r /\
               data_made regions1 regions2 regions3 (rs ++ [r]) data').
Proof.
  intros Hin H1 H2 H3 (completed_at & counts & Hc & ->) w.
  apply regions_made_nonempty in H1, H2, H3.
  unfold add_resource. compute_data.
  run_data (returns_choice ["123456789012"; "234567890123"; "345678901234"]
              ltac:(discriminate)) w account_id w0 Hacc.
  destruct (count_resource counts resource_type Hc) as [n Hn].
  pose proof (counts_ok_default counts resource_type Hc) as Hc'.
  destruct Hacc as [<- | [<- | [<- | []]]]; compute_data;
    [run_data (choice_in_map VStr regions1 H1) w0 region w1 Hreg
    |run_data (choice_in_map VStr regions2 H2) w0 region w1 Hreg
    |run_data (choice_in_map VStr regions3 H3) w0 region w1 Hreg];
    destruct Hreg as (reg & -> & Hreg);
    run_data (returns_details_made resource_type Hin) w1 details w2 Hdet;
    run_data (returns_slug_hex_id resource_type) w2 ident w3 Hid;
    run_data (returns_name_in resource_type) w3 name w4 Hname;
    run_data (returns_timestamp_days_ago 30 180 ltac:(lia)) w4 last_used w5 Hlast;
    run_data returns_savings w5 u w6 Hu;
    run_data (returns_reasons_distinct resource_type 180 Hin) w6 reasons w7 Hreasons;
    destruct Hreasons as [Hrlen Hrnd];
    pose proof Hdet as Hdet'; destruct Hdet' as [_ Hinputs];
    run_data (returns_costs_made resource_type details Hin Hinputs) w7 costs w8 Hcosts;
    unfold getitem; rewrite Hn; cbn [py_add int_like bind ret];
    finish;
    (eexists; split;
     [ exists ident, name; do 3 eexists; exists last_used; eexists;
       exists (py_round u 2), reasons, details, costs;
       refine (conj eq_refl (conj _ (conj Hreg (conj Hname (conj Hu
                (conj Hrlen (conj Hrnd (conj Hdet
                   (conj (costs_made_ok _ _ Hcosts) Hcosts)))))))));
       cbn; auto
     | unfold extend; exists completed_at; eexists;
       refine (conj _ eq_refl); apply counts_ok_set; exact Hc' ]).
Qed.

Lemma returns_add_resources_made (regions1 regions2 regions3 : list string)
  (resource_type : string) (idxs : list Z) :
  In resource_type resource_types ->
  regions_made regions1 -> regions_made regions2 -> regions_made regions3 ->
  forall (rs : list value) (data : dict),
    data_made regions1 regions2 regions3 rs data ->
    returns (for_each (add_resource resource_type) idxs data)
            (fun data' => exists new,
                 Forall2 (resource_made [regions1; regions2; regions3] resource_type)
                         idxs new /\
                 data_made regions1 regions2 regions3 (rs ++ new) data').
Proof.
  intros Hin H1 H2 H3.
  induction idxs as [|i idxs IH]; intros rs data Hdata; cbn [for_each].
  - apply returns_ret. exists []. rewrite app_nil_r. split; [constructor | exact Hdata].
  - eapply returns_bind;
      [apply (returns_add_resource_made regions1 regions2 regions3); eassumption |].
    intros data1 (r & Hr & Hdata1).
    eapply returns_weaken; [apply IH; exact Hdata1 |].
    intros data2 (new & Hnew & Hdata2).
    exists (r :: new). rewrite <- app_assoc in Hdata2.
    split; [constructor; assumption | exact Hdata2].
Qed.

Lemma returns_blocks_made (regions1 regions2 regions3 : list string)
  (types : list string) :
  incl types resource_types ->
  regions_made regions1 -> regions_made regions2 -> regions_made regions3 ->
  forall (rs : list value) (data : dict),
    data_made regions1 regions2 regions3 rs data ->
    returns (for_each add_resources_of_type types data)
            (fun data' => exists blocks,
                 Forall2 (block_made [regions1; regions2; regions3]) types blocks /\
                 data_made regions1 regions2 regions3 (rs ++ List.concat blocks) data').
Proof.
  intros Hincl H1 H2 H3.
  induction types as [|t types IH]; intros rs data Hdata; cbn [for_each].
  - apply returns_ret. exists []. cbn [List.concat]. rewrite app_nil_r.
    split; [constructor | exact Hdata].
  - unfold add_resources_of_type at 1.
    eapply returns_bind.
    + eapply returns_bind; [apply returns_randint; lia | intros n Hn].
      cbv beta in Hn.
      eapply returns_weaken.
      * apply (returns_add_resources_made regions1 regions2 regions3 t (range n));
          [apply Hincl; left; reflexivity | assumption .. | exact Hdata].
      * intros data1 (new & Hnew & Hdata1).
        exact (ex_intro _ new (conj (ex_intro _ n (conj Hn Hnew)) Hdata1)).
    + intros data1 (block & Hblock & Hdata1).
      eapply returns_weaken.
      * apply IH; [intros x Hx; apply Hincl; right; exact Hx | exact Hdata1].
      * intros data2 (blocks & Hblocks & Hdata2).
        exists (block :: blocks). cbn [List.concat].
        rewrite <- app_assoc in Hdata2.
        split; [constructor; assumption | exact Hdata2].
Qed.

Lemma resource_made_ok (regions : list (list string)) (t : string) (i : Z)
  (r : value) :
  resource_made regions t i r -> resource_ok t r.
Proof.
  intros (ident & base & aid & an & reg & lu & ar & sav & rea & det & costs
          & -> & _ & _ & _ & _ & _ & _ & _ & Hok & _).
  exists costs. split; [| exact Hok]. do 9 eexists. reflexivity.
Qed.

Lemma block_made_ok (regions : list (list string)) (t : string)
  (block : list value) :
  block_made regions t block -> block_ok t block.
Proof.
  intros (n & Hn & H). split.
  - rewrite <- (Forall2_length H), range_length. lia.
  - clear Hn. induction H as [|i r idxs block Hr _ IH]; constructor;
      [exact (resource_made_ok _ _ _ _ Hr) | exact IH].
Qed.

Lemma returns_report_made : returns generate_sample_data report_made.
Proof.
  intros w. unfold generate_sample_data.
  run_data returns_datetime_now w now w0 Hnow.
  run_data returns_regions_made w0 regions1 w1 H1.
  run_data returns_regions_made w1 regions2 w2 H2.
  run_data returns_regions_made w2 regions3 w3 H3.
  match goal with
  | |- context [for_each add_resources_of_type resource_types ?d] =>
      assert (Hdata : data_made regions1 regions2 regions3 [] d)
  end.
  { do 2 eexists. refine (conj _ eq_refl). constructor. }
  destruct (returns_blocks_made regions1 regions2 regions3 resource_types
              (incl_refl _) H1 H2 H3 [] _ Hdata w3)
    as (data1 & w4 & E & blocks & Hblocks & Hdata1).
  rewrite (bind_ok _ _ _ _ _ E). clear E Hdata.
  cbn [app] in Hdata1.
  destruct Hdata1 as (completed_at & cnt & _ & ->).
  compute_report.
  destruct (returns_calculate_scan_metrics
              (VInt (Z.of_nat (List.length (List.concat blocks)))) w4)
    as (metrics & w5 & E & Hmetrics).
  rewrite (bind_ok _ _ _ _ _ E). clear E.
  destruct Hmetrics as (ca & tc & ts & avg & ut & nscans & ncomp & nfail & peak & ->).
  assert (Hok : Forall2 block_ok resource_types blocks).
  { clear -Hblocks. induction Hblocks; constructor;
      [eapply block_made_ok; eassumption | assumption]. }
  destruct (blocks_ok_infos _ _ Hok)
    as (infos & counts & Hsum & _).
  compute_report.
  change ([] : dict) with (render_groups []) at 1.
  change [("hourly", VFloat 0.0); ("daily", VFloat 0.0); ("monthly", VFloat 0.0);
          ("yearly", VFloat 0.0); ("lifetime", VFloat 0.0)]
    with (render_costs zero5).
  rewrite (bind_ok _ _ _ _ _ (group_all_costs_run infos _ [] zero5 w5 Hsum)).
  finish.
  exists regions1, regions2, regions3, blocks. do 3 eexists.
  split; [reflexivity |]. auto.
Qed.

Lemma Forall2_right {A B : Type} (R : A -> B -> Prop) (l : list A) (m : list B) :
  Forall2 R l m -> Forall (fun b => exists a, In a l /\ R a b) m.
Proof.
  induction 1 as [|a b l m Hab _ IH]; constructor.
  - exists a. split; [left; reflexivity | exact Hab].
  - eapply Forall_impl; [| exact IH].
    intros b' (a' & Ha' & Hr). exists a'. split; [right; exact Ha' | exact Hr].
Qed.

(** Every resource of the document was built for a type of the catalog. *)
Lemma blocks_resources (regions : list (list string)) (types : list string)
  (blocks : list (list value)) :
  Forall2 (block_made regions) types blocks ->
  Forall (fun r => exists t i, In t types /\ resource_made regions t i r)
         (List.concat blocks).
Proof.
  induction 1 as [|t block types blocks (n & _ & Hblock) _ IH]; cbn [List.concat].
  - constructor.
  - apply Forall_app. split.
    + eapply Forall_impl; [| exact (Forall2_right _ _ _ Hblock)].
      intros r (i & _ & Hr). exists t, i. split; [left; reflexivity | exact Hr].
    + eapply Forall_impl; [| exact IH].
      intros r (t' & i & Ht' & Hr). exists t', i. split; [right; exact Ht' | exact Hr].
Qed.

Lemma iam_iff_unpriced (t : string) :
  In t resource_types -> (iam_type t = true <-> ~ In t priced_types).
Proof.
  intros H. catalog H; cbn; split; intros H; try discriminate H;
    try reflexivity; try (exfalso; apply H; auto 10);
    try (intros Hin; intuition discriminate).
Qed.

(** X13. In every run the periods of the costs of each resource are related
    as the branch of its type computes them: yearly = monthly * 12, and
    daily = monthly / 30.44 with hourly = daily / 24 for an EBS volume or
    snapshot, daily = hourly * 24 with monthly = daily * 30.44 for every other
    type; the hourly cost is zero for the IAM types and positive for every
    other type. *)
Theorem generated_costs_are_positive_unless_iam :
  forall w : World,
  exists (data : dict) (w' : World) (rs : list value),
    generate_sample_data w = Ok (data, w') /\
    dict_get data "UnusedResources" = Some (VList rs) /\
    Forall (fun r =>
              exists (t : string) (h d m y : Q),
                type_of r = Some t /\
                cost_of "hourly" r = Some h /\
                cost_of "daily" r = Some d /\
                cost_of "monthly" r = Some m /\
                cost_of "yearly" r = Some y /\
                periods_related t h d m y /\
                (if is_iam r then h == 0 else (0 < h)%Q)) rs.
Proof.
  intros w.
  destruct (returns_report_made w)
    as (data & w' & Erun & r1 & r2 & r3 & blocks & metrics & breakdown & totals
        & -> & _ & _ & _ & Hblocks).
  eexists _, w', _. split; [exact Erun |]. split; [reflexivity |].
  eapply Forall_impl; [| exact (blocks_resources _ _ _ Hblocks)].
  intros r (t & i & Ht & ident & base & aid & an & reg & lu & ar & sav & rea
            & det & costs & -> & _ & _ & _ & _ & _ & _ & _ & _
            & h & d & m & k & -> & _ & Hd & Hm & Hpos & Hzero).
  exists t, h, d, m, (m * 12)%Q.
  do 5 (split; [reflexivity |]).
  split.
  { split; [reflexivity |].
    destruct (priced_by_month t); [| split; assumption].
    split; [rewrite Hm | rewrite Hd]; field. }
  change (is_iam (VDict _)) with (iam_type t).
  destruct (iam_type t) eqn:Eiam.
  - apply (iam_iff_unpriced t Ht) in Eiam.
    destruct (Hzero Eiam) as (-> & _). reflexivity.
  - apply Hpos.
    destruct (in_dec string_dec t priced_types) as [Hin | Hnot]; [exact Hin |].
    apply (iam_iff_unpriced t Ht) in Hnot. congruence.
Qed.

(** X14. In every run [AccountNames] names the three accounts,
    [AccountsAndRegions] gives each of them between 3 and 7 distinct regions
    out of the seven, and every resource has an [account_id] among the three
    accounts, the [account_name] that [AccountNames] gives this account, and a
    [region] among the regions [AccountsAndRegions] gives it. *)
Theorem accounts_and_regions_are_consistent :
  forall w : World,
  exists (data : dict) (w' : World) (rs : list value) (accounts names : value),
    generate_sample_data w = Ok (data, w') /\
    dict_get data "UnusedResources" = Some (VList rs) /\
    dict_get data "AccountsAndRegions" = Some accounts /\
    dict_get data "AccountNames" = Some names /\
    names = VDict [("123456789012", VStr "Production");
                   ("234567890123", VStr "Staging");
                   ("345678901234", VStr "Development")] /\
    (exists regions1 regions2 regions3 : list string,
        accounts = VDict [("123456789012", VList (map VStr regions1));
                          ("234567890123", VList (map VStr regions2));
                          ("345678901234", VList (map VStr regions3))] /\
        Forall (fun regions =>
                  (3 <= List.length regions <= 7)%nat /\ NoDup regions /\
                  incl regions ["us-east-1"; "us-east-2"; "us-west-1"; "us-west-2";
                                "eu-central-1"; "eu-west-1"; "ap-southeast-1"])
               [regions1; regions2; regions3]) /\
    Forall (fun r =>
              exists (account_id : string) (account_name region : value)
                     (regions : list value),
                field r "account_id" = Some (VStr account_id) /\
                field r "account_name" = Some account_name /\
                field names account_id = Some account_name /\
                field r "region" = Some region /\
                field accounts account_id = Some (VList regions) /\
                In region regions) rs.
Proof.
  intros w.
  destruct (returns_report_made w)
    as (data & w' & Erun & r1 & r2 & r3 & blocks & metrics & breakdown & totals
        & -> & H1 & H2 & H3 & Hblocks).
  eexists _, w', _, _, _. split; [exact Erun |].
  do 4 (split; [reflexivity |]). split.
  - exists r1, r2, r3. split; [reflexivity |].
    repeat (constructor; [assumption |]). constructor.
  - eapply Forall_impl; [| exact (blocks_resources _ _ _ Hblocks)].
    intros r (t & i & Ht & ident & base & aid & an & reg & lu & ar & sav & rea
              & det & costs & -> & Hacc & Hreg & _).
    cbn [combine account_names In] in Hacc.
    destruct Hacc as [[= <- <- <-] | [[= <- <- <-] | [[= <- <- <-] | []]]];
      eexists _, _, _, _;
      (do 5 (split; [reflexivity |])); apply in_map; exact Hreg.
Qed.

Lemma Forall2_nth_right {A B : Type} (R : A -> B -> Prop) (l : list A)
  (m : list B) (i : nat) (b : B) :
  Forall2 R l m -> nth_error m i = Some b ->
  exists a, nth_error l i = Some a /\ R a b.
Proof.
  intros H. revert i. induction H as [|a0 b0 l m Hab _ IH]; intros [|i] Hi;
    cbn in Hi; try discriminate.
  - injection Hi as ->. exists a0. split; [reflexivity | exact Hab].
  - exact (IH i Hi).
Qed.

Lemma range_nth (n : Z) (i : nat) (x : Z) :
  nth_error (range n) i = Some x -> x = Z.of_nat i.
Proof.
  unfold range. intros H.
  rewrite nth_error_map in H.
  destruct (nth_error (seq 0 (Z.to_nat n)) i) as [j|] eqn:E; [| discriminate].
  injection H as <-.
  assert (Hlt : (i < List.length (seq 0 (Z.to_nat n)))%nat)
    by (apply nth_error_Some; congruence).
  rewrite length_seq in Hlt.
  rewrite (nth_error_nth' _ 0%nat) in E by (rewrite length_seq; exact Hlt).
  rewrite seq_nth in E by exact Hlt. injection E as <-. reflexivity.
Qed.

(** X15. In every run [UnusedResources] is the concatenation of ten blocks,
    one per type in the order of the catalog, each of 5 to 15 resources of the
    type; the name of the [i]-th resource of a block (from 0) is a base name
    of the type followed by a dash and [i + 1] written with at least two
    digits. *)
Theorem resources_are_numbered_within_their_type :
  forall w : World,
  exists (data : dict) (w' : World) (blocks : list (list value)),
    generate_sample_data w = Ok (data, w') /\
    dict_get data "UnusedResources" = Some (VList (List.concat blocks)) /\
    Forall2 (fun t block =>
               (5 <= List.length block <= 15)%nat /\
               forall (i : nat) (r : value),
                 nth_error block i = Some r ->
                 type_of r = Some t /\
                 exists base,
                   In base (base_names t) /\
                   field r "name" =
                     Some (VStr (base ++ "-" ++ zfill 2 (str_int (Z.of_nat i + 1)))))
            resource_types blocks.
Proof.
  intros w.
  destruct (returns_report_made w)
    as (data & w' & Erun & r1 & r2 & r3 & blocks & metrics & breakdown & totals
        & -> & _ & _ & _ & Hblocks).
  eexists _, w', blocks. split; [exact Erun |]. split; [reflexivity |].
  eapply Forall2_impl; [| exact Hblocks].
  intros t block Hblock. split.
  - destruct (block_made_ok _ _ _ Hblock) as [Hlen _]. exact Hlen.
  - destruct Hblock as (n & _ & Hmade). intros i r Hi.
    destruct (Forall2_nth_right _ _ _ _ _ Hmade Hi) as (x & Hx & Hr).
    apply range_nth in Hx. subst x.
    destruct Hr as (ident & base & aid & an & reg & lu & ar & sav & rea & det
                    & costs & -> & _ & _ & Hbase & _).
    split; [reflexivity |]. exists base. split; [exact Hbase | reflexivity].
Qed.

(** X16. In every run each resource has the same eleven fields in the same
    order; its [details] have the keys of its type, its [reasons] are 2 or 3
    distinct strings and its [estimated_monthly_savings] lies between 100 and
    1000. *)
Theorem every_resource_has_the_same_fields :
  forall w : World,
  exists (data : dict) (w' : World) (rs : list value),
    generate_sample_data w = Ok (data, w') /\
    dict_get data "UnusedResources" = Some (VList rs) /\
    Forall (fun r =>
              record_keys r =
                ["id"; "name"; "type"; "account_id"; "account_name"; "region";
                 "last_used"; "estimated_monthly_savings"; "reasons"; "details";
                 "costs"] /\
              (exists (t : string) (details : dict),
                  type_of r = Some t /\
                  field r "details" = Some (VDict details) /\
                  dict_keys details = detail_fields t) /\
              (exists reasons : list string,
                  field r "reasons" = Some (VList (map VStr reasons)) /\
                  (2 <= List.length reasons <= 3)%nat /\ NoDup reasons) /\
              (exists savings : Q,
                  field_float r "estimated_monthly_savings" = Some savings /\
                  (100 <= savings <= 1000)%Q)) rs.
Proof.
  intros w.
  destruct (returns_report_made w)
    as (data & w' & Erun & r1 & r2 & r3 & blocks & metrics & breakdown & totals
        & -> & _ & _ & _ & Hblocks).
  eexists _, w', _. split; [exact Erun |]. split; [reflexivity |].
  eapply Forall_impl; [| exact (blocks_resources _ _ _ Hblocks)].
  intros r (t & i & Ht & ident & base & aid & an & reg & lu & ar & sav & rea
            & det & costs & -> & _ & _ & _ & Hsav & Hrlen & Hrnd & [Hkeys _] & _).
  split; [reflexivity |]. split; [| split].
  - exists t, det. repeat split. exact Hkeys.
  - exists rea. repeat split; try assumption; lia.
  - exists sav. split; [reflexivity | exact Hsav].
Qed.

(** ** The size of the document and the order of [CostBreakdown] *)

Lemma tally_app (l1 l2 : list (string * costs5)) :
  forall acc, tally acc (l1 ++ l2) = tally (tally acc l1) l2.
Proof.
  induction l1 as [|[t c] l1 IH]; intros acc; cbn [tally app]; [reflexivity |].
  apply IH.
Qed.

Lemma groups_add_keys (g : groups) (t : string) (c : costs5) :
  map fst (groups_add g t c) =
  match groups_get g t with
  | Some _ => map fst g
  | None => (map fst g ++ [t])%list
  end.
Proof.
  unfold groups_add. destruct (groups_get g t) eqn:E;
    rewrite groups_set_keys, E; reflexivity.
Qed.

Lemma groups_add_present (g : groups) (t : string) (c : costs5) :
  groups_get (groups_add g t c) t <> None.
Proof.
  unfold groups_add. destruct (groups_get g t);
    rewrite groups_get_set_same; discriminate.
Qed.

(** Resources of a type that has its entry add no key. *)
Lemma tally_same_type_present (t : string) (infos : list (string * costs5)) :
  forall (g : groups) (tot : costs5),
    groups_get g t <> None ->
    Forall (fun info => fst info = t) infos ->
    map fst (fst (tally (g, tot) infos)) = map fst g.
Proof.
  induction infos as [|[t0 c0] infos IH]; intros g tot Hg H;
    cbn [tally fst snd]; [reflexivity |].
  inversion H as [|? ? Ht0 H']; subst. cbn [fst] in *.
  rewrite IH; [| apply groups_add_present | exact H'].
  rewrite groups_add_keys. destruct (groups_get g t0); [reflexivity | congruence].
Qed.

(** The first resource of a new type appends its key. *)
Lemma tally_same_type_new (t : string) (infos : list (string * costs5))
  (g : groups) (tot : costs5) :
  groups_get g t = None ->
  infos <> [] ->
  Forall (fun info => fst info = t) infos ->
  map fst (fst (tally (g, tot) infos)) = (map fst g ++ [t])%list.
Proof.
  intros Hg Hne H. destruct infos as [|[t0 c0] infos]; [congruence |].
  inversion H as [|? ? Ht0 H']; subst. cbn [fst tally snd] in *.
  rewrite (tally_same_type_present t0);
    [| apply groups_add_present | exact H'].
  rewrite groups_add_keys, Hg. reflexivity.
Qed.

Lemma map_fst_repeat (t : string) (n : nat) (infos : list (string * costs5)) :
  map fst infos = repeat t n ->
  Forall (fun info => fst info = t) infos /\ List.length infos = n.
Proof.
  revert n. induction infos as [|i infos IH]; intros [|n] H; cbn in H;
    try discriminate.
  - split; [constructor | reflexivity].
  - injection H as Hi H. destruct (IH n H) as [Hall Hlen].
    split; [constructor; assumption | cbn; rewrite Hlen; reflexivity].
Qed.

(** The keys of [cost_breakdown] are the types in the order of their blocks. *)
Lemma tally_keys_in_order (types : list string) :
  forall (counts : list nat) (infos : list (string * costs5)) (g : groups)
         (tot : costs5),
    NoDup types ->
    (forall t, In t types -> groups_get g t = None) ->
    List.length counts = List.length types ->
    Forall (fun n => 1 <= n)%nat counts ->
    map fst infos =
      flat_map (fun tn => repeat (fst tn) (snd tn)) (combine types counts) ->
    map fst (fst (tally (g, tot) infos)) = (map fst g ++ types)%list.
Proof.
  induction types as [|t types IH]; intros [|n counts] infos g tot Hnd Hg Hlen Hc Hty;
    cbn [List.length] in Hlen; try discriminate.
  - cbn in Hty. apply map_eq_nil in Hty. subst infos.
    cbn [tally fst]. rewrite app_nil_r. reflexivity.
  - cbn [combine flat_map fst snd] in Hty.
    apply map_eq_app in Hty. destruct Hty as (i1 & i2 & -> & H1 & H2).
    destruct (map_fst_repeat t n i1 H1) as [Hall Hn].
    inversion Hc as [|? ? Hn1 Hc']; subst.
    inversion Hnd as [|? ? Hnotin Hnd']; subst.
    rewrite tally_app.
    pose proof (tally_same_type_new t i1 g tot (Hg t (or_introl eq_refl))
                  ltac:(intros ->; cbn in Hn1; lia) Hall) as Hkeys.
    destruct (tally (g, tot) i1) as [g1 tot1]. cbn [fst] in Hkeys.
    rewrite (IH counts i2 g1 tot1); try assumption.
    + rewrite Hkeys, <- app_assoc. reflexivity.
    + intros t' Ht'. apply groups_get_none. rewrite Hkeys.
      intros Hin. apply in_app_or in Hin. destruct Hin as [Hin | [<- | []]].
      * apply (proj1 (groups_get_none g t') (Hg t' (or_intror Ht'))). exact Hin.
      * contradiction.
    + lia.
Qed.

Lemma blocks_length (types : list string) :
  forall counts : list nat,
    List.length counts = List.length types ->
    Forall (fun n => 5 <= n <= 15)%nat counts ->
    (5 * List.length types <=
     List.length (flat_map (fun tn => repeat (fst tn) (snd tn)) (combine types counts))
     <= 15 * List.length types)%nat.
Proof.
  induction types as [|t types IH]; intros [|n counts] Hlen Hc;
    cbn [List.length] in Hlen; try discriminate.
  - cbn. lia.
  - inversion Hc as [|? ? Hn Hc']; subst.
    cbn [combine flat_map fst snd List.length].
    rewrite length_app, repeat_length.
    specialize (IH counts ltac:(lia) Hc'). lia.
Qed.

(** X17. In every run the document holds between 50 and 150 resources, and
    [CostBreakdown] has one entry per type of the catalog, in the order of
    the catalog. *)
Theorem report_size_and_breakdown_order :
  forall w : World,
  exists (data : dict) (w' : World) (rs breakdown : list value),
    generate_sample_data w = Ok (data, w') /\
    dict_get data "UnusedResources" = Some (VList rs) /\
    dict_get data "CostBreakdown" = Some (VList breakdown) /\
    (50 <= List.length rs <= 150)%nat /\
    map type_of breakdown = map Some resource_types.
Proof.
  intros w.
  destruct (returns_generate_sample_data w)
    as (data & w' & Erun & metrics & accounts & names & rs & infos & counts
        & -> & _ & Hsum & _ & Hcl & Hc & Hty).
  eexists _, w', rs, _. split; [exact Erun |].
  split; [reflexivity |]. split; [reflexivity |]. split.
  - rewrite <- (Forall2_length Hsum), <- (length_map fst infos), Hty.
    pose proof (blocks_length resource_types counts Hcl Hc) as H.
    exact H.
  - unfold dict_values, render_groups. rewrite !map_map. cbn [snd fst].
    rewrite (map_ext _ (fun tc => Some (fst tc)))
      by (intros [t c]; reflexivity).
    rewrite <- (map_map fst Some). f_equal.
    apply (tally_keys_in_order resource_types counts infos [] zero5);
      [apply resource_types_nodup | reflexivity | exact Hcl | | exact Hty].
    eapply Forall_impl; [| exact Hc]. intros n Hn. cbv beta in *. lia.
Qed.
